(** * SocialMetricsDjango: the request store, the cache and the two adapters

    A shallow embedding of [SocialMetricsDjango/models.py] and
    [SocialMetricsDjango/API.py].

    - Python values that travel through the code (scraper output, API
      responses, the [params] and [data] JSON columns) are [json] trees;
      a Python [dict] is an association list in insertion order.
    - A Python exception is a value of [exn]; a computation that may raise
      returns [res A].
    - Timestamps are microseconds since the Unix epoch (UTC), the precision
      of a Django [DateTimeField]; a [timedelta] is a number of microseconds.
    - The database table, the clock, the HTTP calls made so far and the
      number of UUIDs drawn form the [World]; methods that touch them are
      state transformers [M A].
    - What lives outside the two source files (the settings module, the
      Nitter scraper, [dateparser], [requests], [uuid4]) is collected in
      [Env] and taken as given.
    - Numbers are integers. The one float of the code, the quotient under
      [round], is the double nearest to the exact quotient, kept as an
      integer significand and a power of two ([true_divide]).
    - A string holds the UTF-8 encoding of a Python text. What [str.isdigit]
      and [int] know of the characters beyond ASCII is a table of the
      interpreter ([Interpreter]).
    - Calls of the logger are left out, except the one call whose argument
      cannot be evaluated (in [by_userName]).
    - [created_at.date()] is the day in UTC (the code runs with [USE_TZ]
      on, or its comparisons of [created_at] with an aware [now] would
      raise); the day that the [created_at__date] lookup compares is the day
      in Django's current time zone, a setting. *)

From Stdlib Require Import ZArith String Ascii List Bool Lia Permutation.
From stdpp Require Import base gmap sets list strings sorting.
Import ListNotations.

Open Scope string_scope.
Open Scope Z_scope.

(** ** Python values *)

#[local] Unset Elimination Schemes.
Inductive json : Type :=
| JNull
| JBool (b : bool)
| JInt (n : Z)
| JStr (s : string)
| JList (xs : list json)
| JDict (kv : list (string * json)).
#[local] Set Elimination Schemes.

Inductive exn : Type :=
| KeyError | ValueError | AttributeError | TypeError | IndexError
| AssertionError | OverflowError | ScraperError.

Inductive res (A : Type) : Type :=
| Ok (a : A)
| Raise (e : exn).
Arguments Ok {A} a.
Arguments Raise {A} e.

Definition res_bind {A B} (m : res A) (k : A -> res B) : res B :=
  match m with
  | Ok a => k a
  | Raise e => Raise e
  end.

Notation "'let?' x ':=' m 'in' k" := (res_bind m (fun x => k))
  (at level 10, x name, m at level 100, k at level 200).

Fixpoint res_mapM {A B} (f : A -> res B) (l : list A) : res (list B) :=
  match l with
  | [] => Ok []
  | x :: l' =>
      let? y := f x in
      let? ys := res_mapM f l' in
      Ok (y :: ys)
  end.

(** An induction principle that reaches below [JList] and [JDict]. *)
Section json_induction.
Variable P : json -> Prop.
Hypothesis HNull : P JNull.
Hypothesis HBool : forall b, P (JBool b).
Hypothesis HInt : forall n, P (JInt n).
Hypothesis HStr : forall s, P (JStr s).
Hypothesis HList : forall xs, Forall P xs -> P (JList xs).
Hypothesis HDict : forall kv, Forall (fun p => P (snd p)) kv -> P (JDict kv).

Fixpoint json_nested_ind (j : json) : P j :=
  match j with
  | JNull => HNull
  | JBool b => HBool b
  | JInt n => HInt n
  | JStr s => HStr s
  | JList xs =>
      HList xs
        ((fix go (l : list json) : Forall P l :=
            match l with
            | [] => List.Forall_nil P
            | x :: l' => List.Forall_cons P x l' (json_nested_ind x) (go l')
            end) xs)
  | JDict kv =>
      HDict kv
        ((fix go (l : list (string * json)) : Forall (fun p => P (snd p)) l :=
            match l with
            | [] => List.Forall_nil _
            | p :: l' => List.Forall_cons _ p l' (json_nested_ind (snd p)) (go l')
            end) kv)
  end.
End json_induction.

(** Structural equality of two values: what an exact lookup on a JSON
    column compares, and what [==] gives between a string and anything. *)
Fixpoint json_eqb (a b : json) : bool :=
  match a, b with
  | JNull, JNull => true
  | JBool x, JBool y => Bool.eqb x y
  | JInt x, JInt y => Z.eqb x y
  | JStr x, JStr y => String.eqb x y
  | JList xs, JList ys =>
      (fix go (l1 l2 : list json) : bool :=
         match l1, l2 with
         | [], [] => true
         | x :: l1', y :: l2' => json_eqb x y && go l1' l2'
         | _, _ => false
         end) xs ys
  | JDict xs, JDict ys =>
      (fix go (l1 l2 : list (string * json)) : bool :=
         match l1, l2 with
         | [], [] => true
         | (k1, x) :: l1', (k2, y) :: l2' =>
             String.eqb k1 k2 && json_eqb x y && go l1' l2'
         | _, _ => false
         end) xs ys
  | _, _ => false
  end.

(** [v == n] for an integer literal [n]: Python also accepts the [bool]
    that stands for it ([True == 1]). *)
Definition py_eq_int (v : json) (n : Z) : bool :=
  match v with
  | JInt m => m =? n
  | JBool b => Z.b2z b =? n
  | _ => false
  end.

(** [bool(v)]: the truth value of a Python object. *)
Definition truthy (v : json) : bool :=
  match v with
  | JNull => false
  | JBool b => b
  | JInt n => negb (n =? 0)
  | JStr s => negb (String.eqb s "")
  | JList xs => match xs with [] => false | _ => true end
  | JDict kv => match kv with [] => false | _ => true end
  end.

(** *** dictionaries *)

Fixpoint assoc (k : string) (kv : list (string * json)) : option json :=
  match kv with
  | [] => None
  | (k', v) :: kv' => if String.eqb k k' then Some v else assoc k kv'
  end.

(** [d[k] = v]: overwrite in place, or append a new key at the end. *)
Fixpoint dict_set (k : string) (v : json) (kv : list (string * json))
  : list (string * json) :=
  match kv with
  | [] => [(k, v)]
  | (k', v') :: kv' =>
      if String.eqb k k' then (k', v) :: kv' else (k', v') :: dict_set k v kv'
  end.

(** [d.update(other)]. *)
Definition dict_update (kv other : list (string * json)) : list (string * json) :=
  fold_left (fun acc p => dict_set (fst p) (snd p) acc) other kv.

(** [v.get(k, dflt)]: only a [dict] has the method. *)
Definition py_get (v : json) (k : string) (dflt : json) : res json :=
  match v with
  | JDict kv => Ok (match assoc k kv with Some x => x | None => dflt end)
  | _ => Raise AttributeError
  end.

(** A string holds the UTF-8 encoding of a Python text: a character is a
    byte together with the continuation bytes that follow it. *)
Definition byte_of (c : ascii) : Z := Z.of_nat (nat_of_ascii c).

Definition is_continuation (c : ascii) : bool :=
  (128 <=? byte_of c) && (byte_of c <? 192).

Fixpoint utf8_chars (s : string) : list string :=
  match s with
  | EmptyString => []
  | String c s' =>
      match utf8_chars s' with
      | String c' x :: xs =>
          if is_continuation c' then String c (String c' x) :: xs
          else String c EmptyString :: String c' x :: xs
      | rest => String c EmptyString :: rest
      end
  end.

(** [v[0]]. *)
Definition py_index0 (v : json) : res json :=
  match v with
  | JList [] => Raise IndexError
  | JList (x :: _) => Ok x
  | JStr s => match utf8_chars s with
              | [] => Raise IndexError
              | x :: _ => Ok (JStr x)
              end
  | JDict _ => Raise KeyError
  | _ => Raise TypeError
  end.

(** Iteration, as [for x in v] sees the value. *)
Definition string_chars (s : string) : list json := map JStr (utf8_chars s).

Definition py_iter (v : json) : res (list json) :=
  match v with
  | JList xs => Ok xs
  | JDict kv => Ok (map (fun p => JStr (fst p)) kv)
  | JStr s => Ok (string_chars s)
  | _ => Raise TypeError
  end.

(** *** strings *)

Fixpoint str_startswith (p s : string) : bool :=
  match p, s with
  | EmptyString, _ => true
  | String a p', String b s' => Ascii.eqb a b && str_startswith p' s'
  | String _ _, EmptyString => false
  end.

(** [p in s] for two strings: [p] occurs in [s] as a contiguous block. *)
Fixpoint str_contains (p s : string) : bool :=
  str_startswith p s ||
  match s with
  | EmptyString => false
  | String _ s' => str_contains p s'
  end.

(** [x in v] with [x] a string. *)
Definition py_str_in (x : string) (v : json) : res bool :=
  match v with
  | JStr s => Ok (str_contains x s)
  | JList xs => Ok (existsb (json_eqb (JStr x)) xs)
  | JDict kv => Ok (existsb (fun p => String.eqb x (fst p)) kv)
  | _ => Raise TypeError
  end.

(** *** texts and numbers *)

(** The characters of a text as code points. A byte that is no part of a
    well-formed UTF-8 sequence gives the character [-1], which no Python
    text contains. *)
Fixpoint utf8_decode (pending : nat) (acc : Z) (s : string) : list Z :=
  match s with
  | EmptyString => match pending with O => [] | S _ => [-1] end
  | String c s' =>
      let b := byte_of c in
      match pending with
      | O =>
          if b <? 128 then b :: utf8_decode 0 0 s'
          else if (194 <=? b) && (b <? 224) then utf8_decode 1 (b - 192) s'
          else if (224 <=? b) && (b <? 240) then utf8_decode 2 (b - 224) s'
          else if (240 <=? b) && (b <? 245) then utf8_decode 3 (b - 240) s'
          else -1 :: utf8_decode 0 0 s'
      | S k =>
          if (128 <=? b) && (b <? 192) then
            match k with
            | O => (64 * acc + (b - 128)) :: utf8_decode 0 0 s'
            | S _ => utf8_decode k (64 * acc + (b - 128)) s'
            end
          else -1 :: utf8_decode 0 0 s'
      end
  end.

Definition characters (s : string) : list Z := utf8_decode 0 0 s.

(** What [str.isdigit] and [int] take from the interpreter: the tables of
    its Unicode database for the characters beyond ASCII (white space,
    the digit property, the value of a decimal digit), and the limit on the
    number of digits that [int] reads from a text
    ([sys.get_int_max_str_digits()]; 0 when there is none). *)
Record Interpreter : Type := {
  unicode_isspace : Z -> bool;
  unicode_isdigit : Z -> bool;
  unicode_decimal : Z -> option Z;
  int_max_str_digits : Z
}.

Definition is_digit (c : Z) : bool := (48 <=? c) && (c <=? 57).

(** The white space that [int] skips around an ASCII text. *)
Definition is_space (c : Z) : bool := (c =? 32) || ((9 <=? c) && (c <=? 13)).

Fixpoint lstrip (cs : list Z) : list Z :=
  match cs with
  | c :: cs' => if is_space c then lstrip cs' else cs
  | [] => []
  end.

Definition rstrip (cs : list Z) : list Z := rev (lstrip (rev cs)).

(** The digits of an integer literal: digits, with single underscores
    allowed between two digits. [after_digit] tells whether the previous
    character was a digit; the result is the number read and the number
    of its digits. *)
Fixpoint int_digits (after_digit : bool) (acc count : Z) (cs : list Z)
  : option (Z * Z) :=
  match cs with
  | [] => if after_digit then Some (acc, count) else None
  | c :: cs' =>
      if is_digit c then int_digits true (10 * acc + (c - 48)) (count + 1) cs'
      else if c =? 95 then
             if after_digit then int_digits false acc count cs' else None
           else None
  end.

Section Text.
Variable py : Interpreter.

Definition char_isdigit (c : Z) : bool :=
  is_digit c || ((128 <=? c) && unicode_isdigit py c).

(** [s.isdigit()]: the text is not empty and all its characters are
    digits. *)
Definition str_isdigit (s : string) : bool :=
  match characters s with
  | [] => false
  | cs => forallb char_isdigit cs
  end.

(** What [int] makes of a character before it reads the text: an ASCII
    character stays, white space becomes a blank, a decimal digit of
    another script becomes the ASCII digit of its value, and anything else
    becomes a question mark. *)
Definition to_ascii (c : Z) : Z :=
  if (0 <=? c) && (c <? 127) then c
  else if (127 <? c) && unicode_isspace py c then 32
  else
    match (if 127 <? c then unicode_decimal py c else None) with
    | Some d => if (0 <=? d) && (d <=? 9) then 48 + d else 63
    | None => 63
    end.

(** [int(s)] on a text: optional white space around, an optional sign,
    decimal digits; [None] is the [ValueError]. *)
Definition int_of_str (s : string) : option Z :=
  let cs := lstrip (rstrip (map to_ascii (characters s))) in
  let signed :=
    match cs with
    | c :: cs' => if c =? 45 then (-1, cs') else if c =? 43 then (1, cs') else (1, cs)
    | [] => (1, cs)
    end in
  match int_digits false 0 0 (snd signed) with
  | Some (n, count) =>
      if (0 <? int_max_str_digits py) && (640 <? count)
         && (int_max_str_digits py <? count)
      then None
      else Some (fst signed * n)
  | None => None
  end.

(** [int(v)]. *)
Definition py_int (v : json) : res Z :=
  match v with
  | JInt n => Ok n
  | JBool b => Ok (Z.b2z b)
  | JStr s => match int_of_str s with Some n => Ok n | None => Raise ValueError end
  | _ => Raise TypeError
  end.

End Text.

(** [a @ b]: none of the values that travel here has a matrix product. *)
Definition py_matmul (a b : json) : res json := Raise TypeError.

(** *** [round(value / total)] *)

(** The integer nearest to [p / q] for [q > 0], the even one of the two
    when [p / q] lies half-way. *)
Definition round_half_even (p q : Z) : Z :=
  let d := p / q in
  let r := p mod q in
  if 2 * r <? q then d
  else if q <? 2 * r then d + 1
  else if Z.even d then d else d + 1.

(** [value / total] for integers and [total > 0]: the double nearest to
    the exact quotient (a tie goes to the even significand), as the pair
    [(m, u)] that stands for [m * 2^u]. The significand is rounded to 53
    bits, or to a multiple of 2^-1074 where the quotient is that small;
    [None] is the [OverflowError] of a quotient that rounds to 2^1024 or
    beyond. *)
Definition true_divide (value total : Z) : option (Z * Z) :=
  if value =? 0 then Some (0, 0)
  else
    let n := Z.abs value in
    let d := Z.log2 n - Z.log2 total in
    let below := if 0 <=? d then n <? total * 2 ^ d else n * 2 ^ (- d) <? total in
    let e := if below then d - 1 else d in
    let u := Z.max (e - 52) (-1074) in
    let m := if 0 <=? u then round_half_even n (total * 2 ^ u)
             else round_half_even (n * 2 ^ (- u)) total in
    if (0 <=? u) && (2 ^ 1024 <=? m * 2 ^ u) then None
    else Some (Z.sgn value * m, u).

(** [round(x)] of the double [m * 2^u]. *)
Definition float_round (m u : Z) : Z :=
  if 0 <=? u then m * 2 ^ u else round_half_even m (2 ^ (- u)).

(** [round(value / total)] for [total > 0]. *)
Definition py_round_div (value total : Z) : res Z :=
  match true_divide value total with
  | Some (m, u) => Ok (float_round m u)
  | None => Raise OverflowError
  end.

Definition ascii_lower (c : ascii) : ascii :=
  let n := nat_of_ascii c in
  if (Nat.leb 65 n && Nat.leb n 90)%bool then ascii_of_nat (n + 32) else c.

Fixpoint str_lower (s : string) : string :=
  match s with
  | EmptyString => EmptyString
  | String c s' => String (ascii_lower c) (str_lower s')
  end.

(** ** Time *)

(** A [datetime] stored in the table is a number of microseconds since the
    epoch; [created_at.date()] is the day it falls on, counted from
    1970-01-01. *)
Definition usec_per_day : Z := 86400000000.

Definition date_of (t : Z) : Z := t / usec_per_day.

(** Year, month and day of a day number (proleptic Gregorian calendar). *)
Definition civil_of_days (d : Z) : Z * Z * Z :=
  let z := d + 719468 in
  let era := z / 146097 in
  let doe := z - era * 146097 in
  let yoe := (doe - doe / 1460 + doe / 36524 - doe / 146096) / 365 in
  let doy := doe - (365 * yoe + yoe / 4 - yoe / 100) in
  let mp := (5 * doy + 2) / 153 in
  let day := doy - (153 * mp + 2) / 5 + 1 in
  let month := if mp <? 10 then mp + 3 else mp - 9 in
  let year := yoe + era * 400 + (if month <=? 2 then 1 else 0) in
  (year, month, day).

Definition digit_char (n : Z) : ascii := ascii_of_nat (48 + Z.to_nat (n mod 10)).

Definition pad2 (n : Z) : string :=
  String (digit_char (n / 10)) (String (digit_char n) EmptyString).

Definition pad4 (n : Z) : string :=
  String (digit_char (n / 1000)) (String (digit_char (n / 100)) (pad2 n)).

Definition pad6 (n : Z) : string :=
  String (digit_char (n / 100000)) (String (digit_char (n / 10000)) (pad4 n)).

(** [date.isoformat()]: [YYYY-MM-DD]. *)
Definition date_isoformat (d : Z) : string :=
  let '(y, m, dd) := civil_of_days d in
  pad4 y ++ "-" ++ pad2 m ++ "-" ++ pad2 dd.

(** What [dateparser.parse] hands back: the fields of a [datetime], with
    the UTC offset in minutes when the value is timezone-aware. *)
Record pydatetime : Type := {
  dt_year : Z; dt_month : Z; dt_day : Z;
  dt_hour : Z; dt_minute : Z; dt_second : Z; dt_microsecond : Z;
  dt_utcoffset : option Z
}.

(** [datetime.isoformat()]. *)
Definition datetime_isoformat (t : pydatetime) : string :=
  pad4 (dt_year t) ++ "-" ++ pad2 (dt_month t) ++ "-" ++ pad2 (dt_day t) ++ "T"
  ++ pad2 (dt_hour t) ++ ":" ++ pad2 (dt_minute t) ++ ":" ++ pad2 (dt_second t)
  ++ (if dt_microsecond t =? 0 then "" else "." ++ pad6 (dt_microsecond t))
  ++ match dt_utcoffset t with
     | None => ""
     | Some o =>
         (if o <? 0 then "-" else "+")
         ++ pad2 (Z.abs o / 60) ++ ":" ++ pad2 (Z.abs o mod 60)
     end.

(** ** models.py: the table of requests *)

Definition SERVICES : list (string * string) :=
  [("Twitter", "Twitter"); ("Youtube", "Youtube");
   ("Instagram", "Instagram"); ("Facebook", "Facebook")].

Record ServiceRequest : Type := {
  sr_id : Z;              (* the UUID primary key, as a 128-bit number *)
  created_at : Z;
  service : string;
  params : json;
  data : json
}.

(** A [QuerySet] is the list of rows it selects. *)
Definition QuerySet : Type := list ServiceRequest.

Definition filter_service (s : string) (q : QuerySet) : QuerySet :=
  List.filter (fun r => String.eqb (service r) s) q.

Definition filter_params (p : json) (q : QuerySet) : QuerySet :=
  List.filter (fun r => json_eqb (params r) p) q.

Definition filter_created_at_lte (t : Z) (q : QuerySet) : QuerySet :=
  List.filter (fun r => created_at r <=? t) q.

(** [filter(created_at__date=day)]: the lookup takes the date of
    [created_at] in the current time zone, [utcoffset] being the offset of
    that zone from UTC at an instant. *)
Definition filter_created_at_date (utcoffset : Z -> Z) (day : Z) (q : QuerySet)
  : QuerySet :=
  List.filter (fun r => date_of (created_at r + utcoffset (created_at r)) =? day) q.

(** [order_by('-created_at')]. *)
Definition newer_first (a b : ServiceRequest) : Prop :=
  created_at b <= created_at a.

Definition pk_order (a b : ServiceRequest) : Prop := sr_id a <= sr_id b.

#[global] Instance newer_first_dec : RelDecision newer_first.
Proof. intros a b. unfold newer_first. apply _. Defined.

#[global] Instance pk_order_dec : RelDecision pk_order.
Proof. intros a b. unfold pk_order. apply _. Defined.

Definition order_by_created_at_desc (q : QuerySet) : QuerySet :=
  merge_sort newer_first q.

(** A query set without an ordering is ordered by primary key when
    [first()] is asked of it. *)
Definition order_by_pk (q : QuerySet) : QuerySet := merge_sort pk_order q.

Definition first_ordered (q : QuerySet) : option ServiceRequest := head q.

Definition first (q : QuerySet) : option ServiceRequest := head (order_by_pk q).

(** ** What the two files take from outside *)

(** The Nitter scraper object. *)
Record Scraper : Type := {
  scraper_get_tweets : string -> Z -> res json;   (* get_tweets(name, mode='user', number=n) *)
  scraper_get_profile_info : string -> res json
}.

Record Env : Type := {
  (* settings.py *)
  TwitterConfig_CACHE_TIMEDELTA : Z;
  TwitterConfig_MAX_TWEETS : Z;
  TwitterConfig_DEFAULT_IMG : json;
  TwitterConfig_DEFAULT_VIDEO : json;
  YoutubeConfig_CACHE_TIMEDELTA : Z;
  YoutubeConfig_MAX_RESULTS : json;
  YoutubeConfig_DEFAULT_IMG : json;
  YoutubeConfig_KEY : json;
  (* Django's settings: the offset from UTC, in microseconds, of the
     current time zone (TIME_ZONE) at an instant; 0 throughout for UTC *)
  TIME_ZONE_utcoffset : Z -> Z;
  (* the interpreter *)
  interpreter : Interpreter;
  (* [datetime.datetime.now(datetime.timezone.utc)] in the position of a
     default argument: evaluated once, when the [def] statement of the
     module runs *)
  models_import_time : Z;
  API_import_time : Z;
  (* third-party code *)
  Nitter : res Scraper;                               (* Nitter(log_level=..., skip_instance_check=...) *)
  dateparser_parse : string -> option pydatetime;     (* None when the text is not a date *)
  requests_get : string -> json -> option json;       (* None: a RequestException *)
  uuid4 : nat -> Z;                                   (* the n-th UUID drawn *)
  insert_fails : ServiceRequest -> bool               (* the INSERT raises *)
}.

(** The mutable surroundings of a call. The clock is read, never advanced,
    by the code; whoever calls sets it. *)
Record World : Type := {
  db : QuerySet;
  clock : Z;
  http_log : list (string * json);
  uuids_drawn : nat
}.

Definition M (A : Type) : Type := World -> res A * World.

Definition mret {A} (a : A) : M A := fun w => (Ok a, w).

Definition mbind {A B} (m : M A) (k : A -> M B) : M B :=
  fun w =>
    match m w with
    | (Ok a, w') => k a w'
    | (Raise e, w') => (Raise e, w')
    end.

Definition lift {A} (r : res A) : M A := fun w => (r, w).

Notation "x <- m ;; k" := (mbind m (fun x => k))
  (at level 100, m at next level, right associativity).

Definition objects : M QuerySet := fun w => (Ok (db w), w).

Definition now : M Z := fun w => (Ok (clock w), w).

Section Code.
Variable env : Env.

(** [dateparser.parse(v)]: refuses what is not a string. *)
Definition dateparser_parse_value (v : json) : res (option pydatetime) :=
  match v with
  | JStr s => Ok (dateparser_parse env s)
  | _ => Raise TypeError
  end.

(** [dateparser.parse(v).isoformat()]: [None] has no such method. *)
Definition parse_isoformat (v : json) : res json :=
  let? parsed := dateparser_parse_value v in
  match parsed with
  | Some t => Ok (JStr (datetime_isoformat t))
  | None => Raise AttributeError
  end.

(** *** ServiceRequest._last_request *)
Definition ServiceRequest_last_request
    (service_ : string) (params_ : json) (date_time : option Z)
  : M (option ServiceRequest) :=
  let date_time := default (models_import_time env) date_time in
  q <- objects ;;
  mret (first_ordered
          (order_by_created_at_desc
             (filter_created_at_lte date_time
                (filter_params params_ (filter_service service_ q))))).

(** *** class APIBase *)
Record APIBase : Type := { self_service : string }.

Definition APIBase_init (service_ : string) : res APIBase :=
  if existsb (String.eqb service_) (map fst SERVICES)
  then Ok {| self_service := service_ |}
  else Raise AssertionError.

(** [_save]: the row gets its UUID when it is built and its [created_at]
    when it is inserted; an exception of the insert is logged and lost. *)
Definition APIBase_save (self : APIBase) (params_ data_ : json) : M unit :=
  fun w =>
    let model := {| sr_id := uuid4 env (uuids_drawn w);
                    created_at := clock w;
                    service := self_service self;
                    params := params_;
                    data := data_ |} in
    let rows := if insert_fails env model then db w else (db w ++ [model])%list in
    (Ok tt, {| db := rows; clock := clock w; http_log := http_log w;
               uuids_drawn := S (uuids_drawn w) |}).

Definition APIBase_all (self : APIBase) : M QuerySet :=
  q <- objects ;; mret (filter_service (self_service self) q).

Definition APIBase_last_request
    (self : APIBase) (params_ : json) (date_time : option Z)
  : M (option ServiceRequest) :=
  let date_time := default (API_import_time env) date_time in
  ServiceRequest_last_request (self_service self) params_ (Some date_time).

Definition HTTPStatus_OK : json := JInt 200.
Definition HTTPStatus_INTERNAL_SERVER_ERROR : json := JInt 500.

(** [_cache]: [None] is a miss. *)
Definition APIBase_cache (self : APIBase) (params_ : json) (cache_time : Z)
  : M (option json) :=
  last_request <- APIBase_last_request self params_ None ;;
  match last_request with
  | None => mret None
  | Some last_request =>
      t <- now ;;
      let date := t - cache_time in
      if created_at last_request <? date then mret None
      else
        mret (Some (JDict
          [("status", HTTPStatus_OK);
           ("cache_response", JBool true);
           ("cache_date", JStr (date_isoformat (date_of (created_at last_request))));
           ("result", data last_request)]))
  end.

(** *** class RequestsHandler *)
Definition make_request (base_url endpoint : string) (params_ : json) : M json :=
  fun w =>
    let params_ := if truthy params_ then params_ else JDict [] in
    let url := base_url ++ endpoint in
    let w' := {| db := db w; clock := clock w;
                 http_log := (http_log w ++ [(url, params_)])%list;
                 uuids_drawn := uuids_drawn w |} in
    match requests_get env url params_ with
    | Some response => (Ok response, w')
    | None => (Ok (JDict []), w')
    end.

(** *** Shared by the two adapters *)

(** [[x for x in xs if keep(x)]], where [keep] may raise. *)
Fixpoint res_filter {A} (keep : A -> res bool) (xs : list A) : res (list A) :=
  match xs with
  | [] => Ok []
  | x :: xs' =>
      let? b := keep x in
      let? rest := res_filter keep xs' in
      Ok (if b then x :: rest else rest)
  end.

(** [all(unique=True)]: one row per day on which a row was created. *)
Definition days_of (q : QuerySet) : gset Z :=
  list_to_set (map (fun r => date_of (created_at r)) q).

Definition all_unique (q : QuerySet) : list (option ServiceRequest) :=
  map (fun day => first (filter_created_at_date (TIME_ZONE_utcoffset env) day q))
      (elements (days_of q)).

Definition history_entry (x : option ServiceRequest) : res json :=
  match x with
  | None => Raise AttributeError
  | Some x =>
      let? profile := py_get (data x) "profile" (JDict []) in
      let? stats := py_get profile "stats" JNull in
      Ok (JDict [("date", JStr (date_isoformat (date_of (created_at x))));
                 ("stats", stats)])
  end.

(** *** class APITwitter *)
Record APITwitter : Type := {
  tw_super : APIBase;
  username : string;
  tw_params : json
}.

(** [__init__]; the assertion of [APIBase.__init__] is
    [APITwitter_init_assertion] below. *)
Definition APITwitter_init (username_ : string) : APITwitter :=
  {| tw_super := {| self_service := "Twitter" |};
     username := username_;
     tw_params := JDict [("userName", JStr username_)] |}.

Definition APITwitter_get_tweets (self : APITwitter) (scraper : Scraper) : json :=
  match
    (let? r := scraper_get_tweets scraper (username self)
                 (TwitterConfig_MAX_TWEETS env) in
     py_get r "tweets" (JList []))
  with
  | Ok v => v
  | Raise _ => JList []
  end.

Definition APITwitter_get_profile_info (self : APITwitter) (scraper : Scraper) : json :=
  match scraper_get_profile_info scraper (username self) with
  | Ok v => v
  | Raise _ => JDict []
  end.

Definition fallback_date : json := JStr "26/06/2003 15:00".

(** The condition of the comprehension that opens [__clean]. *)
Definition link_has_username (self : APITwitter) (tweet : json) : res bool :=
  let? link := py_get tweet "link" (JStr "") in
  py_str_in (username self) link.

(** The dictionary built for one tweet. *)
Definition clean_tweet (tweet stats : json) : res json :=
  let? user := py_get tweet "user" (JDict []) in
  let? url := py_get tweet "link" (JStr "#") in
  let? text := py_get tweet "text" (JStr "") in
  let? pictures := py_get tweet "pictures" JNull in
  let? picture :=
    (if truthy pictures
     then let? ps := py_get tweet "pictures" (JList [TwitterConfig_DEFAULT_IMG env]) in
          py_index0 ps
     else Ok (JStr "")) in
  let? video := py_get tweet "videos" (JList [TwitterConfig_DEFAULT_VIDEO env]) in
  let? date := py_get tweet "date" fallback_date in
  let? datetime := parse_isoformat date in
  Ok (JDict [("user", user); ("url", url); ("text", text);
             ("picture", picture); ("video", video);
             ("statistics", stats); ("datetime", datetime)]).

(** [int(stats.get(key, 0))]. *)
Definition stat_int (stats : json) (key : string) : res Z :=
  let? v := py_get stats key (JInt 0) in py_int (interpreter env) v.

(** The running sums kept in [more_statistics]. *)
Record TwitterSums : Type := {
  avgRetweets : Z; avgLikes : Z; avgComments : Z; avgQuotes : Z
}.

(** The body of [for tweet in tweets], threading the list built so far
    and the sums. *)
Fixpoint clean_loop (tweets : list json) (acc : list json) (sums : TwitterSums)
  : res (list json * TwitterSums) :=
  match tweets with
  | [] => Ok (acc, sums)
  | tweet :: rest =>
      let? stats := py_get tweet "stats" (JDict []) in
      let? d := clean_tweet tweet stats in
      let acc := (acc ++ [d])%list in
      let? r := stat_int stats "retweets" in
      let? l := stat_int stats "likes" in
      let? c := stat_int stats "comments" in
      let? q := stat_int stats "quotes" in
      clean_loop rest acc
        {| avgRetweets := avgRetweets sums + r;
           avgLikes := avgLikes sums + l;
           avgComments := avgComments sums + c;
           avgQuotes := avgQuotes sums + q |}
  end.

(** The averages put in the place of the sums: [round(value / total)]
    key by key, or 0 throughout when there is no tweet. *)
Definition average (value total : Z) : res Z :=
  if 0 <? total then py_round_div value total else Ok 0.

Definition twitter_averages (sums : TwitterSums) (total_tweets : Z)
  : res (list (string * json)) :=
  let? r := average (avgRetweets sums) total_tweets in
  let? l := average (avgLikes sums) total_tweets in
  let? c := average (avgComments sums) total_tweets in
  let? q := average (avgQuotes sums) total_tweets in
  Ok [("avgRetweets", JInt r); ("avgLikes", JInt l);
      ("avgComments", JInt c); ("avgQuotes", JInt q)].

(** [data['profile'] = profile], then the two updates of it. *)
Definition clean_profile (profile : json) (more_statistics : list (string * json))
  : res json :=
  let? joined_raw := py_get profile "joined" fallback_date in
  let? joined := parse_isoformat joined_raw in
  match profile with
  | JDict kv =>
      let kv := dict_set "joined" joined kv in
      match assoc "stats" kv with
      | None => Raise KeyError
      | Some (JDict stats) =>
          Ok (JDict (dict_set "stats" (JDict (dict_update stats more_statistics)) kv))
      | Some _ => Raise AttributeError
      end
  | _ => Raise TypeError
  end.

(** [__clean]. *)
Definition APITwitter_clean (self : APITwitter) (profile tweets : json) : res json :=
  let? all_tweets := py_iter tweets in
  let? tweets := res_filter (link_has_username self) all_tweets in
  let? looped :=
    clean_loop tweets []
      {| avgRetweets := 0; avgLikes := 0; avgComments := 0; avgQuotes := 0 |} in
  let? more_statistics :=
    twitter_averages (snd looped) (Z.of_nat (length tweets)) in
  let? profile := clean_profile profile more_statistics in
  Ok (JDict [("profile", profile); ("tweets", JList (fst looped))]).

Definition APITwitter_save (self : APITwitter) (data_ : json) : M unit :=
  APIBase_save (tw_super self) (tw_params self) data_.

(** [last_request]: its default, too, is the time of the import. *)
Definition APITwitter_last_request (self : APITwitter) (date_time : option Z)
  : M (option ServiceRequest) :=
  APIBase_last_request (tw_super self) (tw_params self)
    (Some (default (API_import_time env) date_time)).

(** [get]. *)
Definition APITwitter_get (self : APITwitter) (cache : bool) : M json :=
  cached <- (if cache
             then APIBase_cache (tw_super self) (tw_params self)
                    (TwitterConfig_CACHE_TIMEDELTA env)
             else mret None) ;;
  match cached with
  | Some response => mret response
  | None =>
      scraper <- lift (Nitter env) ;;
      let tweets := APITwitter_get_tweets self scraper in
      let profile := APITwitter_get_profile_info self scraper in
      if negb (truthy tweets) || negb (truthy profile) then
        mret (JDict [("status", HTTPStatus_INTERNAL_SERVER_ERROR);
                     ("error", JStr "Twitter Scraper couldn't fetch data")])
      else
        result <- lift (APITwitter_clean self profile tweets) ;;
        _ <- APITwitter_save self result ;;
        mret (JDict [("status", HTTPStatus_OK);
                     ("cache_response", JBool false);
                     ("result", result)])
  end.

(** [all(unique=False)] and [all(unique=True)]. *)
Definition APITwitter_all (self : APITwitter) : M QuerySet :=
  q <- APIBase_all (tw_super self) ;; mret (filter_params (tw_params self) q).

Definition APITwitter_all_unique (self : APITwitter)
  : M (list (option ServiceRequest)) :=
  q <- APITwitter_all self ;; mret (all_unique q).

Definition APITwitter_history (self : APITwitter) : M (list json) :=
  rows <- APITwitter_all_unique self ;; lift (res_mapM history_entry rows).

(** *** class APIYoutube *)
Definition base_url : string := "https://www.googleapis.com/youtube/v3".

Record APIYoutube : Type := {
  yt_super : APIBase;
  api_key : json;
  id_ : json;
  yt_params : json
}.

Definition APIYoutube_init (id api_key_ : json) : APIYoutube :=
  {| yt_super := {| self_service := "Youtube" |};
     api_key := api_key_;
     id_ := id;
     yt_params := JDict [("id", id)] |}.

(** [v[k]] with a string key. *)
Definition py_getitem (v : json) (k : string) : res json :=
  match v with
  | JDict kv => match assoc k kv with Some x => Ok x | None => Raise KeyError end
  | _ => Raise TypeError
  end.

(** [",".join(xs)]. *)
Fixpoint str_join_comma (xs : list json) : res string :=
  match xs with
  | [] => Ok ""
  | [JStr s] => Ok s
  | JStr s :: rest => let? r := str_join_comma rest in Ok (s ++ "," ++ r)
  | _ => Raise TypeError
  end.

(** The rows that [filter(service='Youtube',
    data__profile__userName__iexact=userName)] selects. *)
Definition profile_userName_iexact (userName : string) (r : ServiceRequest) : bool :=
  match data r with
  | JDict kv =>
      match assoc "profile" kv with
      | Some (JDict profile) =>
          match assoc "userName" profile with
          | Some (JStr s) => String.eqb (str_lower s) (str_lower userName)
          | _ => false
          end
      | _ => false
      end
  | _ => false
  end.

Definition filter_userName_iexact (userName : string) (q : QuerySet) : QuerySet :=
  List.filter (profile_userName_iexact userName) q.

(** [response.get('pageInfo', {}).get('totalResults', 0)], and the
    comparison [... == 1] made of it. *)
Definition totalResults (response : json) : res json :=
  let? pageInfo := py_get response "pageInfo" (JDict []) in
  py_get pageInfo "totalResults" (JInt 0).

Definition totalResults_is_1 (response : json) : res bool :=
  let? n := totalResults response in Ok (py_eq_int n 1).

Definition double_quote : string := String (ascii_of_nat 34) EmptyString.

(** The branch of [by_userName] for a malformed handle calls
    [logger.error] with [f'... must start with ' @ ' and must not have
    spaces.']: the quote before [@] closes the f-string, so that the
    argument is a matrix product of two texts. This is the first of
    them. *)
Definition malformed_handle_message (userName : string) : json :=
  JStr ("APIYoutube - " ++ double_quote ++ userName ++ double_quote
        ++ " -The username must start with ").

(** [by_userName]; [userName] is a string. *)
Definition by_userName (userName : string) (api_key_ : json) : M (option APIYoutube) :=
  if negb (str_startswith "@" userName) || str_contains " " userName then
    _ <- lift (py_matmul (malformed_handle_message userName)
                 (JStr " and must not have spaces.")) ;;
    mret None
  else
    q <- objects ;;
    match first (filter_userName_iexact userName (filter_service "Youtube" q)) with
    | Some service_request =>
        youtube_id <- lift (let? profile := py_get (data service_request) "profile" (JDict []) in
                            py_get profile "id" JNull) ;;
        mret (Some (APIYoutube_init youtube_id api_key_))
    | None =>
        let params_ :=
          JDict [("forHandle", JStr userName); ("part", JStr "id"); ("key", api_key_)] in
        response <- make_request base_url "/channels" params_ ;;
        if negb (truthy response) then mret None
        else
          one <- lift (totalResults_is_1 response) ;;
          if negb one then mret None
          else
            items <- lift (py_get response "items" (JList [])) ;;
            youtube_id <- lift (if truthy items
                                then let? item := py_index0 items in
                                     py_get item "id" JNull
                                else Ok JNull) ;;
            if negb (truthy youtube_id) then mret None
            else mret (Some (APIYoutube_init youtube_id api_key_))
    end.

Definition APIYoutube_get_profile (self : APIYoutube) : M json :=
  let params_ :=
    JDict [("part", JStr "statistics,status,snippet");
           ("id", id_ self); ("key", api_key self)] in
  response <- make_request base_url "/channels" params_ ;;
  if negb (truthy response) then mret JNull
  else
    one <- lift (totalResults_is_1 response) ;;
    if negb one then mret JNull else mret response.

Definition APIYoutube_get_videos (self : APIYoutube) : M json :=
  let params_ :=
    JDict [("channelId", id_ self);
           ("maxResults", YoutubeConfig_MAX_RESULTS env);
           ("order", JStr "date"); ("type", JStr "video");
           ("key", api_key self)] in
  response <- make_request base_url "/search" params_ ;;
  if negb (truthy response) then mret JNull
  else
    videos_items <- lift (py_get response "items" (JList [])) ;;
    if negb (truthy videos_items) then mret JNull
    else
      videos <- lift (let? items := py_iter videos_items in
                      let? ids := res_mapM (fun video =>
                                              let? i := py_getitem video "id" in
                                              py_getitem i "videoId") items in
                      str_join_comma ids) ;;
      let params_ :=
        JDict [("part", JStr "id,snippet,statistics");
               ("id", JStr videos);
               ("key", if truthy (api_key self) then api_key self
                       else YoutubeConfig_KEY env)] in
      response <- make_request base_url "/videos" params_ ;;
      if negb (truthy response) then mret JNull else mret response.

(** [profile.get(a, {}).get(b)] and its longer forms. *)
Definition get2 (v : json) (a b : string) (dflt : json) : res json :=
  let? x := py_get v a (JDict []) in py_get x b dflt.

Definition get4 (v : json) (a b c d : string) (dflt : json) : res json :=
  let? x := py_get v a (JDict []) in
  let? y := py_get x b (JDict []) in
  let? z := py_get y c (JDict []) in
  py_get z d dflt.

(** [int(profile.get('statistics', {}).get(key, 0))]. *)
Definition channel_stat (profile : json) (key : string) : res Z :=
  let? v := get2 profile "statistics" key (JInt 0) in py_int (interpreter env) v.

(** [lambda x: int(x) if x.isdigit() else 0]. *)
Definition coerce_stat (x : json) : res json :=
  match x with
  | JStr s =>
      if str_isdigit (interpreter env) s
      then let? n := py_int (interpreter env) x in Ok (JInt n)
      else Ok (JInt 0)
  | _ => Raise AttributeError
  end.

(** [dict(zip(stats.keys(), map(coerce, stats.values())))]. *)
Definition coerce_statistics (stats : json) : res json :=
  match stats with
  | JDict kv =>
      let? kv' := res_mapM (fun p => let? v := coerce_stat (snd p) in Ok (fst p, v)) kv in
      Ok (JDict kv')
  | _ => Raise AttributeError
  end.

Definition clean_video (video snippet stats : json) : res json :=
  let? vid := py_get video "id" JNull in
  let? title := py_get snippet "title" JNull in
  let? publishedAt := py_get snippet "publishedAt" JNull in
  let? image :=
    (let? thumbnails := py_get snippet "thumbnails" (JDict []) in
     let? standard := py_get thumbnails "standard" (JDict []) in
     py_get standard "url" (YoutubeConfig_DEFAULT_IMG env)) in
  let? statistics := coerce_statistics stats in
  Ok (JDict [("id", vid); ("title", title); ("publishedAt", publishedAt);
             ("image", image); ("statistics", statistics)]).

Record YoutubeSums : Type := { avgViews : Z; yt_avgLikes : Z; yt_avgComments : Z }.

Fixpoint youtube_clean_loop (videos : list json) (acc : list json) (sums : YoutubeSums)
  : res (list json * YoutubeSums) :=
  match videos with
  | [] => Ok (acc, sums)
  | video :: rest =>
      let? snippet := py_get video "snippet" (JDict []) in
      let? stats := py_get video "statistics" (JDict []) in
      let? d := clean_video video snippet stats in
      let acc := (acc ++ [d])%list in
      let? v := stat_int stats "viewCount" in
      let? l := stat_int stats "likeCount" in
      let? c := stat_int stats "commentCount" in
      youtube_clean_loop rest acc
        {| avgViews := avgViews sums + v;
           yt_avgLikes := yt_avgLikes sums + l;
           yt_avgComments := yt_avgComments sums + c |}
  end.

Definition youtube_averages (sums : YoutubeSums) (total_videos : Z)
  : res (list (string * json)) :=
  let? v := average (avgViews sums) total_videos in
  let? l := average (yt_avgLikes sums) total_videos in
  let? c := average (yt_avgComments sums) total_videos in
  Ok [("avgViews", JInt v); ("avgLikes", JInt l); ("avgComments", JInt c)].

(** [__clean]. *)
Definition APIYoutube_clean (self : APIYoutube) (profile videos : json) : res json :=
  let? items := py_get profile "items" (JList []) in
  let? profile := py_index0 items in
  let? name := get2 profile "snippet" "title" JNull in
  let? userName := get2 profile "snippet" "customUrl" JNull in
  let? pid := py_get profile "id" JNull in
  let? joined := get2 profile "snippet" "publishedAt" JNull in
  let? image := get4 profile "snippet" "thumbnails" "high" "url"
                  (YoutubeConfig_DEFAULT_IMG env) in
  let? country := get2 profile "snippet" "country" JNull in
  let? views := channel_stat profile "viewCount" in
  let? subscribers := channel_stat profile "subscriberCount" in
  let? nvideos := channel_stat profile "videoCount" in
  let stats := [("views", JInt views); ("subscribers", JInt subscribers);
                ("videos", JInt nvideos)] in
  let? videos := py_get videos "items" (JList []) in
  let? videos := py_iter videos in
  let? looped :=
    youtube_clean_loop videos []
      {| avgViews := 0; yt_avgLikes := 0; yt_avgComments := 0 |} in
  let? more_statistics :=
    youtube_averages (snd looped) (Z.of_nat (length videos)) in
  Ok (JDict
        [("profile",
          JDict [("name", name); ("userName", userName); ("id", pid);
                 ("joined", joined); ("image", image); ("country", country);
                 ("stats", JDict (dict_update stats more_statistics))]);
         ("videos", JList (fst looped))]).

Definition APIYoutube_save (self : APIYoutube) (data_ : json) : M unit :=
  APIBase_save (yt_super self) (yt_params self) data_.

(** [get]. *)
Definition APIYoutube_get (self : APIYoutube) (cache : bool) : M json :=
  cached <- (if cache
             then APIBase_cache (yt_super self) (yt_params self)
                    (YoutubeConfig_CACHE_TIMEDELTA env)
             else mret None) ;;
  match cached with
  | Some response => mret response
  | None =>
      profile <- APIYoutube_get_profile self ;;
      videos <- APIYoutube_get_videos self ;;
      if negb (truthy videos) || negb (truthy profile) then
        mret (JDict [("status", HTTPStatus_INTERNAL_SERVER_ERROR);
                     ("error", JStr "Youtube API couldn't fetch data")])
      else
        cleaned <- lift (APIYoutube_clean self profile videos) ;;
        let result :=
          if truthy cleaned then cleaned
          else JDict [("profile", profile); ("videos", videos);
                      ("cleaned", JBool false)] in
        _ <- APIYoutube_save self result ;;
        mret (JDict [("status", HTTPStatus_OK);
                     ("cache_response", JBool false);
                     ("result", result)])
  end.

(** [last_request]. *)
Definition APIYoutube_last_request (self : APIYoutube) (date_time : option Z)
  : M (option ServiceRequest) :=
  APIBase_last_request (yt_super self) (yt_params self)
    (Some (default (API_import_time env) date_time)).

Definition APIYoutube_all (self : APIYoutube) : M QuerySet :=
  q <- APIBase_all (yt_super self) ;; mret (filter_params (yt_params self) q).

Definition APIYoutube_all_unique (self : APIYoutube)
  : M (list (option ServiceRequest)) :=
  q <- APIYoutube_all self ;; mret (all_unique q).

Definition APIYoutube_history (self : APIYoutube) : M (list json) :=
  rows <- APIYoutube_all_unique self ;; lift (res_mapM history_entry rows).

End Code.

(** ** A concrete environment, to run the code on *)

(** The tables of CPython 3.11 (Unicode 14.0.0) beyond ASCII: each range of
    decimal digits starts at a digit zero and runs by tens. *)
Definition in_ranges (ranges : list (Z * Z)) (c : Z) : bool :=
  existsb (fun r => (fst r <=? c) && (c <=? snd r)) ranges.

Definition decimal_ranges : list (Z * Z) :=
  [(1632, 1641); (1776, 1785); (1984, 1993); (2406, 2415); (2534, 2543);
   (2662, 2671); (2790, 2799); (2918, 2927); (3046, 3055); (3174, 3183);
   (3302, 3311); (3430, 3439); (3558, 3567); (3664, 3673); (3792, 3801);
   (3872, 3881); (4160, 4169); (4240, 4249); (6112, 6121); (6160, 6169);
   (6470, 6479); (6608, 6617); (6784, 6793); (6800, 6809); (6992, 7001);
   (7088, 7097); (7232, 7241); (7248, 7257); (42528, 42537); (43216, 43225);
   (43264, 43273); (43472, 43481); (43504, 43513); (43600, 43609);
   (44016, 44025); (65296, 65305); (66720, 66729); (68912, 68921);
   (69734, 69743); (69872, 69881); (69942, 69951); (70096, 70105);
   (70384, 70393); (70736, 70745); (70864, 70873); (71248, 71257);
   (71360, 71369); (71472, 71481); (71904, 71913); (72016, 72025);
   (72784, 72793); (73040, 73049); (73120, 73129); (92768, 92777);
   (92864, 92873); (93008, 93017); (120782, 120831); (123200, 123209);
   (123632, 123641); (125264, 125273); (130032, 130041)].

Definition other_digit_ranges : list (Z * Z) :=
  [(178, 179); (185, 185); (4969, 4977); (6618, 6618); (8304, 8304);
   (8308, 8313); (8320, 8329); (9312, 9320); (9332, 9340); (9352, 9360);
   (9450, 9450); (9461, 9469); (9471, 9471); (10102, 10110); (10112, 10120);
   (10122, 10130); (68160, 68163); (69216, 69224); (69714, 69722);
   (127232, 127242)].

Definition space_ranges : list (Z * Z) :=
  [(133, 133); (160, 160); (5760, 5760); (8192, 8202); (8232, 8233);
   (8239, 8239); (8287, 8287); (12288, 12288)].

Definition cpython_3_11 : Interpreter :=
  {| unicode_isspace := in_ranges space_ranges;
     unicode_isdigit := fun c => in_ranges decimal_ranges c || in_ranges other_digit_ranges c;
     unicode_decimal := fun c =>
       match List.find (fun r => (fst r <=? c) && (c <=? snd r)) decimal_ranges with
       | Some r => Some ((c - fst r) mod 10)
       | None => None
       end;
     int_max_str_digits := 4300 |}.

Definition fallback_datetime : pydatetime :=
  {| dt_year := 2003; dt_month := 6; dt_day := 26;
     dt_hour := 15; dt_minute := 0; dt_second := 0; dt_microsecond := 0;
     dt_utcoffset := None |}.

(** A reader of dates that knows two spellings only. *)
Definition sample_parse (s : string) : option pydatetime :=
  if String.eqb s "26/06/2003 15:00" then Some fallback_datetime
  else if String.eqb s "Mar 1, 2024 · 9:30 AM UTC" then
         Some {| dt_year := 2024; dt_month := 3; dt_day := 1;
                 dt_hour := 9; dt_minute := 30; dt_second := 0;
                 dt_microsecond := 0; dt_utcoffset := Some 0 |}
  else None.

Definition sample_tweet (link : string) (likes : Z) : json :=
  JDict [("link", JStr link); ("text", JStr "hello");
         ("user", JDict [("name", JStr "Bob")]);
         ("date", JStr "Mar 1, 2024 · 9:30 AM UTC");
         ("pictures", JList []); ("videos", JList []);
         ("stats", JDict [("comments", JInt 1); ("retweets", JInt 2);
                          ("quotes", JInt 0); ("likes", JInt likes)])].

Definition sample_profile : json :=
  JDict [("name", JStr "Bob"); ("username", JStr "@bob");
         ("joined", JStr "26/06/2003 15:00");
         ("stats", JDict [("tweets", JInt 10); ("followers", JInt 3)])].

Definition sample_scraper : Scraper :=
  {| scraper_get_tweets := fun name _ =>
       if String.eqb name "bob" then
         Ok (JDict [("tweets",
                     JList [sample_tweet "https://x.com/bob/status/1#m" 4;
                            sample_tweet "https://x.com/alice/status/7#m" 100;
                            sample_tweet "https://x.com/bob/status/2#m" 7]);
                    ("threads", JList [])])
       else Raise ScraperError;
     scraper_get_profile_info := fun name =>
       if String.eqb name "bob" then Ok sample_profile else Ok JNull |}.

Definition sample_channel : json :=
  JDict [("pageInfo", JDict [("totalResults", JInt 1)]);
         ("items",
          JList [JDict [("id", JStr "UC123");
                        ("snippet", JDict [("title", JStr "Bob TV");
                                           ("customUrl", JStr "@bobtv")]);
                        ("statistics", JDict [("viewCount", JStr "1000");
                                              ("subscriberCount", JStr "10")])]])].

Definition sample_video_list : json :=
  JDict [("items",
          JList [JDict [("id", JStr "v1");
                        ("snippet", JDict [("title", JStr "first")]);
                        ("statistics", JDict [("viewCount", JStr "10");
                                              ("likeCount", JStr "3");
                                              ("favoriteCount", JStr "n/a")])];
                 JDict [("id", JStr "v2");
                        ("snippet", JDict [("title", JStr "second")]);
                        ("statistics", JDict [("viewCount", JStr "5")])]])].

(** The API answers for the channel [UC123] and the handle [@bobtv]; the
    handle [@twins] is ambiguous and anything else is unknown. *)
Definition sample_requests_get (url : string) (params_ : json) : option json :=
  if String.eqb url "https://www.googleapis.com/youtube/v3/channels" then
    if json_eqb (match py_get params_ "forHandle" JNull with Ok v => v | _ => JNull end)
                (JStr "@bobtv")
       || json_eqb (match py_get params_ "id" JNull with Ok v => v | _ => JNull end)
                   (JStr "UC123")
    then Some sample_channel
    else if json_eqb (match py_get params_ "forHandle" JNull with Ok v => v | _ => JNull end)
                     (JStr "@twins")
    then Some (JDict [("pageInfo", JDict [("totalResults", JInt 2)]);
                      ("items", JList [JDict [("id", JStr "UC1")];
                                       JDict [("id", JStr "UC2")]])])
    else Some (JDict [("pageInfo", JDict [("totalResults", JInt 0)])])
  else if String.eqb url "https://www.googleapis.com/youtube/v3/search" then
    Some (JDict [("items", JList [JDict [("id", JDict [("videoId", JStr "v1")])];
                                  JDict [("id", JDict [("videoId", JStr "v2")])]])])
  else if String.eqb url "https://www.googleapis.com/youtube/v3/videos" then
    Some sample_video_list
  else None.

Definition hour : Z := 3600000000.

Definition sample_env : Env :=
  {| TwitterConfig_CACHE_TIMEDELTA := 24 * hour;
     TwitterConfig_MAX_TWEETS := 20;
     TwitterConfig_DEFAULT_IMG := JStr "/static/img/default.png";
     TwitterConfig_DEFAULT_VIDEO := JStr "/static/video/default.mp4";
     YoutubeConfig_CACHE_TIMEDELTA := 24 * hour;
     YoutubeConfig_MAX_RESULTS := JInt 10;
     YoutubeConfig_DEFAULT_IMG := JStr "/static/img/default.png";
     YoutubeConfig_KEY := JStr "settings-key";
     TIME_ZONE_utcoffset := fun _ => 0;
     interpreter := cpython_3_11;
     models_import_time := 1000 * hour;
     API_import_time := 1000 * hour + 1;
     Nitter := Ok sample_scraper;
     dateparser_parse := sample_parse;
     requests_get := sample_requests_get;
     uuid4 := fun n => 7919 * Z.of_nat (S n) mod 104729;
     insert_fails := fun _ => false |}.

Definition row (pk t : Z) (service_ : string) (params_ data_ : json) : ServiceRequest :=
  {| sr_id := pk; created_at := t; service := service_;
     params := params_; data := data_ |}.

Definition world (rows : QuerySet) (t : Z) : World :=
  {| db := rows; clock := t; http_log := []; uuids_drawn := 0 |}.

Definition bob : APITwitter := APITwitter_init "bob".

(** * The vocabulary of the statements *)

(** ** Rows looked up and rows saved *)

(** The row that [_last_request] returns for a bound [t]: among the rows
    of the service and parameters made at or before [t], a latest one. *)
Definition candidates (service_ : string) (params_ : json) (t : Z) (q : QuerySet)
  : QuerySet :=
  filter_created_at_lte t (filter_params params_ (filter_service service_ q)).

(** The envelope that [_cache] answers with when row [r] is fresh. *)
Definition cache_hit (r : ServiceRequest) : json :=
  JDict [("status", JInt 200);
         ("cache_response", JBool true);
         ("cache_date", JStr (date_isoformat (date_of (created_at r))));
         ("result", data r)].

(** The two envelopes that [get] builds itself. *)
Definition error_envelope (message : string) : json :=
  JDict [("status", JInt 500); ("error", JStr message)].


(** The row that [_save] builds in world [w], and the world it leaves when
    the insert goes through. *)
Definition new_row env (base : APIBase) (params_ data_ : json) (w : World)
  : ServiceRequest :=
  {| sr_id := uuid4 env (uuids_drawn w); created_at := clock w;
     service := self_service base; params := params_; data := data_ |}.

Definition saved env (base : APIBase) (params_ data_ : json) (w : World) : World :=
  {| db := (db w ++ [new_row env base params_ data_ w])%list; clock := clock w;
     http_log := http_log w; uuids_drawn := S (uuids_drawn w) |}.

(** The cache was not asked, or had nothing fresh. *)
Definition cache_missed env (base : APIBase) (params_ : json) (cache_time : Z)
    (cache : bool) (w : World) : Prop :=
  cache = false \/ fst (APIBase_cache env base params_ cache_time w) = Ok None.

(** The three API calls of the fetch step grow the log of HTTP calls and
    leave the rest of the world alone. *)
Definition table_untouched (w w' : World) : Prop :=
  db w' = db w /\ clock w' = clock w /\ uuids_drawn w' = uuids_drawn w.

(** ** The channel search *)

(** The request that [by_userName] sends, its answer, and the world after it. *)
Definition search_call (userName : string) (api_key_ : json) : string * json :=
  (base_url ++ "/channels",
   JDict [("forHandle", JStr userName); ("part", JStr "id"); ("key", api_key_)]).

(** What [make_request] hands back for the search: the decoded body, or
    the empty dictionary after a failed request. *)
Definition search_response env (userName : string) (api_key_ : json) : json :=
  match requests_get env (fst (search_call userName api_key_))
          (snd (search_call userName api_key_)) with
  | Some response => response
  | None => JDict []
  end.

Definition searched (userName : string) (api_key_ : json) (w : World) : World :=
  {| db := db w; clock := clock w;
     http_log := (http_log w ++ [search_call userName api_key_])%list;
     uuids_drawn := uuids_drawn w |}.

(** [by_userName] from the point where the handle is well formed and the
    table has no row for it. *)
Definition after_search (response : json) (api_key_ : json) : res (option APIYoutube) :=
  if negb (truthy response) then Ok None
  else
    let? one := totalResults_is_1 response in
    if negb one then Ok None
    else
      let? items := py_get response "items" (JList []) in
      let? youtube_id := (if truthy items
                          then let? item := py_index0 items in py_get item "id" JNull
                          else Ok JNull) in
      if negb (truthy youtube_id) then Ok None
      else Ok (Some (APIYoutube_init youtube_id api_key_)).

(** ** Normalized tweets *)

(** Whether the comprehension keeps a tweet. *)
Definition keeps (self : APITwitter) (tweet : json) : bool :=
  match link_has_username self tweet with
  | Ok true => true
  | _ => false
  end.

(** A tweet of the account: a dictionary whose [link] holds the user
    name, as a block of consecutive characters when the link is a text, as
    an element when it is a list, as a key when it is a dictionary. A tweet
    without a link has the empty text for one. *)
Definition of_account (self : APITwitter) (tweet : json) : bool :=
  match tweet with
  | JDict kv =>
      match assoc "link" kv with
      | Some (JStr link) => str_contains (username self) link
      | Some (JList links) => existsb (json_eqb (JStr (username self))) links
      | Some (JDict links) => existsb (fun p => String.eqb (username self) (fst p)) links
      | Some _ => false
      | None => str_contains (username self) ""
      end
  | _ => false
  end.

(** One tweet of the raw list and the dictionary made of it. *)
Definition cleaned_as env (tweet d : json) : Prop :=
  exists stats user url text picture video date datetime,
    py_get tweet "stats" (JDict []) = Ok stats
    /\ py_get tweet "user" (JDict []) = Ok user
    /\ py_get tweet "link" (JStr "#") = Ok url
    /\ py_get tweet "text" (JStr "") = Ok text
    /\ py_get tweet "videos" (JList [TwitterConfig_DEFAULT_VIDEO env]) = Ok video
    /\ py_get tweet "date" fallback_date = Ok date
    /\ parse_isoformat env date = Ok datetime
    /\ d = JDict [("user", user); ("url", url); ("text", text);
                  ("picture", picture); ("video", video);
                  ("statistics", stats); ("datetime", datetime)].

(** The date that [__clean] writes under [key] of [out] for the date [raw]
    of the source. Where the source has none, it is the fallback date.
    Where it has one, the value is a text, the text is handed to the parser
    as it is, and what is written is the ISO form of what the parser makes
    of it. *)
Definition dated env (raw : option json) (out : json) (key : string) : Prop :=
  match raw with
  | None => py_get out key JNull = Ok (JStr "2003-06-26T15:00:00")
  | Some v =>
      exists text t,
        v = JStr text
        /\ dateparser_parse env text = Some t
        /\ py_get out key JNull = Ok (JStr (datetime_isoformat t))
  end.

(** The number that [int] reads off a value: an integer is itself,
    [True] and [False] are 1 and 0, and a text is the number it spells. *)
Definition int_reads env (x : json) (n : Z) : Prop :=
  x = JInt n
  \/ (exists b, x = JBool b /\ n = Z.b2z b)
  \/ (exists s, x = JStr s /\ int_of_str (interpreter env) s = Some n).

(** The statistic [key] of a tweet or a video, whose statistics are the
    dictionary under [field]: the number read off the entry [key] of that
    dictionary, and 0 where the dictionary or the entry is absent. *)
Definition stat_of env (field key : string) (item : json) (n : Z) : Prop :=
  exists kv stats,
    item = JDict kv
    /\ (assoc field kv = Some (JDict stats) \/ (assoc field kv = None /\ stats = []))
    /\ ((assoc key stats = None /\ n = 0)
        \/ exists x, assoc key stats = Some x /\ int_reads env x n).

(** The average [avg] of [n] items whose sum is [s]: what [round(s / n)]
    gives, which is, as long as the sum stays below 2^52 in absolute
    value, an integer nearest to the exact mean, and the even one when the
    mean lies half-way between two. *)
Definition rounded_mean (s n avg : Z) : Prop :=
  py_round_div s n = Ok avg
  /\ (Z.abs s < 2 ^ 52 ->
      Z.abs (2 * (s - avg * n)) <= n
      /\ (Z.abs (2 * (s - avg * n)) = n -> Z.even avg = true)).

(** The sum of a list of integers. *)
Definition sum_Z (l : list Z) : Z := fold_right Z.add 0 l.

(** Each average of the profile and the statistic of a tweet it is taken of. *)
Definition twitter_stat_keys : list (string * string) :=
  [("avgRetweets", "retweets"); ("avgLikes", "likes");
   ("avgComments", "comments"); ("avgQuotes", "quotes")].

(** ** Normalized channels and videos *)

(** The value found by following keys down nested dictionaries; [None]
    when a key is absent or the way leads through something that is not a
    dictionary. *)
Fixpoint lookup_path (v : json) (path : list string) : option json :=
  match path with
  | [] => Some v
  | k :: rest =>
      match v with
      | JDict kv =>
          match assoc k kv with
          | Some x => lookup_path x rest
          | None => None
          end
      | _ => None
      end
  end.

(** What the [statistics] of one video become. *)
Definition coerced env (x y : json) : Prop :=
  exists s, x = JStr s
            /\ (str_isdigit (interpreter env) s = false -> y = JInt 0)
            /\ (str_isdigit (interpreter env) s = true ->
                exists n, int_of_str (interpreter env) s = Some n /\ y = JInt n).

(** One video of the API response and the dictionary made of it. *)
Definition video_cleaned_as env (video e : json) : Prop :=
  exists stats vid title publishedAt image statistics,
    py_get video "statistics" (JDict []) = Ok stats
    /\ get4 video "snippet" "thumbnails" "standard" "url"
         (YoutubeConfig_DEFAULT_IMG env) = Ok image
    /\ coerce_statistics env stats = Ok statistics
    /\ e = JDict [("id", vid); ("title", title); ("publishedAt", publishedAt);
                  ("image", image); ("statistics", statistics)].

(** Each statistic of the normalized channel and the field it comes from. *)
Definition youtube_stat_keys : list (string * string) :=
  [("views", "viewCount"); ("subscribers", "subscriberCount"); ("videos", "videoCount")].

(** ** Days and history *)

(** The day number of a calendar date: the inverse of [civil_of_days]. *)
Definition days_of_civil (y m d : Z) : Z :=
  let y' := if m <=? 2 then y - 1 else y in
  let era := y' / 400 in
  let yoe := y' - era * 400 in
  let doy := (153 * (if 2 <? m then m - 3 else m + 9) + 2) / 5 + d - 1 in
  let doe := yoe * 365 + yoe / 4 - yoe / 100 + doy in
  era * 146097 + doe - 719468.

(** The days that a Python [date] can hold: 0001-01-01 to 9999-12-31. *)
Definition date_in_range (d : Z) : Prop := -719162 <= d <= 2932896.

(** Django's current time zone is UTC. *)
Definition time_zone_is_utc env : Prop := forall t, TIME_ZONE_utcoffset env t = 0.

(** The day on which a row was created. *)
Definition day_of_row (r : ServiceRequest) : Z := date_of (created_at r).

(** The row picked for a day: a row of that day with the least key. *)
Definition picked_for (q : QuerySet) (r : ServiceRequest) : Prop :=
  r ∈ q /\ forall r', r' ∈ q -> day_of_row r' = day_of_row r -> sr_id r <= sr_id r'.

(** The entry that [history] makes of a row. *)
Definition entry_of (r : ServiceRequest) (e : json) : Prop :=
  exists stats,
    get2 (data r) "profile" "stats" JNull = Ok stats
    /\ e = JDict [("date", JStr (date_isoformat (day_of_row r))); ("stats", stats)].

(** What [history] answers in world [w] when [matching] are the rows of
    the adapter. *)
Definition one_entry_per_day (matching : QuerySet)
    (outcome : res (list json) * World) (w : World) : Prop :=
  exists rs,
    NoDup (map day_of_row rs)
    /\ (forall day, day ∈ map day_of_row rs <-> exists r, r ∈ matching /\ day_of_row r = day)
    /\ Forall (picked_for matching) rs
    /\ snd outcome = w
    /\ (forall entries, fst outcome = Ok entries -> Forall2 entry_of rs entries)
    /\ ((forall r, r ∈ matching ->
                   exists stats, get2 (data r) "profile" "stats" JNull = Ok stats) ->
        exists entries, fst outcome = Ok entries /\ Forall2 entry_of rs entries)
    /\ ((forall r, r ∈ matching -> date_in_range (day_of_row r)) ->
        NoDup (map (fun r => date_isoformat (day_of_row r)) rs)).

(** ** More sample data *)


(** A tweet without a date, and one whose date is not a date. *)
Definition undated_tweet : json :=
  JDict [("link", JStr "https://x.com/bob/status/3#m"); ("text", JStr "no date");
         ("stats", JDict [("likes", JInt 1)])].

Definition garbled_tweet : json :=
  JDict [("link", JStr "https://x.com/bob/status/4#m"); ("date", JStr "???");
         ("stats", JDict [("likes", JInt 1)])].

(** A profile without [joined], a tweet without a date beside one with a
    date, and what [__clean] makes of them. *)
Definition unjoined_profile : json := JDict [("stats", JDict [])].

Definition dated_and_undated : json :=
  JList [undated_tweet; sample_tweet "https://x.com/bob/status/1#m" 4].

(** What the sample scraper returns for [bob], and what [__clean] makes of it. *)
Definition sample_tweets : json :=
  JList [sample_tweet "https://x.com/bob/status/1#m" 4;
         sample_tweet "https://x.com/alice/status/7#m" 100;
         sample_tweet "https://x.com/bob/status/2#m" 7].

Definition sample_result : json :=
  Eval vm_compute in
    match APITwitter_clean sample_env bob sample_profile sample_tweets with
    | Ok d => d
    | Raise _ => JNull
    end.

(** The adapter of the sample channel, and what [__clean] makes of the sample answers. *)
Definition sample_channel_adapter : APIYoutube :=
  APIYoutube_init (JStr "UC123") (JStr "k").

Definition sample_youtube_result : json :=
  Eval vm_compute in
    match APIYoutube_clean sample_env sample_channel_adapter
            sample_channel sample_video_list with
    | Ok d => d
    | Raise _ => JNull
    end.

(** A payload with nothing but a number of followers. *)
Definition sample_payload (followers : Z) : json :=
  JDict [("profile", JDict [("stats", JDict [("followers", JInt followers)])]);
         ("tweets", JList [])].

(** Three rows of [bob] on two days (two of them on 1970-02-11, ten
    minutes apart), and a row of somebody else. *)
Definition sample_rows : QuerySet :=
  [row 40 (1000 * hour) "Twitter" (tw_params bob) (sample_payload 1);
   row 20 (1000 * hour + hour / 6) "Twitter" (tw_params bob) (sample_payload 2);
   row 30 (1030 * hour) "Twitter" (tw_params bob) (sample_payload 3);
   row 10 (1000 * hour) "Twitter" (JDict [("userName", JStr "alice")]) (sample_payload 9)].

(** One row of [bob] made at 23:30 UTC on 1970-01-01; and three rows of
    his, made at 10:00 and at 23:30 UTC on 1970-01-01 and at 23:30 UTC on
    1970-01-02. *)
Definition late_row : QuerySet :=
  [row 1 (23 * hour + hour / 2) "Twitter" (tw_params bob) (sample_payload 1)].

Definition late_rows : QuerySet :=
  [row 1 (10 * hour) "Twitter" (tw_params bob) (sample_payload 1);
   row 2 (23 * hour + hour / 2) "Twitter" (tw_params bob) (sample_payload 2);
   row 3 (47 * hour + hour / 2) "Twitter" (tw_params bob) (sample_payload 3)].

(** * More of the two files *)

(** [ServiceRequest.last_request], the method of a row: the class method
    asked for the row's own service and parameters. Its default, too, is
    evaluated when [models.py] is imported. *)
Definition ServiceRequest_self_last_request env (self : ServiceRequest)
    (date_time : option Z) : M (option ServiceRequest) :=
  ServiceRequest_last_request env (service self) (params self)
    (Some (default (models_import_time env) date_time)).

(** ** Vocabulary *)

(** A row of a service and parameters. *)
Definition row_of (service_ : string) (params_ : json) (r : ServiceRequest) : Prop :=
  service r = service_ /\ params r = params_.

(** Each average of the channel and the statistic of a video it is taken of. *)
Definition youtube_average_keys : list (string * string) :=
  [("avgViews", "viewCount"); ("avgLikes", "likeCount");
   ("avgComments", "commentCount")].

(** A payload in which [history] finds what it looks up. *)
Definition payload_ok (d : json) : Prop :=
  exists stats, get2 d "profile" "stats" JNull = Ok stats.

(** The requests of the fetch step of the YouTube adapter. *)
Definition channels_call (self : APIYoutube) : string * json :=
  (base_url ++ "/channels",
   JDict [("part", JStr "statistics,status,snippet");
          ("id", id_ self); ("key", api_key self)]).

Definition videos_search_call env (self : APIYoutube) : string * json :=
  (base_url ++ "/search",
   JDict [("channelId", id_ self);
          ("maxResults", YoutubeConfig_MAX_RESULTS env);
          ("order", JStr "date"); ("type", JStr "video");
          ("key", api_key self)]).

(** What the picture of a normalized tweet is, given [tweet.get('pictures')]. *)
Definition picture_of (pictures picture : json) : Prop :=
  (truthy pictures = false /\ picture = JStr "")
  \/ (truthy pictures = true /\ py_index0 pictures = Ok picture).

(** The world after one more HTTP call. *)
Definition logged (call : string * json) (w : World) : World :=
  {| db := db w; clock := clock w;
     http_log := (http_log w ++ [call])%list;
     uuids_drawn := uuids_drawn w |}.

(** A table of which [history] can read every row. *)
Definition readable (w : World) : Prop :=
  forall r, r ∈ db w -> payload_ok (data r).

(** The answer of the API to a request, as [make_request] hands it back. *)
Definition answer_to env (call : string * json) : json :=
  match requests_get env (fst call) (snd call) with
  | Some response => response
  | None => JDict []
  end.

(** [video['id']['videoId']]. *)
Definition videoId_of (video : json) : res json :=
  let? i := py_getitem video "id" in py_getitem i "videoId".

(** The request for the details of the videos with the given ids. *)
Definition videos_call env (self : APIYoutube) (ids : list string) : string * json :=
  (base_url ++ "/videos",
   JDict [("part", JStr "id,snippet,statistics");
          ("id", JStr (String.concat "," ids));
          ("key", if truthy (api_key self) then api_key self
                  else YoutubeConfig_KEY env)]).


(** ** The fetch step of the YouTube adapter, told by the answers of the API *)











(** The sample environment with another time zone and other answers of
    the API. *)
Definition sample_env_with (utcoffset : Z -> Z)
    (get : string -> json -> option json) : Env :=
  {| TwitterConfig_CACHE_TIMEDELTA := TwitterConfig_CACHE_TIMEDELTA sample_env;
     TwitterConfig_MAX_TWEETS := TwitterConfig_MAX_TWEETS sample_env;
     TwitterConfig_DEFAULT_IMG := TwitterConfig_DEFAULT_IMG sample_env;
     TwitterConfig_DEFAULT_VIDEO := TwitterConfig_DEFAULT_VIDEO sample_env;
     YoutubeConfig_CACHE_TIMEDELTA := YoutubeConfig_CACHE_TIMEDELTA sample_env;
     YoutubeConfig_MAX_RESULTS := YoutubeConfig_MAX_RESULTS sample_env;
     YoutubeConfig_DEFAULT_IMG := YoutubeConfig_DEFAULT_IMG sample_env;
     YoutubeConfig_KEY := YoutubeConfig_KEY sample_env;
     TIME_ZONE_utcoffset := utcoffset;
     interpreter := interpreter sample_env;
     models_import_time := models_import_time sample_env;
     API_import_time := API_import_time sample_env;
     Nitter := Nitter sample_env;
     dateparser_parse := dateparser_parse sample_env;
     requests_get := get;
     uuid4 := uuid4 sample_env;
     insert_fails := insert_fails sample_env |}.

(** The current time zone one hour ahead of UTC, as Central European Time
    is. *)
Definition one_hour_east_env : Env :=
  sample_env_with (fun _ => hour) sample_requests_get.



(** * Properties *)

(** ** The primitives at work *)

Example int_of_str_examples :
  let int := int_of_str cpython_3_11 in
  int "42" = Some 42 /\ int " -1_000 " = Some (-1000) /\
  int "abc" = None /\ int "" = None /\ int "1__0" = None /\
  int "١٢٣" = Some 123 /\ int "²" = None.
Proof. repeat split; reflexivity. Qed.

Example str_isdigit_examples :
  let isdigit := str_isdigit cpython_3_11 in
  isdigit "42" = true /\ isdigit "" = false /\ isdigit "-5" = false /\
  isdigit "١٢٣" = true /\ isdigit "²" = true.
Proof. repeat split; reflexivity. Qed.

(** Two halves go to the even neighbour; beyond 2^53 the double has no
    room for the last bit of the quotient; a quotient beyond the doubles
    raises. *)
Example py_round_div_examples :
  py_round_div 11 2 = Ok 6 /\ py_round_div 5 2 = Ok 2 /\
  py_round_div (-5) 2 = Ok (-2) /\ py_round_div 7 3 = Ok 2 /\
  py_round_div (2 ^ 53 + 1) 1 = Ok (2 ^ 53) /\
  py_round_div (10 ^ 400) 1 = Raise OverflowError.
Proof. repeat split; vm_compute; reflexivity. Qed.

Example str_contains_examples :
  str_contains "bob" "https://x.com/bob/status/1#m" = true /\
  str_contains "bob" "https://x.com/alice/status/1#m" = false /\
  str_contains "" "" = true.
Proof. repeat split; reflexivity. Qed.

Example date_isoformat_examples :
  date_isoformat 0 = "1970-01-01" /\
  date_isoformat (date_of 1709251199999999) = "2024-02-29" /\
  date_isoformat (date_of 1709251200000000) = "2024-03-01" /\
  date_isoformat (date_of (-1)) = "1969-12-31".
Proof. repeat split; reflexivity. Qed.

(** ** Query sets *)

#[global] Instance newer_first_trans : Transitive newer_first.
Proof. intros a b c; unfold newer_first; lia. Qed.

#[global] Instance newer_first_total : Total newer_first.
Proof. intros a b; unfold newer_first; lia. Qed.

#[global] Instance pk_order_trans : Transitive pk_order.
Proof. intros a b c; unfold pk_order; lia. Qed.

#[global] Instance pk_order_total : Total pk_order.
Proof. intros a b; unfold pk_order; lia. Qed.

Section sorted_head.
Context {A : Type} (R : relation A).
Context `{!RelDecision R, !Transitive R, !Total R}.

Lemma head_merge_sort_Some (l : list A) (x : A) :
  head (merge_sort R l) = Some x ->
  x ∈ l /\ forall y, y ∈ l -> R x y.
Proof.
  intros Hhead.
  pose proof (StronglySorted_merge_sort R l) as Hsorted.
  pose proof (merge_sort_Permutation R l) as Hperm.
  destruct (merge_sort R l) as [|x' rest]; simpl in Hhead; [discriminate|].
  injection Hhead as ->.
  split.
  - rewrite <- Hperm. left.
  - intros y Hy. rewrite <- Hperm in Hy.
    apply StronglySorted_inv in Hsorted as [_ Hall].
    apply elem_of_cons in Hy as [->|Hy].
    + destruct (total R x x); assumption.
    + rewrite Forall_forall in Hall. apply Hall. assumption.
Qed.

Lemma head_merge_sort_None (l : list A) :
  head (merge_sort R l) = None -> l = [].
Proof.
  intros Hhead.
  pose proof (merge_sort_Permutation R l) as Hperm.
  destruct (merge_sort R l); [|discriminate].
  apply Permutation_nil in Hperm. assumption.
Qed.
End sorted_head.

Lemma first_Some (q : QuerySet) (r : ServiceRequest) :
  first q = Some r -> r ∈ q /\ forall r', r' ∈ q -> sr_id r <= sr_id r'.
Proof. apply (head_merge_sort_Some pk_order). Qed.

Lemma first_nonempty (q : QuerySet) (r : ServiceRequest) :
  r ∈ q -> exists r', first q = Some r'.
Proof.
  intros Hin. destruct (first q) as [r'|] eqn:E; [eauto|].
  apply (head_merge_sort_None pk_order) in E. subst. inversion Hin.
Qed.

Lemma elem_of_filter_bool {A} (f : A -> bool) (l : list A) (x : A) :
  x ∈ List.filter f l <-> x ∈ l /\ f x = true.
Proof. rewrite !list_elem_of_In. rewrite filter_In. reflexivity. Qed.

Lemma elem_of_candidates service_ params_ t q r :
  r ∈ candidates service_ params_ t q <->
  r ∈ q /\ service r = service_ /\ json_eqb (params r) params_ = true
  /\ created_at r <= t.
Proof.
  unfold candidates, filter_created_at_lte, filter_params, filter_service.
  rewrite !elem_of_filter_bool, String.eqb_eq, Z.leb_le. tauto.
Qed.

Lemma ServiceRequest_last_request_eq env service_ params_ date_time w :
  ServiceRequest_last_request env service_ params_ date_time w =
  (Ok (first_ordered
         (order_by_created_at_desc
            (candidates service_ params_
               (default (models_import_time env) date_time) (db w)))), w).
Proof. reflexivity. Qed.

Lemma APIBase_last_request_eq env self params_ date_time w :
  APIBase_last_request env self params_ date_time w =
  (Ok (first_ordered
         (order_by_created_at_desc
            (candidates (self_service self) params_
               (default (API_import_time env) date_time) (db w)))), w).
Proof. reflexivity. Qed.

Lemma last_request_found service_ params_ t q r :
  first_ordered (order_by_created_at_desc (candidates service_ params_ t q)) = Some r ->
  r ∈ q /\ service r = service_ /\ json_eqb (params r) params_ = true
  /\ created_at r <= t
  /\ forall r', r' ∈ candidates service_ params_ t q -> created_at r' <= created_at r.
Proof.
  intros H. apply (head_merge_sort_Some newer_first) in H as [Hin Hmax].
  apply elem_of_candidates in Hin. intuition.
Qed.

(** ** The cache *)

(** Once [_last_request] has found a row made at [t0], a lookup at
    [t0 + age] is a hit exactly when [age <= cache_time]. *)
Lemma APIBase_cache_found env self params_ cache_time w r :
  fst (APIBase_last_request env self params_ None w) = Ok (Some r) ->
  APIBase_cache env self params_ cache_time w =
  (Ok (if clock w - created_at r <=? cache_time then Some (cache_hit r) else None), w).
Proof.
  intros H. unfold APIBase_cache, mbind, now.
  rewrite APIBase_last_request_eq in H |- *. simpl in H |- *.
  injection H as H. rewrite H.
  unfold mret, cache_hit, HTTPStatus_OK.
  destruct (created_at r <? clock w - cache_time) eqn:E1;
    destruct (clock w - created_at r <=? cache_time) eqn:E2; try reflexivity; lia.
Qed.

Lemma APIBase_cache_not_found env self params_ cache_time w :
  fst (APIBase_last_request env self params_ None w) = Ok None ->
  APIBase_cache env self params_ cache_time w = (Ok None, w).
Proof.
  intros H. unfold APIBase_cache, mbind.
  rewrite APIBase_last_request_eq in H |- *. simpl in H |- *.
  injection H as H. rewrite H. reflexivity.
Qed.

(** The rows made after [API.py] was imported are out of reach of
    [_cache], however fresh they are. *)
Lemma APIBase_cache_blind_after_import env self params_ cache_time w :
  (forall r, r ∈ db w -> API_import_time env < created_at r) ->
  APIBase_cache env self params_ cache_time w = (Ok None, w).
Proof.
  intros Hall. apply APIBase_cache_not_found.
  rewrite APIBase_last_request_eq. simpl.
  destruct (first_ordered _) as [r|] eqn:E; [|reflexivity].
  apply last_request_found in E as (Hin & _ & _ & Hle & _).
  apply Hall in Hin. lia.
Qed.

(** C1. A row saved ten microseconds after [API.py] was imported, looked
    up two microseconds later with a freshness window of five: the age is
    within the window, yet [_cache] answers [None], because the lookup of
    the latest row is bounded by the import time and not by the time of the
    call. *)
Theorem cache_misses_fresh_row_saved_after_import :
  let self := {| self_service := "Twitter" |} in
  let params_ := JDict [("userName", JStr "bob")] in
  let t0 := API_import_time sample_env + 10 in
  let w := world [row 1 t0 "Twitter" params_ (JStr "payload")] (t0 + 2) in
  clock w - t0 <= 5 /\
  fst (APIBase_cache sample_env self params_ 5 w) = Ok None.
Proof. split; [vm_compute; discriminate | vm_compute; reflexivity]. Qed.

(** ** The default argument of [_last_request] *)

(** C9. Called without [date_time], [_last_request] bounds the lookup by
    the time at which its module was imported: two calls on the same table
    give the same answer whatever the clock says at each of them, and a
    row made after the import is never the answer. This holds for
    [ServiceRequest._last_request] and for [APIBase._last_request]. *)
Theorem default_asOf_is_bound_at_import
    env (self : APIBase) service_ params_ (w1 w2 : World) :
  db w1 = db w2 ->
  fst (ServiceRequest_last_request env service_ params_ None w1)
  = fst (ServiceRequest_last_request env service_ params_
           (Some (models_import_time env)) w2)
  /\ fst (APIBase_last_request env self params_ None w1)
     = fst (ServiceRequest_last_request env (self_service self) params_
              (Some (API_import_time env)) w2)
  /\ (forall r,
        fst (ServiceRequest_last_request env service_ params_ None w1) = Ok (Some r) ->
        created_at r <= models_import_time env)
  /\ (forall r,
        fst (APIBase_last_request env self params_ None w1) = Ok (Some r) ->
        created_at r <= API_import_time env).
Proof.
  intros Hdb.
  rewrite !ServiceRequest_last_request_eq, APIBase_last_request_eq. simpl.
  rewrite Hdb. repeat split.
  - intros r H. injection H as H.
    apply last_request_found in H. tauto.
  - intros r H. injection H as H.
    apply last_request_found in H. tauto.
Qed.

Lemma default_asOf_is_bound_at_import_witness :
  let self := {| self_service := "Twitter" |} in
  let params_ := JDict [("userName", JStr "bob")] in
  let rows := [row 1 (999 * hour) "Twitter" params_ (JStr "old");
               row 2 (1001 * hour) "Twitter" params_ (JStr "new")] in
  fst (APIBase_last_request sample_env self params_ None (world rows (1001 * hour)))
  = fst (ServiceRequest_last_request sample_env "Twitter" params_
           (Some (API_import_time sample_env)) (world rows (5000 * hour))).
Proof.
  intros self params_ rows.
  apply (default_asOf_is_bound_at_import sample_env self "Twitter" params_
           (world rows (1001 * hour)) (world rows (5000 * hour))).
  reflexivity.
Defined.

(** ** Handles *)

(** A handle that does not start with [@], or that has a space in it,
    never gets [None] for an answer: the call of the logger that comes
    first raises [TypeError], for its argument is a matrix product of two
    texts. The world is left as it was found; no request has been sent. *)
Lemma by_userName_malformed env userName api_key_ w :
  str_startswith "@" userName = false \/ str_contains " " userName = true ->
  by_userName env userName api_key_ w = (Raise TypeError, w).
Proof.
  intros H. unfold by_userName.
  assert (negb (str_startswith "@" userName) || str_contains " " userName = true) as ->.
  { destruct H as [-> | ->]; [reflexivity | apply orb_true_r]. }
  reflexivity.
Qed.

(** C4. For the handle [bob], which lacks the [@], and for the handle
    [@bob tv], which has a space, [by_userName] does not return [None]:
    it raises [TypeError]. No request is sent. *)
Theorem by_userName_raises_on_malformed_handle :
  by_userName sample_env "bob" (JStr "k") (world [] 0)
  = (Raise TypeError, world [] 0)
  /\ by_userName sample_env "@bob tv" (JStr "k") (world [] 0)
     = (Raise TypeError, world [] 0)
  /\ http_log (snd (by_userName sample_env "bob" (JStr "k") (world [] 0))) = []
  /\ http_log (snd (by_userName sample_env "@bob tv" (JStr "k") (world [] 0))) = [].
Proof. repeat split. Qed.

(** ** [get] and the table *)

Lemma APIBase_cache_reads_only env base params_ cache_time w :
  exists o, APIBase_cache env base params_ cache_time w = (Ok o, w).
Proof.
  destruct (fst (APIBase_last_request env base params_ None w)) as [[r|]|e] eqn:E.
  - rewrite (APIBase_cache_found _ _ _ _ _ _ E). eauto.
  - rewrite (APIBase_cache_not_found _ _ _ _ _ E). eauto.
  - rewrite APIBase_last_request_eq in E. discriminate.
Qed.

Lemma cache_step env base params_ cache_time (cache : bool) w :
  exists o,
    (if cache then APIBase_cache env base params_ cache_time else mret None) w = (Ok o, w)
    /\ (cache_missed env base params_ cache_time cache w -> o = None)
    /\ (o = None -> cache_missed env base params_ cache_time cache w)
    /\ (forall response, cache = true ->
          fst (APIBase_cache env base params_ cache_time w) = Ok (Some response) ->
          o = Some response).
Proof.
  unfold cache_missed. destruct cache.
  - destruct (APIBase_cache_reads_only env base params_ cache_time w) as [o Ho].
    exists o. rewrite Ho. simpl. repeat split.
    + intros [?|H]; congruence.
    + intros ->. right. reflexivity.
    + intros response _ H. congruence.
  - exists None. repeat split; auto. intros ? ?; discriminate.
Qed.

Lemma APIBase_save_accepted env base params_ data_ w :
  insert_fails env (new_row env base params_ data_ w) = false ->
  APIBase_save env base params_ data_ w = (Ok tt, saved env base params_ data_ w).
Proof. intros H. unfold APIBase_save. fold (new_row env base params_ data_ w). rewrite H. reflexivity. Qed.

Lemma APIBase_save_db env base params_ data_ w :
  exists w', APIBase_save env base params_ data_ w = (Ok tt, w') /\
    (db w' = db w \/ db w' = (db w ++ [new_row env base params_ data_ w])%list).
Proof.
  unfold APIBase_save. fold (new_row env base params_ data_ w).
  eexists. split; [reflexivity|]. simpl.
  destruct (insert_fails env _); auto.
Qed.

(** *** Twitter *)

Lemma APITwitter_get_failed_fetch env self cache w scraper :
  cache_missed env (tw_super self) (tw_params self)
    (TwitterConfig_CACHE_TIMEDELTA env) cache w ->
  Nitter env = Ok scraper ->
  truthy (APITwitter_get_tweets env self scraper) = false
  \/ truthy (APITwitter_get_profile_info self scraper) = false ->
  APITwitter_get env self cache w
  = (Ok (error_envelope "Twitter Scraper couldn't fetch data"), w).
Proof.
  intros Hmiss Hnitter Hempty. unfold APITwitter_get, mbind.
  destruct (cache_step env (tw_super self) (tw_params self)
              (TwitterConfig_CACHE_TIMEDELTA env) cache w) as (o & -> & Ho & _).
  rewrite (Ho Hmiss). unfold lift. rewrite Hnitter.
  assert (negb (truthy (APITwitter_get_tweets env self scraper))
          || negb (truthy (APITwitter_get_profile_info self scraper)) = true) as ->.
  { destruct Hempty as [-> | ->]; [reflexivity | apply orb_true_r]. }
  reflexivity.
Qed.







(** *** YouTube *)

Lemma table_untouched_refl w : table_untouched w w.
Proof. repeat split. Qed.

Lemma table_untouched_trans w1 w2 w3 :
  table_untouched w1 w2 -> table_untouched w2 w3 -> table_untouched w1 w3.
Proof. unfold table_untouched. intuition congruence. Qed.

Lemma make_request_untouched env base endpoint params_ w :
  exists response w',
    make_request env base endpoint params_ w = (Ok response, w')
    /\ table_untouched w w'.
Proof.
  unfold make_request. destruct (requests_get env _ _);
    eexists _, _; (split; [reflexivity | repeat split]).
Qed.

Ltac step_request :=
  match goal with
  | |- context [make_request ?env ?b ?e ?p ?w] =>
      let response := fresh "response" in
      let w' := fresh "w" in
      let Hreq := fresh "Hreq" in
      let Hun := fresh "Hun" in
      destruct (make_request_untouched env b e p w) as (response & w' & Hreq & Hun);
      rewrite Hreq; cbv beta iota
  end.

Lemma APIYoutube_get_profile_untouched env self w :
  table_untouched w (snd (APIYoutube_get_profile env self w)).
Proof.
  unfold APIYoutube_get_profile, mbind. step_request.
  destruct (negb (truthy response)); [assumption|].
  unfold lift. destruct (totalResults_is_1 response) as [[]|]; assumption.
Qed.

Lemma APIYoutube_get_videos_untouched env self w :
  table_untouched w (snd (APIYoutube_get_videos env self w)).
Proof.
  unfold APIYoutube_get_videos, mbind. step_request.
  destruct (negb (truthy response)); [assumption|].
  unfold lift. destruct (py_get response "items" (JList [])) as [items|]; [|assumption].
  cbv beta iota.
  destruct (negb (truthy items)); [assumption|].
  match goal with |- context [res_bind ?m ?k] => destruct (res_bind m k) as [videos|] end;
    [|assumption].
  cbv beta iota. step_request.
  eapply table_untouched_trans; [eassumption|].
  destruct (negb (truthy response0)); assumption.
Qed.

Lemma APIYoutube_clean_truthy env self profile videos cleaned :
  APIYoutube_clean env self profile videos = Ok cleaned -> truthy cleaned = true.
Proof.
  unfold APIYoutube_clean, res_bind. intros H.
  repeat match type of H with
         | match ?x with _ => _ end = _ => destruct x; try discriminate
         end.
  injection H as <-. reflexivity.
Qed.

Lemma APIYoutube_get_failed_fetch env self cache w profile videos w1 w2 :
  cache_missed env (yt_super self) (yt_params self)
    (YoutubeConfig_CACHE_TIMEDELTA env) cache w ->
  APIYoutube_get_profile env self w = (Ok profile, w1) ->
  APIYoutube_get_videos env self w1 = (Ok videos, w2) ->
  truthy videos = false \/ truthy profile = false ->
  APIYoutube_get env self cache w
  = (Ok (error_envelope "Youtube API couldn't fetch data"), w2)
  /\ db w2 = db w.
Proof.
  intros Hmiss Hprofile Hvideos Hempty. unfold APIYoutube_get, mbind.
  destruct (cache_step env (yt_super self) (yt_params self)
              (YoutubeConfig_CACHE_TIMEDELTA env) cache w) as (o & -> & Ho & _).
  rewrite (Ho Hmiss), Hprofile, Hvideos.
  assert (negb (truthy videos) || negb (truthy profile) = true) as ->.
  { destruct Hempty as [-> | ->]; [reflexivity | apply orb_true_r]. }
  split; [reflexivity|].
  pose proof (APIYoutube_get_profile_untouched env self w) as H1.
  pose proof (APIYoutube_get_videos_untouched env self w1) as H2.
  rewrite Hprofile in H1. rewrite Hvideos in H2.
  destruct H1 as [H1 _], H2 as [H2 _]. simpl in *. congruence.
Qed.

Lemma APIYoutube_get_cache_hit env self w response :
  fst (APIBase_cache env (yt_super self) (yt_params self)
         (YoutubeConfig_CACHE_TIMEDELTA env) w) = Ok (Some response) ->
  APIYoutube_get env self true w = (Ok response, w).
Proof.
  intros Hhit. unfold APIYoutube_get, mbind.
  destruct (APIBase_cache_reads_only env (yt_super self) (yt_params self)
              (YoutubeConfig_CACHE_TIMEDELTA env) w) as [o Ho].
  rewrite Ho in Hhit |- *. simpl in Hhit. injection Hhit as ->. reflexivity.
Qed.



(** *** The fetch step of the YouTube adapter and the answers of the API *)

Lemma make_request_answer env endpoint params_ w :
  truthy params_ = true ->
  make_request env base_url endpoint params_ w
  = (Ok (answer_to env ((base_url ++ endpoint)%string, params_)),
     logged ((base_url ++ endpoint)%string, params_) w).
Proof.
  intros H. unfold make_request, answer_to, logged. rewrite H. cbn [fst snd].
  destruct (requests_get env _ _); reflexivity.
Qed.






Lemma str_join_comma_strings (ids : list string) :
  str_join_comma (map JStr ids) = Ok (String.concat "," ids).
Proof.
  induction ids as [|v [|v' ids] IH]; try reflexivity.
  change (str_join_comma (map JStr (v :: v' :: ids)))
    with (let? r := str_join_comma (map JStr (v' :: ids)) in Ok (v ++ "," ++ r)%string).
  rewrite IH. reflexivity.
Qed.

Lemma res_mapM_videoId items ids :
  Forall2 (fun item v => videoId_of item = Ok (JStr v)) items ids ->
  res_mapM (fun video => let? i := py_getitem video "id" in py_getitem i "videoId") items
  = Ok (map JStr ids).
Proof.
  induction 1 as [|item v items ids Hitem _ IH]; [reflexivity|].
  simpl. unfold videoId_of in Hitem. rewrite Hitem. cbn [res_bind].
  rewrite IH. reflexivity.
Qed.

Lemma APIYoutube_get_videos_listed env self w items ids :
  py_get (answer_to env (videos_search_call env self)) "items" (JList [])
  = Ok (JList items) ->
  items <> [] ->
  Forall2 (fun item v => videoId_of item = Ok (JStr v)) items ids ->
  APIYoutube_get_videos env self w
  = (Ok (if truthy (answer_to env (videos_call env self ids))
         then answer_to env (videos_call env self ids) else JNull),
     logged (videos_call env self ids) (logged (videos_search_call env self) w)).
Proof.
  intros Hitems Hne Hids.
  unfold APIYoutube_get_videos, mbind.
  rewrite make_request_answer by reflexivity. fold (videos_search_call env self).
  assert (truthy (answer_to env (videos_search_call env self)) = true) as Htruthy.
  { destruct (answer_to env (videos_search_call env self)) as [| | | | |[|]];
      try discriminate; [|reflexivity].
    simpl in Hitems. injection Hitems as <-. congruence. }
  rewrite Htruthy. cbn [negb]. cbv beta iota.
  unfold lift. rewrite Hitems. cbv beta iota.
  assert (truthy (JList items) = true) as -> by (destruct items; [congruence | reflexivity]).
  cbn [negb py_iter res_bind]. rewrite (res_mapM_videoId items ids Hids).
  cbn [res_bind]. rewrite str_join_comma_strings. cbv beta iota.
  rewrite make_request_answer by reflexivity. fold (videos_call env self ids).
  destruct (truthy (answer_to env (videos_call env self ids))); reflexivity.
Qed.






(** ** Resolving a handle by a channel search *)

Lemma by_userName_search env userName api_key_ w :
  str_startswith "@" userName = true ->
  str_contains " " userName = false ->
  first (filter_userName_iexact userName (filter_service "Youtube" (db w))) = None ->
  by_userName env userName api_key_ w
  = (after_search (search_response env userName api_key_) api_key_,
     searched userName api_key_ w).
Proof.
  intros Hat Hspace Hnone. unfold by_userName. rewrite Hat, Hspace.
  cbn [negb orb]. cbv beta iota. unfold mbind at 1. unfold objects.
  rewrite Hnone.
  unfold after_search, search_response, searched, search_call, mbind, make_request.
  cbn [truthy fst snd].
  destruct (requests_get env _ _) as [response|]; [|reflexivity].
  destruct (negb (truthy response)); [reflexivity|].
  unfold lift. destruct (totalResults_is_1 response) as [[]|]; try reflexivity.
  cbn [negb res_bind]. cbv beta iota.
  destruct (py_get response "items" (JList [])) as [items|]; [|reflexivity].
  cbn [res_bind]. cbv beta iota.
  destruct (truthy items).
  - destruct (py_index0 items) as [item|]; [|reflexivity]. cbn [res_bind].
    destruct (py_get item "id" JNull) as [youtube_id|]; [|reflexivity].
    cbn [res_bind]. cbv beta iota. destruct (negb (truthy youtube_id)); reflexivity.
  - reflexivity.
Qed.

Lemma totalResults_is_1_int response n :
  totalResults response = Ok (JInt n) -> totalResults_is_1 response = Ok (n =? 1).
Proof. intros H. unfold totalResults_is_1. rewrite H. reflexivity. Qed.

(** C8. With a well-formed handle and no stored row for it, [by_userName]
    issues the channel search and
    - returns [None] whenever the count under [pageInfo.totalResults] of
      the response (0 when the field is absent) is an integer other than 1;
    - returns an adapter only if that count is 1 in Python's sense (the
      integer 1, or [True]) and the first item carries a non-empty id, and
      the adapter is then the one built from that id;
    - does return that adapter when the count is the integer 1 and the
      first item carries a non-empty id. *)
Theorem by_userName_needs_exactly_one_result env userName api_key_ w :
  str_startswith "@" userName = true ->
  str_contains " " userName = false ->
  first (filter_userName_iexact userName (filter_service "Youtube" (db w))) = None ->
  let response := search_response env userName api_key_ in
  (forall n,
      totalResults response = Ok (JInt n) -> n <> 1 ->
      by_userName env userName api_key_ w = (Ok None, searched userName api_key_ w))
  /\ (forall adapter,
         fst (by_userName env userName api_key_ w) = Ok (Some adapter) ->
         (totalResults response = Ok (JInt 1) \/ totalResults response = Ok (JBool true))
         /\ exists items item channel_id,
              py_get response "items" (JList []) = Ok items
              /\ py_index0 items = Ok item
              /\ py_get item "id" JNull = Ok channel_id
              /\ truthy channel_id = true
              /\ adapter = APIYoutube_init channel_id api_key_)
  /\ (forall items item channel_id,
         totalResults response = Ok (JInt 1) ->
         py_get response "items" (JList []) = Ok items ->
         py_index0 items = Ok item ->
         py_get item "id" JNull = Ok channel_id ->
         truthy channel_id = true ->
         by_userName env userName api_key_ w
         = (Ok (Some (APIYoutube_init channel_id api_key_)),
            searched userName api_key_ w)).
Proof.
  intros Hat Hspace Hnone response.
  rewrite (by_userName_search env userName api_key_ w Hat Hspace Hnone).
  fold response. unfold after_search. repeat split.
  - intros n Hn Hne. f_equal.
    destruct (negb (truthy response)); [reflexivity|].
    rewrite (totalResults_is_1_int _ _ Hn).
    assert ((n =? 1) = false) as -> by lia. reflexivity.
  - simpl in H. destruct (negb (truthy response)); [discriminate|].
    unfold totalResults_is_1 in H.
    destruct (totalResults response) as [t|]; [|discriminate].
    cbn [res_bind] in H.
    destruct t as [|[]|n| | |]; cbn [py_eq_int negb Z.b2z Z.eqb] in H;
      try discriminate; [right; reflexivity|].
    destruct (n =? 1) eqn:E; [|discriminate].
    left. f_equal. f_equal. lia.
  - simpl in H. destruct (negb (truthy response)); [discriminate|].
    destruct (totalResults_is_1 response) as [[]|]; try discriminate.
    cbn [res_bind negb] in H.
    destruct (py_get response "items" (JList [])) as [items|]; [|discriminate].
    cbn [res_bind] in H.
    destruct (truthy items) eqn:Hitems; [|simpl in H; discriminate].
    destruct (py_index0 items) as [item|] eqn:Hitem; [|simpl in H; discriminate].
    cbn [res_bind] in H.
    destruct (py_get item "id" JNull) as [channel_id|] eqn:Hcid;
      [|simpl in H; discriminate].
    cbn [res_bind] in H.
    destruct (truthy channel_id) eqn:Hid; [|simpl in H; discriminate].
    cbn [negb] in H. injection H as <-.
    exists items, item, channel_id. repeat split; assumption.
  - intros items item channel_id Hone Hitems Hitem Hid Htruthy. f_equal.
    assert (truthy response = true) as ->.
    { destruct response as [| | | | |[|]]; try discriminate; reflexivity. }
    assert (truthy items = true) as Hnonempty.
    { destruct items as [| | |[|]|[|]|]; try discriminate; reflexivity. }
    rewrite (totalResults_is_1_int _ _ Hone), Hitems. cbn [negb Z.eqb res_bind].
    rewrite Hnonempty, Hitem. cbn [res_bind]. rewrite Hid. cbn [res_bind].
    rewrite Htruthy. reflexivity.
Qed.

Lemma by_userName_needs_exactly_one_result_witness :
  by_userName sample_env "@twins" (JStr "k") (world [] 0)
  = (Ok None, searched "@twins" (JStr "k") (world [] 0))
  /\ by_userName sample_env "@bobtv" (JStr "k") (world [] 0)
     = (Ok (Some (APIYoutube_init (JStr "UC123") (JStr "k"))),
        searched "@bobtv" (JStr "k") (world [] 0)).
Proof.
  split.
  - pose proof (by_userName_needs_exactly_one_result sample_env "@twins" (JStr "k")
                  (world [] 0) eq_refl eq_refl eq_refl) as (Hnot_one & _).
    apply (Hnot_one 2); [reflexivity | discriminate].
  - pose proof (by_userName_needs_exactly_one_result sample_env "@bobtv" (JStr "k")
                  (world [] 0) eq_refl eq_refl eq_refl) as (_ & _ & Hone).
    eapply Hone; reflexivity.
Defined.

(** ** Dictionaries and strings *)

Lemma assoc_dict_set_eq k v kv : assoc k (dict_set k v kv) = Some v.
Proof.
  induction kv as [|[k' v'] kv IH]; simpl.
  - rewrite String.eqb_refl. reflexivity.
  - destruct (String.eqb k k') eqn:E; simpl; rewrite E; [reflexivity | exact IH].
Qed.

Lemma assoc_dict_set_ne k k' v kv :
  k <> k' -> assoc k (dict_set k' v kv) = assoc k kv.
Proof.
  intros Hne. induction kv as [|[k'' v''] kv IH]; simpl.
  - apply String.eqb_neq in Hne. rewrite Hne. reflexivity.
  - destruct (String.eqb k' k'') eqn:E; simpl.
    + apply String.eqb_eq in E. subst k''.
      apply String.eqb_neq in Hne. rewrite Hne. reflexivity.
    + destruct (String.eqb k k''); [reflexivity | exact IH].
Qed.

Lemma str_startswith_spec p s :
  str_startswith p s = true <-> exists rest, s = (p ++ rest)%string.
Proof.
  revert s. induction p as [|a p IH]; intros s; simpl.
  - split; [intros _; exists s; reflexivity | reflexivity].
  - destruct s as [|b s].
    + split; [discriminate | intros [rest H]; discriminate].
    + rewrite andb_true_iff, Ascii.eqb_eq, IH. split.
      * intros [-> [rest ->]]. exists rest. reflexivity.
      * intros [rest H]. injection H as -> ->. eauto.
Qed.

(** [str_contains p s] holds exactly when [s] is some text, then [p],
    then some text. *)
Lemma str_contains_spec p s :
  str_contains p s = true <-> exists before after, s = (before ++ p ++ after)%string.
Proof.
  induction s as [|c s IH]; simpl.
  - rewrite orb_false_r, str_startswith_spec. split.
    + intros [rest H]. exists "", rest. exact H.
    + intros (before & after & H). destruct before; simpl in H; [eauto | discriminate].
  - rewrite orb_true_iff, str_startswith_spec, IH. split.
    + intros [[rest H] | (before & after & ->)].
      * exists "", rest. exact H.
      * exists (String c before), after. reflexivity.
    + intros (before & after & H). destruct before as [|c' before]; simpl in H.
      * left. eauto.
      * injection H as -> ->. right. eauto.
Qed.

Lemma str_contains_empty_text p : str_contains p "" = true -> p = "".
Proof. destruct p; [reflexivity | discriminate]. Qed.

Lemma str_contains_empty_pattern s : str_contains "" s = true.
Proof. destruct s; reflexivity. Qed.

(** ** Twitter normalization *)

Lemma py_get_cases v k dflt x :
  py_get v k dflt = Ok x ->
  exists kv, v = JDict kv
             /\ (assoc k kv = Some x \/ (assoc k kv = None /\ x = dflt)).
Proof.
  destruct v as [| | | | |kv]; try discriminate. simpl. intros H.
  exists kv. split; [reflexivity|].
  destruct (assoc k kv); injection H as <-; auto.
Qed.

Lemma py_int_reads env x n : py_int (interpreter env) x = Ok n -> int_reads env x n.
Proof.
  destruct x as [|b|m|s| |]; try discriminate; simpl; intros H.
  - injection H as <-. right. left. eauto.
  - injection H as <-. left. reflexivity.
  - destruct (int_of_str (interpreter env) s) as [m|] eqn:E; [|discriminate].
    injection H as <-. right. right. eauto.
Qed.

(** What [int(item.get(field, {}).get(key, 0))] reads. *)
Lemma stat_int_stat_of env field key item stats n :
  py_get item field (JDict []) = Ok stats ->
  stat_int env stats key = Ok n ->
  stat_of env field key item n.
Proof.
  intros Hstats H. unfold stat_int in H.
  destruct (py_get stats key (JInt 0)) as [x|] eqn:Hx; [|discriminate].
  cbn [res_bind] in H. apply py_int_reads in H.
  apply py_get_cases in Hstats as (kv & -> & Hfield).
  apply py_get_cases in Hx as (st & -> & Hkey).
  exists kv, st. split; [reflexivity|]. split.
  - destruct Hfield as [Hfield | [Hfield Heq]]; [left; assumption|].
    right. injection Heq as <-. auto.
  - destruct Hkey as [Hkey | [Hkey ->]].
    + right. eauto.
    + left. split; [assumption|].
      destruct H as [H | [(b & H & _) | (t & H & _)]]; congruence.
Qed.

Lemma res_filter_Ok {A} (keep : A -> res bool) (xs ys : list A) :
  res_filter keep xs = Ok ys ->
  ys = List.filter (fun x => match keep x with Ok true => true | _ => false end) xs.
Proof.
  revert ys. induction xs as [|x xs IH]; intros ys H; simpl in H.
  - injection H as <-. reflexivity.
  - destruct (keep x) as [b|] eqn:E; [|discriminate]. cbn [res_bind] in H.
    destruct (res_filter keep xs) as [rest|]; [|discriminate]. cbn [res_bind] in H.
    injection H as <-. simpl. rewrite E, (IH rest eq_refl).
    destruct b; reflexivity.
Qed.

Lemma res_filter_drop {A} (keep : A -> res bool) (xs1 xs2 : list A) (x : A) :
  keep x = Ok false ->
  res_filter keep (xs1 ++ x :: xs2) = res_filter keep (xs1 ++ xs2).
Proof.
  intros Hx. induction xs1 as [|y xs1 IH]; simpl.
  - rewrite Hx. cbn [res_bind]. destruct (res_filter keep xs2); reflexivity.
  - rewrite IH. reflexivity.
Qed.

Lemma keeps_of_account self tweet : keeps self tweet = of_account self tweet.
Proof.
  unfold keeps, link_has_username, of_account.
  destruct tweet as [| | | | |kv]; try reflexivity. simpl.
  destruct (assoc "link" kv) as [[| | |link|links|links]|]; simpl; try reflexivity;
    match goal with |- (if ?b then _ else _) = _ => destruct b; reflexivity end.
Qed.

Lemma filter_keeps_of_account self tweets :
  List.filter (keeps self) tweets = List.filter (of_account self) tweets.
Proof. apply List.filter_ext. intros t. apply keeps_of_account. Qed.

Ltac bind_inv H :=
  repeat match type of H with
         | res_bind ?m _ = Ok _ =>
             let E := fresh "E" in
             destruct m eqn:E; cbn [res_bind] in H; [|discriminate H]
         end.

Lemma clean_tweet_inv env tweet stats d :
  py_get tweet "stats" (JDict []) = Ok stats ->
  clean_tweet env tweet stats = Ok d -> cleaned_as env tweet d.
Proof.
  intros Hstats H. unfold clean_tweet in H. bind_inv H.
  injection H as <-. unfold cleaned_as.
  repeat eexists; eassumption.
Qed.

Lemma clean_loop_inv env tweets : forall acc sums out sums',
  clean_loop env tweets acc sums = Ok (out, sums') ->
  exists ds rs ls cs qs,
    out = (acc ++ ds)%list
    /\ Forall2 (cleaned_as env) tweets ds
    /\ Forall2 (stat_of env "stats" "retweets") tweets rs
    /\ Forall2 (stat_of env "stats" "likes") tweets ls
    /\ Forall2 (stat_of env "stats" "comments") tweets cs
    /\ Forall2 (stat_of env "stats" "quotes") tweets qs
    /\ avgRetweets sums' = avgRetweets sums + sum_Z rs
    /\ avgLikes sums' = avgLikes sums + sum_Z ls
    /\ avgComments sums' = avgComments sums + sum_Z cs
    /\ avgQuotes sums' = avgQuotes sums + sum_Z qs.
Proof.
  induction tweets as [|tweet rest IH]; intros acc sums out sums' H; simpl in H.
  - injection H as <- <-. exists [], [], [], [], [].
    rewrite app_nil_r. simpl. repeat split; try constructor; lia.
  - bind_inv H.
    apply IH in H as (ds & rs & ls & cs & qs & -> & Hds & Hrs & Hls & Hcs & Hqs
                      & Hr & Hl & Hc & Hq).
    simpl in Hr, Hl, Hc, Hq.
    match goal with Hd : clean_tweet _ _ _ = Ok ?d |- _ =>
      exists (d :: ds); pose proof (clean_tweet_inv _ _ _ _ E Hd) as Hclean end.
    eexists (_ :: rs), (_ :: ls), (_ :: cs), (_ :: qs).
    rewrite <- app_assoc. simpl.
    repeat split; try (constructor; [|assumption]); try assumption;
      try (eapply stat_int_stat_of; eassumption); lia.
Qed.

Lemma twitter_averages_inv sums n more :
  twitter_averages sums n = Ok more ->
  exists r l c q,
    average (avgRetweets sums) n = Ok r /\ average (avgLikes sums) n = Ok l
    /\ average (avgComments sums) n = Ok c /\ average (avgQuotes sums) n = Ok q
    /\ more = [("avgRetweets", JInt r); ("avgLikes", JInt l);
               ("avgComments", JInt c); ("avgQuotes", JInt q)].
Proof.
  intros H. unfold twitter_averages in H. bind_inv H. injection H as <-.
  eexists _, _, _, _. repeat split; reflexivity.
Qed.

Lemma clean_profile_inv env profile more_statistics profile' :
  clean_profile env profile more_statistics = Ok profile' ->
  exists kv joined_raw joined stats,
    profile = JDict kv
    /\ py_get profile "joined" fallback_date = Ok joined_raw
    /\ parse_isoformat env joined_raw = Ok joined
    /\ assoc "stats" kv = Some (JDict stats)
    /\ profile' = JDict (dict_set "stats" (JDict (dict_update stats more_statistics))
                           (dict_set "joined" joined kv)).
Proof.
  intros H. unfold clean_profile in H. bind_inv H.
  destruct profile as [| | | | |kv]; try discriminate.
  rewrite assoc_dict_set_ne in H by discriminate.
  destruct (assoc "stats" kv) as [[| | | | |stats]|] eqn:Hstats; try discriminate.
  injection H as <-. exists kv. repeat eexists; eassumption.
Qed.

Lemma APITwitter_clean_inv env self profile tweets data :
  APITwitter_clean env self profile tweets = Ok data ->
  exists all ds rs ls cs qs more profile',
    let kept := List.filter (keeps self) all in
    py_iter tweets = Ok all
    /\ res_filter (link_has_username self) all = Ok kept
    /\ Forall2 (cleaned_as env) kept ds
    /\ Forall2 (stat_of env "stats" "retweets") kept rs
    /\ Forall2 (stat_of env "stats" "likes") kept ls
    /\ Forall2 (stat_of env "stats" "comments") kept cs
    /\ Forall2 (stat_of env "stats" "quotes") kept qs
    /\ twitter_averages
         {| avgRetweets := sum_Z rs; avgLikes := sum_Z ls;
            avgComments := sum_Z cs; avgQuotes := sum_Z qs |}
         (Z.of_nat (length kept)) = Ok more
    /\ clean_profile env profile more = Ok profile'
    /\ data = JDict [("profile", profile'); ("tweets", JList ds)].
Proof.
  intros H. unfold APITwitter_clean in H. bind_inv H.
  injection H as <-.
  match goal with Hf : res_filter _ _ = Ok ?k |- _ =>
    pose proof (res_filter_Ok _ _ _ Hf) as Hk; fold (keeps self) in Hk end.
  subst.
  match goal with Hl : clean_loop _ _ _ _ = Ok ?p |- _ =>
    destruct p as [out sums']; apply clean_loop_inv in Hl
      as (ds & rs & ls & cs & qs & -> & Hds & Hrs & Hls & Hcs & Hqs & Hr & Hl' & Hc & Hq) end.
  simpl in *.
  destruct sums' as [r l c q]. simpl in *. subst.
  eexists _, ds, rs, ls, cs, qs, _, _.
  repeat split; try eassumption.
Qed.

Lemma keeps_url_has_username env self tweet d :
  keeps self tweet = true -> cleaned_as env tweet d ->
  exists url, py_get d "url" JNull = Ok url
              /\ py_str_in (username self) url = Ok true.
Proof.
  intros Hkeep (stats & user & url & text & picture & video & date & datetime
                & _ & _ & Hurl & _ & _ & _ & _ & ->).
  exists url. split; [reflexivity|].
  unfold keeps, link_has_username in Hkeep.
  destruct tweet as [| | | | |kv]; try discriminate.
  simpl in Hkeep, Hurl. destruct (assoc "link" kv) as [link|].
  - injection Hurl as <-. cbn [res_bind] in Hkeep.
    destruct (py_str_in (username self) link) as [[]|]; try discriminate.
    reflexivity.
  - injection Hurl as <-. cbn [res_bind py_str_in] in Hkeep.
    destruct (str_contains (username self) "") eqn:E; [|discriminate].
    apply str_contains_empty_text in E. rewrite E. reflexivity.
Qed.

(** C7. A tweet whose link is a text without the queried user name in it
    leaves no trace in the result of [__clean]: the result, list of tweets
    and averages alike, is the one obtained without that tweet. And every
    entry of the normalized list carries a url that contains the user
    name (as a block of consecutive characters when the url is a text). *)
Theorem tweets_of_other_accounts_are_excluded env self profile :
  (forall before after kv url,
      assoc "link" kv = Some (JStr url) ->
      str_contains (username self) url = false ->
      APITwitter_clean env self profile (JList (before ++ JDict kv :: after))
      = APITwitter_clean env self profile (JList (before ++ after)))
  /\ (forall tweets data,
         APITwitter_clean env self profile tweets = Ok data ->
         exists all profile' ds,
           py_iter tweets = Ok all
           /\ data = JDict [("profile", profile'); ("tweets", JList ds)]
           /\ Forall2 (cleaned_as env) (List.filter (keeps self) all) ds
           /\ Forall (fun d =>
                        exists url,
                          py_get d "url" JNull = Ok url
                          /\ py_str_in (username self) url = Ok true
                          /\ forall text, url = JStr text ->
                               exists a b, text = (a ++ username self ++ b)%string) ds).
Proof.
  split.
  - intros before after kv url Hlink Hnot. unfold APITwitter_clean.
    cbn [py_iter res_bind].
    rewrite (res_filter_drop (link_has_username self) before after (JDict kv));
      [reflexivity|].
    unfold link_has_username. simpl. rewrite Hlink. simpl. rewrite Hnot. reflexivity.
  - intros tweets data H.
    apply APITwitter_clean_inv in H
      as (all & ds & rs & ls & cs & qs & more & profile'
          & Hall & _ & Hds & _ & _ & _ & _ & _ & _ & ->).
    exists all, profile', ds. repeat split; try assumption.
    assert (Forall (fun t => keeps self t = true) (List.filter (keeps self) all)) as Hkept.
    { apply Forall_forall. intros t Ht. apply elem_of_filter_bool in Ht. tauto. }
    revert Hkept. induction Hds as [|t d kept ds' Htd _ IH]; intros Hkept.
    + constructor.
    + apply Forall_cons in Hkept as [Ht Hkept]. constructor; [|apply IH; assumption].
      destruct (keeps_url_has_username env self t d Ht Htd) as (url & Hurl & Hin).
      exists url. repeat split; try assumption.
      intros text ->. simpl in Hin. injection Hin as Hin.
      apply str_contains_spec. assumption.
Qed.

Lemma tweets_of_other_accounts_are_excluded_witness :
  APITwitter_clean sample_env bob sample_profile
    (JList [sample_tweet "https://x.com/bob/status/1#m" 4;
            sample_tweet "https://x.com/alice/status/7#m" 100;
            sample_tweet "https://x.com/bob/status/2#m" 7])
  = APITwitter_clean sample_env bob sample_profile
      (JList [sample_tweet "https://x.com/bob/status/1#m" 4;
              sample_tweet "https://x.com/bob/status/2#m" 7]).
Proof.
  destruct (tweets_of_other_accounts_are_excluded sample_env bob sample_profile)
    as [Hdrop _].
  apply (Hdrop [sample_tweet "https://x.com/bob/status/1#m" 4]
               [sample_tweet "https://x.com/bob/status/2#m" 7]
               _ "https://x.com/alice/status/7#m"); reflexivity.
Defined.

(** ** The fallback date *)

(** C3, counterexample. A tweet whose date is a text that the parser gives
    up on makes [__clean] raise ([None] has no [isoformat]); no fallback
    date is put in its place. The same happens for a [joined] that does
    not parse. *)
Lemma unparsable_date_raises_instead_of_fallback :
  dateparser_parse sample_env "???" = None
  /\ APITwitter_clean sample_env bob sample_profile (JList [garbled_tweet])
     = Raise AttributeError
  /\ APITwitter_clean sample_env bob
       (JDict [("joined", JStr "???"); ("stats", JDict [])])
       (JList [sample_tweet "https://x.com/bob/status/1#m" 4])
     = Raise AttributeError.
Proof. repeat split. Qed.

Lemma parse_isoformat_inv env v out :
  parse_isoformat env v = Ok out ->
  exists text t,
    v = JStr text /\ dateparser_parse env text = Some t
    /\ out = JStr (datetime_isoformat t).
Proof.
  unfold parse_isoformat, dateparser_parse_value. intros H.
  destruct v as [| | |text| |]; try discriminate. cbn [res_bind] in H.
  destruct (dateparser_parse env text) as [t|] eqn:E; [|discriminate].
  injection H as <-. eauto.
Qed.

Lemma dated_intro env kv (key out_key : string) raw out d :
  dateparser_parse env "26/06/2003 15:00" = Some fallback_datetime ->
  py_get (JDict kv) key fallback_date = Ok raw ->
  parse_isoformat env raw = Ok out ->
  py_get d out_key JNull = Ok out ->
  dated env (assoc key kv) d out_key.
Proof.
  intros Hfb Hraw Hout Hd. simpl in Hraw. unfold dated.
  apply parse_isoformat_inv in Hout as (text & t & -> & Hparse & ->).
  destruct (assoc key kv) as [v|].
  - injection Hraw as ->. eauto.
  - injection Hraw as <-. rewrite Hfb in Hparse. injection Hparse as <-.
    exact Hd.
Qed.

(** C3, amended. Where the date parser reads the text [26/06/2003 15:00] as
    2003-06-26 15:00 and [__clean] returns, every kept tweet that has no
    [date] field gets the datetime [2003-06-26T15:00:00]; a kept tweet that
    has one has a text there, which the parser has read as it is, and gets
    the ISO form of what the parser made of it. The same holds of the
    [joined] of the profile. *)
Theorem fallback_date_stands_in_for_missing_date env self profile tweets data :
  dateparser_parse env "26/06/2003 15:00" = Some fallback_datetime ->
  APITwitter_clean env self profile tweets = Ok data ->
  exists all profile' ds,
    py_iter tweets = Ok all
    /\ data = JDict [("profile", profile'); ("tweets", JList ds)]
    /\ Forall2 (fun t d => exists kv, t = JDict kv /\ dated env (assoc "date" kv) d "datetime")
         (List.filter (of_account self) all) ds
    /\ exists kv, profile = JDict kv /\ dated env (assoc "joined" kv) profile' "joined".
Proof.
  intros Hparse H.
  apply APITwitter_clean_inv in H
    as (all & ds & rs & ls & cs & qs & more & profile'
        & Hall & _ & Hds & _ & _ & _ & _ & _ & Hp & ->).
  rewrite filter_keeps_of_account in Hds.
  exists all, profile', ds. repeat split; try assumption.
  - eapply Forall2_impl; [exact Hds|].
    intros t d (stats & user & url & text & picture & video & date & datetime
                & Hstats & _ & _ & _ & _ & Hdate & Hdt & ->).
    apply py_get_cases in Hstats as (kv & -> & _).
    exists kv. split; [reflexivity|].
    eapply dated_intro; [exact Hparse | exact Hdate | exact Hdt | reflexivity].
  - apply clean_profile_inv in Hp
      as (kv & raw & joined & stats & -> & Hraw & Hjoined & _ & ->).
    exists kv. split; [reflexivity|].
    eapply dated_intro; [exact Hparse | exact Hraw | exact Hjoined |].
    simpl. rewrite assoc_dict_set_ne by discriminate.
    rewrite assoc_dict_set_eq. reflexivity.
Qed.

Lemma fallback_date_stands_in_for_missing_date_witness :
  exists data all profile' ds,
    APITwitter_clean sample_env bob unjoined_profile dated_and_undated = Ok data
    /\ py_iter dated_and_undated = Ok all
    /\ data = JDict [("profile", profile'); ("tweets", JList ds)]
    /\ Forall2 (fun t d => exists kv, t = JDict kv
                                     /\ dated sample_env (assoc "date" kv) d "datetime")
         (List.filter (of_account bob) all) ds
    /\ exists kv, unjoined_profile = JDict kv
                  /\ dated sample_env (assoc "joined" kv) profile' "joined".
Proof.
  destruct (APITwitter_clean sample_env bob unjoined_profile dated_and_undated)
    as [data|e] eqn:Hclean; [|vm_compute in Hclean; discriminate Hclean].
  destruct (fallback_date_stands_in_for_missing_date sample_env bob
              unjoined_profile dated_and_undated data eq_refl Hclean)
    as (all & profile' & ds & H).
  exists data, all, profile', ds. split; [reflexivity | exact H].
Defined.

(** The two tweets of the witness: the one without a date gets the
    fallback, the other the date it came with. *)
Example dated_and_undated_datetimes :
  (let? data := APITwitter_clean sample_env bob unjoined_profile dated_and_undated in
   let? tweets := py_get data "tweets" JNull in
   let? tweets := py_iter tweets in
   res_mapM (fun d => py_get d "datetime" JNull) tweets)
  = Ok [JStr "2003-06-26T15:00:00"; JStr "2024-03-01T09:30:00+00:00"].
Proof. vm_compute. reflexivity. Qed.

(** ** Rounding *)

(** [round_half_even] gives an integer nearest to the quotient, and the
    even one of the two when the quotient lies half-way. *)
Lemma round_half_even_nearest p q :
  0 < q ->
  Z.abs (2 * (p - round_half_even p q * q)) <= q
  /\ (Z.abs (2 * (p - round_half_even p q * q)) = q ->
      Z.even (round_half_even p q) = true).
Proof.
  intros Hpos. unfold round_half_even.
  pose proof (Z.div_mod p q ltac:(lia)) as Hdm.
  pose proof (Z.mod_pos_bound p q Hpos) as Hr.
  set (d := p / q) in *. set (r := p mod q) in *.
  assert (p - d * q = r) as Hq by lia.
  assert (p - (d + 1) * q = r - q) as Hq1 by lia.
  destruct (2 * r <? q) eqn:E1; [rewrite Hq; lia|].
  destruct (q <? 2 * r) eqn:E2; [rewrite Hq1; lia|].
  destruct (Z.even d) eqn:E3.
  - rewrite Hq. split; [lia | intros _; exact E3].
  - rewrite Hq1. split; [lia|]. intros _.
    rewrite Z.even_add, E3. reflexivity.
Qed.

(** It is the only such integer. *)
Lemma round_half_even_unique p q r :
  0 < q ->
  Z.abs (2 * (p - r * q)) <= q ->
  (Z.abs (2 * (p - r * q)) = q -> Z.even r = true) ->
  r = round_half_even p q.
Proof.
  intros Hpos Hnear Htie.
  destruct (round_half_even_nearest p q Hpos) as [Hnear0 Htie0].
  set (r0 := round_half_even p q) in *.
  assert (-1 <= r0 - r <= 1) as Hclose by nia.
  assert (r0 = r \/ r0 = r + 1 \/ r0 = r - 1) as [H|[H|H]] by lia; [congruence| |].
  - assert (Z.even r = true) as Hr by (apply Htie; nia).
    assert (Z.even r0 = true) as Hr0 by (apply Htie0; nia).
    rewrite H, Z.even_add, Hr in Hr0. discriminate.
  - assert (Z.even r = true) as Hr by (apply Htie; nia).
    assert (Z.even r0 = true) as Hr0 by (apply Htie0; nia).
    rewrite H, Z.even_sub, Hr in Hr0. discriminate.
Qed.

Lemma round_half_even_exact k q : 0 < q -> round_half_even (k * q) q = k.
Proof.
  intros Hpos. symmetry. apply round_half_even_unique; [assumption| |];
    replace (k * q - k * q) with 0 by lia; simpl; lia.
Qed.

Lemma round_half_even_opp p q :
  0 < q -> round_half_even (- p) q = - round_half_even p q.
Proof.
  intros Hpos. symmetry.
  destruct (round_half_even_nearest p q Hpos) as [Hnear Htie].
  apply round_half_even_unique; [assumption| |].
  - lia.
  - intros H. rewrite Z.even_opp. apply Htie. lia.
Qed.

(** Rounding to a multiple of [1 / P] first does not change the integer
    that a quotient by [q] rounds to, as long as [P] is even and larger
    than [q]: a quotient that is not half-way between two integers is
    further than [1 / (2 P)] from half-way. *)
Lemma round_half_even_twice p q P :
  0 < q -> q < P -> Z.even P = true ->
  round_half_even (round_half_even (p * P) q) P = round_half_even p q.
Proof.
  intros Hq HP Heven. symmetry.
  destruct (round_half_even_nearest p q Hq) as [Hnear Htie].
  set (r := round_half_even p q) in *.
  destruct (Z.eq_dec (Z.abs (2 * (p - r * q))) q) as [Hhalf | Hnot].
  - (* half-way: the first rounding is exact *)
    apply Z.even_spec in Heven. destruct Heven as [P' ->].
    assert (exists k, p * (2 * P') = k * q /\ Z.abs (2 * (k - r * (2 * P'))) = 2 * P')
      as (k & Hk & Hdist).
    { destruct (Z.abs_spec (2 * (p - r * q))) as [[_ Habs]|[_ Habs]];
        rewrite Habs in Hhalf.
      - exists (r * (2 * P') + P'). split; [nia | lia].
      - exists (r * (2 * P') - P'). split; [nia | lia]. }
    rewrite Hk, round_half_even_exact by assumption.
    apply round_half_even_unique; [lia | lia | intros _; apply Htie; assumption].
  - destruct (round_half_even_nearest (p * P) q Hq) as [Hnear' _].
    set (m := round_half_even (p * P) q) in *.
    assert (Z.abs (2 * (m - r * P)) < P) as Hstrict by nia.
    apply round_half_even_unique; lia.
Qed.

(** As long as the dividend stays below 2^52 in absolute value, the way
    through a double changes nothing: [round(value / total)] is the exact
    quotient rounded half to even. *)
Lemma py_round_div_exact value total :
  0 < total -> Z.abs value < 2 ^ 52 ->
  py_round_div value total = Ok (round_half_even value total).
Proof.
  intros Hpos Hsmall. unfold py_round_div, true_divide.
  destruct (value =? 0) eqn:Hzero.
  { apply Z.eqb_eq in Hzero. subst value. f_equal.
    symmetry. exact (round_half_even_exact 0 total Hpos). }
  apply Z.eqb_neq in Hzero.
  set (n := Z.abs value).
  assert (0 < n < 2 ^ 52) as Hn by (unfold n; lia).
  set (d := Z.log2 n - Z.log2 total).
  set (below := if 0 <=? d then n <? total * 2 ^ d else n * 2 ^ (- d) <? total).
  set (e := if below then d - 1 else d).
  set (u := Z.max (e - 52) (-1074)).
  assert (Z.log2 n < 52) as Hlog by (apply Z.log2_lt_pow2; lia).
  pose proof (Z.log2_nonneg total) as Hlogt.
  assert (e <= d) as Hed by (unfold e; destruct below; lia).
  assert (d - 1 <= e) as Hde by (unfold e; destruct below; lia).
  assert (u < 0) as Hu by (unfold u; lia).
  assert ((0 <=? u) = false) as -> by lia.
  cbn [andb]. unfold float_round.
  assert ((0 <=? u) = false) as -> by lia.
  f_equal.
  set (P := 2 ^ (- u)).
  assert (0 < P) as HPpos by (unfold P; apply Z.pow_pos_nonneg; lia).
  assert (Z.even P = true) as HPeven.
  { unfold P. replace (- u) with (Z.succ (- u - 1)) by lia.
    rewrite Z.pow_succ_r by lia. rewrite Z.even_mul. reflexivity. }
  assert (round_half_even (round_half_even (n * P) total) P = round_half_even n total)
    as Hmain.
  { destruct (Z_lt_le_dec total P) as [Hlt | Hge].
    { apply round_half_even_twice; assumption. }
    (* the quotient is below 2^-1022: both sides are 0 *)
    assert (u = -1074) as Hu'.
    { unfold u. destruct (Z.max_spec (e - 52) (-1074)) as [[_ ->]|[Hmax ->]];
        [reflexivity|].
      exfalso. revert Hge. apply Z.lt_nge. unfold P, u.
      rewrite Z.max_l by lia.
      pose proof (Z.log2_spec total Hpos) as [_ Htotal].
      eapply Z.lt_le_trans; [exact Htotal|].
      apply Z.pow_le_mono_r; lia. }
    assert (2 ^ 53 < P) as Hbig.
    { unfold P. rewrite Hu'. apply Z.pow_lt_mono_r; lia. }
    assert (2 ^ 52 * 2 = 2 ^ 53) as Hpow by reflexivity.
    destruct (round_half_even_nearest (n * P) total Hpos) as [Hm _].
    set (m := round_half_even (n * P) total) in *.
    assert (0 <= m <= n) as Hmn by nia.
    transitivity 0.
    - symmetry. apply round_half_even_unique; lia.
    - apply round_half_even_unique; lia. }
  destruct (Z.sgn_spec value) as [[Hs ->]|[[Hs ->]|[Hs ->]]]; [|lia|].
  - assert (n = value) as Hnv by (unfold n; lia).
    rewrite Z.mul_1_l, Hmain, Hnv. reflexivity.
  - assert (value = - n) as Hnv by (unfold n; lia).
    replace (-1 * round_half_even (n * P) total)
      with (- round_half_even (n * P) total) by lia.
    rewrite round_half_even_opp, Hmain by assumption.
    rewrite Hnv. symmetry. apply round_half_even_opp. assumption.
Qed.

(** ** Averages *)

Lemma average_value {A} (s n avg : Z) (kept : list A) :
  n = Z.of_nat (length kept) ->
  average s n = Ok avg ->
  (kept = [] -> avg = 0) /\ (kept <> [] -> rounded_mean s n avg).
Proof.
  intros -> H. unfold average in H. split.
  - intros ->. simpl in H. congruence.
  - intros Hne. assert (0 < Z.of_nat (length kept)) as Hpos.
    { destruct kept; [congruence | simpl; lia]. }
    assert ((0 <? Z.of_nat (length kept)) = true) as Hlt by lia.
    rewrite Hlt in H. split; [assumption|]. intros Hsmall.
    rewrite py_round_div_exact in H by assumption. injection H as <-.
    apply round_half_even_nearest. assumption.
Qed.

(** C5, counterexample. One kept tweet with 2^53 + 1 likes: the mean of
    the likes is that very number, and [avgLikes] is 2^53, for the double
    that the quotient goes through has no room for the last bit. And a
    tweet with 10^400 likes makes [__clean] raise [OverflowError]. *)
Lemma average_of_large_counts_is_not_the_rounded_mean :
  stat_of sample_env "stats" "likes"
    (sample_tweet "https://x.com/bob/status/1#m" (2 ^ 53 + 1)) (2 ^ 53 + 1)
  /\ (let? data := APITwitter_clean sample_env bob sample_profile
                     (JList [sample_tweet "https://x.com/bob/status/1#m" (2 ^ 53 + 1)]) in
      let? stats := get2 data "profile" "stats" JNull in
      py_get stats "avgLikes" JNull) = Ok (JInt (2 ^ 53))
  /\ ~ Z.abs (2 * ((2 ^ 53 + 1) - 2 ^ 53 * 1)) <= 1
  /\ APITwitter_clean sample_env bob sample_profile
       (JList [sample_tweet "https://x.com/bob/status/1#m" (10 ^ 400)])
     = Raise OverflowError.
Proof.
  split; [|split; [|split]].
  - eexists _, _. split; [reflexivity|]. split; [left; reflexivity|].
    right. eexists. split; [reflexivity|]. left. reflexivity.
  - vm_compute. reflexivity.
  - vm_compute. intros H. apply H. reflexivity.
  - vm_compute. reflexivity.
Qed.

(** C5, amended. In the result of [__clean], each of [avgRetweets],
    [avgLikes], [avgComments] and [avgQuotes] under [profile.stats] is 0
    when no tweet is kept. Otherwise it is [round(sum / count)] of that
    statistic over the kept tweets (the statistic of a tweet being the
    number under [stats], 0 where there is none), the quotient taken as a
    double; as long as the sum stays below 2^52 in absolute value, that is
    an integer nearest to the exact mean, the even one when the mean lies
    half-way between two. *)
Theorem twitter_averages_are_rounded_means env self profile tweets data :
  APITwitter_clean env self profile tweets = Ok data ->
  exists all stats,
    py_iter tweets = Ok all
    /\ get2 data "profile" "stats" JNull = Ok (JDict stats)
    /\ forall avg_key key,
         In (avg_key, key) twitter_stat_keys ->
         exists values avg,
           Forall2 (stat_of env "stats" key) (List.filter (of_account self) all) values
           /\ assoc avg_key stats = Some (JInt avg)
           /\ (List.filter (of_account self) all = [] -> avg = 0)
           /\ (List.filter (of_account self) all <> [] ->
               rounded_mean (sum_Z values)
                 (Z.of_nat (length (List.filter (of_account self) all))) avg).
Proof.
  intros H.
  apply APITwitter_clean_inv in H
    as (all & ds & rs & ls & cs & qs & more & profile' & Hall & _ & _
        & Hrs & Hls & Hcs & Hqs & Hmore & Hp & ->).
  rewrite filter_keeps_of_account in Hrs, Hls, Hcs, Hqs, Hmore.
  apply twitter_averages_inv in Hmore as (r & l & c & q & Hr & Hl & Hc & Hq & ->).
  cbn [avgRetweets avgLikes avgComments avgQuotes] in Hr, Hl, Hc, Hq.
  apply clean_profile_inv in Hp as (kv & raw & joined & stats & _ & _ & _ & _ & ->).
  exists all. eexists. split; [assumption|]. split.
  { unfold get2. simpl. rewrite assoc_dict_set_eq. reflexivity. }
  set (kept := List.filter (of_account self) all) in *.
  intros avg_key key Hin. unfold twitter_stat_keys in Hin. simpl in Hin.
  unfold dict_update. cbn [fold_left fst snd].
  destruct Hin as [Hin|[Hin|[Hin|[Hin|[]]]]]; injection Hin as <- <-.
  - exists rs, r. split; [assumption|]. split.
    + rewrite !assoc_dict_set_ne by discriminate. apply assoc_dict_set_eq.
    + eapply average_value; [reflexivity | eassumption].
  - exists ls, l. split; [assumption|]. split.
    + rewrite !assoc_dict_set_ne by discriminate. apply assoc_dict_set_eq.
    + eapply average_value; [reflexivity | eassumption].
  - exists cs, c. split; [assumption|]. split.
    + rewrite !assoc_dict_set_ne by discriminate. apply assoc_dict_set_eq.
    + eapply average_value; [reflexivity | eassumption].
  - exists qs, q. split; [assumption|]. split.
    + apply assoc_dict_set_eq.
    + eapply average_value; [reflexivity | eassumption].
Qed.

(** Two kept tweets with 4 and 7 likes: the mean 5.5 is rounded to 6; the
    100 likes of the tweet of another account do not count. *)
Example sample_result_avgLikes :
  (let? stats := get2 sample_result "profile" "stats" JNull in
   py_get stats "avgLikes" JNull) = Ok (JInt 6).
Proof. reflexivity. Qed.

Lemma twitter_averages_are_rounded_means_witness :
  exists all stats,
    py_iter sample_tweets = Ok all
    /\ get2 sample_result "profile" "stats" JNull = Ok (JDict stats)
    /\ forall avg_key key,
         In (avg_key, key) twitter_stat_keys ->
         exists values avg,
           Forall2 (stat_of sample_env "stats" key) (List.filter (of_account bob) all) values
           /\ assoc avg_key stats = Some (JInt avg)
           /\ (List.filter (of_account bob) all = [] -> avg = 0)
           /\ (List.filter (of_account bob) all <> [] ->
               rounded_mean (sum_Z values)
                 (Z.of_nat (length (List.filter (of_account bob) all))) avg).
Proof.
  apply (twitter_averages_are_rounded_means sample_env bob sample_profile
           sample_tweets sample_result).
  vm_compute. reflexivity.
Defined.

(** ** YouTube normalization *)

Ltac split_matches :=
  repeat (simpl in *; try congruence;
          match goal with
          | H : context [match ?x with _ => _ end] |- _ => destruct x eqn:?
          end).

Lemma get2_missing v a b dflt x :
  get2 v a b dflt = Ok x -> lookup_path v [a; b] = None -> x = dflt.
Proof.
  unfold get2, res_bind, py_get, lookup_path. intros H Hmiss. split_matches.
Qed.

Lemma get4_missing v a b c d dflt x :
  get4 v a b c d dflt = Ok x -> lookup_path v [a; b; c; d] = None -> x = dflt.
Proof.
  unfold get4, res_bind, py_get, lookup_path. intros H Hmiss. split_matches.
Qed.

Lemma get2_found v a b dflt x y :
  get2 v a b dflt = Ok x -> lookup_path v [a; b] = Some y -> x = y.
Proof.
  unfold get2, res_bind, py_get, lookup_path. intros H Hfound. split_matches.
Qed.

Lemma coerce_stat_inv env x y : coerce_stat env x = Ok y -> coerced env x y.
Proof.
  destruct x as [| | |s| |]; try discriminate. simpl. intros H. exists s.
  split; [reflexivity|]. destruct (str_isdigit (interpreter env) s) eqn:E.
  - destruct (int_of_str (interpreter env) s) as [n|]; [|discriminate].
    injection H as <-. split; [discriminate | eauto].
  - injection H as <-. split; [reflexivity | discriminate].
Qed.

Lemma coerce_statistics_inv env stats out :
  coerce_statistics env stats = Ok out ->
  exists kv kv',
    stats = JDict kv /\ out = JDict kv'
    /\ Forall2 (fun p p' => fst p' = fst p /\ coerced env (snd p) (snd p')) kv kv'.
Proof.
  destruct stats as [| | | | |kv]; try discriminate. simpl. intros H.
  destruct (res_mapM _ kv) as [kv'|] eqn:E; [|discriminate].
  injection H as <-. exists kv, kv'. repeat split.
  revert kv' E. induction kv as [|[k x] kv IH]; intros kv' E; simpl in E.
  - injection E as <-. constructor.
  - destruct (coerce_stat env x) as [y|] eqn:Ey; [|discriminate]. cbn [res_bind] in E.
    destruct (res_mapM _ kv) as [rest|]; [|discriminate]. cbn [res_bind] in E.
    injection E as <-. constructor; [|apply IH; reflexivity].
    split; [reflexivity | apply coerce_stat_inv; assumption].
Qed.

Lemma clean_video_inv env video snippet stats e :
  py_get video "snippet" (JDict []) = Ok snippet ->
  py_get video "statistics" (JDict []) = Ok stats ->
  clean_video env video snippet stats = Ok e -> video_cleaned_as env video e.
Proof.
  intros Hsnippet Hstats H. unfold clean_video in H. bind_inv H.
  injection H as <-. unfold video_cleaned_as.
  repeat eexists; try eassumption.
  unfold get4. rewrite Hsnippet. cbn [res_bind]. eassumption.
Qed.

(** What the loop over the videos leaves: the normalized videos, and the
    sums of the three statistics that the averages are taken of. *)
Lemma youtube_clean_loop_inv env videos : forall acc sums out sums',
  youtube_clean_loop env videos acc sums = Ok (out, sums') ->
  exists es vs ls cs,
    out = (acc ++ es)%list
    /\ Forall2 (video_cleaned_as env) videos es
    /\ Forall2 (stat_of env "statistics" "viewCount") videos vs
    /\ Forall2 (stat_of env "statistics" "likeCount") videos ls
    /\ Forall2 (stat_of env "statistics" "commentCount") videos cs
    /\ avgViews sums' = avgViews sums + sum_Z vs
    /\ yt_avgLikes sums' = yt_avgLikes sums + sum_Z ls
    /\ yt_avgComments sums' = yt_avgComments sums + sum_Z cs.
Proof.
  induction videos as [|video rest IH]; intros acc sums out sums' H; simpl in H.
  - injection H as <- <-. exists [], [], [], []. rewrite app_nil_r. simpl.
    repeat split; try constructor; lia.
  - bind_inv H.
    apply IH in H as (es & vs & ls & cs & -> & Hes & Hvs & Hls & Hcs & Hv & Hl & Hc).
    simpl in Hv, Hl, Hc.
    match goal with Hd : clean_video _ _ _ _ = Ok ?d |- _ =>
      exists (d :: es); pose proof (clean_video_inv _ _ _ _ _ E E0 Hd) as Hclean end.
    eexists (_ :: vs), (_ :: ls), (_ :: cs).
    rewrite <- app_assoc. simpl.
    repeat split; try (constructor; [|assumption]); try assumption;
      try (eapply stat_int_stat_of; eassumption); lia.
Qed.

Lemma youtube_averages_inv sums n more :
  youtube_averages sums n = Ok more ->
  exists v l c,
    average (avgViews sums) n = Ok v /\ average (yt_avgLikes sums) n = Ok l
    /\ average (yt_avgComments sums) n = Ok c
    /\ more = [("avgViews", JInt v); ("avgLikes", JInt l); ("avgComments", JInt c)].
Proof.
  intros H. unfold youtube_averages in H. bind_inv H. injection H as <-.
  eexists _, _, _. repeat split; reflexivity.
Qed.

(** What [int(channel.get('statistics', {}).get(key, 0))] reads. *)
Lemma channel_stat_reads env channel key n :
  channel_stat env channel key = Ok n ->
  match lookup_path channel ["statistics"; key] with
  | Some x => int_reads env x n
  | None => n = 0
  end.
Proof.
  unfold channel_stat. intros H.
  destruct (get2 channel "statistics" key (JInt 0)) as [v|] eqn:E; [|discriminate].
  cbn [res_bind] in H.
  destruct (lookup_path channel ["statistics"; key]) as [x|] eqn:Hpath.
  - rewrite (get2_found _ _ _ _ _ _ E Hpath) in H. apply py_int_reads. assumption.
  - rewrite (get2_missing _ _ _ _ _ E Hpath) in H. injection H as <-. reflexivity.
Qed.

Lemma APIYoutube_clean_inv env self profile videos data :
  APIYoutube_clean env self profile videos = Ok data ->
  exists items channel image views subscribers nvideos vitems videos_list es
         vs ls cs name userName pid joined country a b c,
    py_get profile "items" (JList []) = Ok items
    /\ py_index0 items = Ok channel
    /\ get4 channel "snippet" "thumbnails" "high" "url"
         (YoutubeConfig_DEFAULT_IMG env) = Ok image
    /\ channel_stat env channel "viewCount" = Ok views
    /\ channel_stat env channel "subscriberCount" = Ok subscribers
    /\ channel_stat env channel "videoCount" = Ok nvideos
    /\ py_get videos "items" (JList []) = Ok vitems
    /\ py_iter vitems = Ok videos_list
    /\ Forall2 (video_cleaned_as env) videos_list es
    /\ Forall2 (stat_of env "statistics" "viewCount") videos_list vs
    /\ Forall2 (stat_of env "statistics" "likeCount") videos_list ls
    /\ Forall2 (stat_of env "statistics" "commentCount") videos_list cs
    /\ average (sum_Z vs) (Z.of_nat (length videos_list)) = Ok a
    /\ average (sum_Z ls) (Z.of_nat (length videos_list)) = Ok b
    /\ average (sum_Z cs) (Z.of_nat (length videos_list)) = Ok c
    /\ data = JDict
                [("profile",
                  JDict [("name", name); ("userName", userName); ("id", pid);
                         ("joined", joined); ("image", image); ("country", country);
                         ("stats",
                          JDict [("views", JInt views);
                                 ("subscribers", JInt subscribers);
                                 ("videos", JInt nvideos);
                                 ("avgViews", JInt a); ("avgLikes", JInt b);
                                 ("avgComments", JInt c)])]);
                 ("videos", JList es)].
Proof.
  intros H. unfold APIYoutube_clean in H. bind_inv H.
  injection H as <-.
  match goal with Hl : youtube_clean_loop _ _ _ _ = Ok ?p |- _ =>
    destruct p as [out sums']; apply youtube_clean_loop_inv in Hl
      as (es & vs & ls & cs & -> & Hes & Hvs & Hls & Hcs & Hv & Hl' & Hc) end.
  match goal with Hm : youtube_averages _ _ = Ok _ |- _ =>
    apply youtube_averages_inv in Hm as (avg1 & avg2 & avg3 & Ha & Hb & Hc' & ->) end.
  destruct sums' as [sv sl sc]. simpl in Hv, Hl', Hc, Ha, Hb, Hc'. subst sv sl sc.
  eexists _, _, _, _, _, _, _, _, es, vs, ls, cs.
  eexists _, _, _, _, _, avg1, avg2, avg3.
  repeat split; try eassumption.
Qed.

(** C6, counterexample. A channel statistic that is not a number makes
    [__clean] raise; so does a [viewCount] of a video that is not a number
    (the sum for the average reads it with [int]); and a statistic that a
    video does not have is absent from the normalized [statistics], not
    0. *)
Lemma non_numeric_statistics_not_coerced :
  let self := APIYoutube_init (JStr "UC123") (JStr "k") in
  let channel viewCount :=
    JDict [("items", JList [JDict [("id", JStr "UC123");
                                   ("statistics", JDict [("viewCount", viewCount)])]])] in
  let one_video statistics :=
    JDict [("items", JList [JDict [("id", JStr "v1"); ("statistics", statistics)]])] in
  APIYoutube_clean sample_env self (channel (JStr "abc")) sample_video_list
  = Raise ValueError
  /\ APIYoutube_clean sample_env self sample_channel
       (one_video (JDict [("viewCount", JStr "n/a")]))
     = Raise ValueError
  /\ (let? data := APIYoutube_clean sample_env self sample_channel
                     (one_video (JDict [("viewCount", JStr "5")])) in
      let? vs := py_get data "videos" JNull in
      let? v := py_index0 vs in
      py_get v "statistics" JNull) = Ok (JDict [("viewCount", JInt 5)]).
Proof. repeat split. Qed.

(** C6, amended. When the YouTube [__clean] returns a result:
    - each of [views], [subscribers], [videos] under [profile.stats] is
      the number that [int] reads off the channel's [viewCount],
      [subscriberCount], [videoCount], and 0 when that field is missing;
    - the [statistics] of each video has the keys of the source; every
      value of the source is a text, turned into the number that [int]
      reads off it when it is a text of digits and into 0 otherwise;
    - [int] has read a number off the [viewCount], [likeCount] and
      [commentCount] of each video, where the video has that field (so
      [__clean] does not return when one of these, or a statistic of the
      channel, is present and not a number to [int]);
    - the channel image is the default image when the channel has no
      [snippet.thumbnails.high.url], and the image of a video is the
      default image when the video has no
      [snippet.thumbnails.standard.url]. *)
Theorem youtube_clean_coerces_statistics env self profile videos data :
  APIYoutube_clean env self profile videos = Ok data ->
  exists channel vs es,
    (let? items := py_get profile "items" (JList []) in py_index0 items) = Ok channel
    /\ (let? items := py_get videos "items" (JList []) in py_iter items) = Ok vs
    /\ py_get data "videos" JNull = Ok (JList es)
    /\ (forall out_key src_key,
           In (out_key, src_key) youtube_stat_keys ->
           exists n,
             (let? stats := get2 data "profile" "stats" JNull in
              py_get stats out_key JNull) = Ok (JInt n)
             /\ match lookup_path channel ["statistics"; src_key] with
                | Some x => int_reads env x n
                | None => n = 0
                end)
    /\ (lookup_path channel ["snippet"; "thumbnails"; "high"; "url"] = None ->
        get2 data "profile" "image" JNull = Ok (YoutubeConfig_DEFAULT_IMG env))
    /\ Forall2
         (fun video e =>
            (exists kv kv',
                py_get video "statistics" (JDict []) = Ok (JDict kv)
                /\ py_get e "statistics" JNull = Ok (JDict kv')
                /\ Forall2 (fun p p' => fst p' = fst p /\ coerced env (snd p) (snd p'))
                     kv kv')
            /\ (forall avg_key key, In (avg_key, key) youtube_average_keys ->
                                    exists n, stat_of env "statistics" key video n)
            /\ (lookup_path video ["snippet"; "thumbnails"; "standard"; "url"] = None ->
                py_get e "image" JNull = Ok (YoutubeConfig_DEFAULT_IMG env)))
         vs es.
Proof.
  intros H.
  apply APIYoutube_clean_inv in H
    as (items & channel & image & views & subscribers & nvideos & vitems & vs & es
        & svs & sls & scs & name & userName & pid & joined & country & a & b & c
        & Hitems & Hchannel & Himage & Hviews & Hsubs & Hnvideos & Hvitems & Hvs & Hes
        & Hsv & Hsl & Hsc & _ & _ & _ & ->).
  exists channel, vs, es.
  split; [rewrite Hitems; exact Hchannel|].
  split; [rewrite Hvitems; exact Hvs|].
  split; [reflexivity|].
  split.
  { intros out_key src_key Hin. unfold youtube_stat_keys in Hin. simpl in Hin.
    destruct Hin as [Hin|[Hin|[Hin|[]]]]; injection Hin as <- <-;
      eexists; (split; [reflexivity|]); apply channel_stat_reads; assumption. }
  split.
  { intros Hmiss. rewrite (get4_missing _ _ _ _ _ _ _ Himage Hmiss). reflexivity. }
  clear - Hes Hsv Hsl Hsc.
  revert svs sls scs Hsv Hsl Hsc.
  induction Hes as [|video e vs es Hone _ IH]; intros svs sls scs Hsv Hsl Hsc.
  { constructor. }
  inversion Hsv as [|? nv ? svs' Hv Hsv']; subst.
  inversion Hsl as [|? nl ? sls' Hl Hsl']; subst.
  inversion Hsc as [|? nc ? scs' Hc Hsc']; subst.
  constructor; [|eapply IH; eassumption].
  destruct Hone as (stats & vid & title & publishedAt & image' & statistics
                    & Hstats & Himage' & Hcoerce & ->).
  apply coerce_statistics_inv in Hcoerce as (kv & kv' & -> & -> & Hkv).
  split; [|split].
  - exists kv, kv'. repeat split; assumption.
  - intros avg_key key Hin. unfold youtube_average_keys in Hin. simpl in Hin.
    destruct Hin as [Hin|[Hin|[Hin|[]]]]; injection Hin as <- <-; eauto.
  - intros Hmiss. rewrite (get4_missing _ _ _ _ _ _ _ Himage' Hmiss). reflexivity.
Qed.

(** The sample channel has no [videoCount] and no thumbnail; its first
    video has a [favoriteCount] that is not a number. *)
Example sample_youtube_result_values :
  (let? stats := get2 sample_youtube_result "profile" "stats" JNull in
   py_get stats "videos" JNull) = Ok (JInt 0)
  /\ get2 sample_youtube_result "profile" "image" JNull
     = Ok (JStr "/static/img/default.png")
  /\ (let? vs := py_get sample_youtube_result "videos" JNull in
      let? v := py_index0 vs in
      py_get v "statistics" JNull)
     = Ok (JDict [("viewCount", JInt 10); ("likeCount", JInt 3);
                  ("favoriteCount", JInt 0)]).
Proof. repeat split. Qed.

Lemma youtube_clean_coerces_statistics_witness :
  exists channel vs es,
    (let? items := py_get sample_channel "items" (JList []) in py_index0 items)
    = Ok channel
    /\ (let? items := py_get sample_video_list "items" (JList []) in py_iter items)
       = Ok vs
    /\ py_get sample_youtube_result "videos" JNull = Ok (JList es)
    /\ (forall out_key src_key,
           In (out_key, src_key) youtube_stat_keys ->
           exists n,
             (let? stats := get2 sample_youtube_result "profile" "stats" JNull in
              py_get stats out_key JNull) = Ok (JInt n)
             /\ match lookup_path channel ["statistics"; src_key] with
                | Some x => int_reads sample_env x n
                | None => n = 0
                end)
    /\ (lookup_path channel ["snippet"; "thumbnails"; "high"; "url"] = None ->
        get2 sample_youtube_result "profile" "image" JNull
        = Ok (YoutubeConfig_DEFAULT_IMG sample_env))
    /\ Forall2
         (fun video e =>
            (exists kv kv',
                py_get video "statistics" (JDict []) = Ok (JDict kv)
                /\ py_get e "statistics" JNull = Ok (JDict kv')
                /\ Forall2 (fun p p' => fst p' = fst p
                                        /\ coerced sample_env (snd p) (snd p'))
                     kv kv')
            /\ (forall avg_key key, In (avg_key, key) youtube_average_keys ->
                                    exists n, stat_of sample_env "statistics" key video n)
            /\ (lookup_path video ["snippet"; "thumbnails"; "standard"; "url"] = None ->
                py_get e "image" JNull = Ok (YoutubeConfig_DEFAULT_IMG sample_env)))
         vs es.
Proof.
  apply (youtube_clean_coerces_statistics sample_env sample_channel_adapter
           sample_channel sample_video_list sample_youtube_result).
  vm_compute. reflexivity.
Defined.

(** ** ISO dates *)

Lemma days_of_civil_of_days z :
  let '(y, m, d) := civil_of_days z in days_of_civil y m d = z.
Proof.
  unfold civil_of_days, days_of_civil. cbv zeta.
  destruct (_ <? 10) eqn:E; destruct (_ <=? 2) eqn:E2; destruct (2 <? _) eqn:E3;
    try lia; Z.div_mod_to_equations; lia.
Qed.

Lemma civil_of_days_bounds z :
  date_in_range z ->
  let '(y, m, d) := civil_of_days z in
  1 <= y <= 9999 /\ 1 <= m <= 12 /\ 1 <= d <= 31.
Proof.
  unfold date_in_range, civil_of_days. cbv zeta. intros H.
  destruct (_ <? 10) eqn:E; destruct (_ <=? 2) eqn:E2;
    try lia; Z.div_mod_to_equations; lia.
Qed.

Lemma digit_char_inj a b : digit_char a = digit_char b -> a mod 10 = b mod 10.
Proof.
  unfold digit_char. intros H.
  pose proof (Z.mod_pos_bound a 10 ltac:(lia)) as Ha.
  pose proof (Z.mod_pos_bound b 10 ltac:(lia)) as Hb.
  apply (f_equal nat_of_ascii) in H.
  rewrite !nat_ascii_embedding in H by lia. lia.
Qed.

Lemma pad2_inj a b : 0 <= a < 100 -> 0 <= b < 100 -> pad2 a = pad2 b -> a = b.
Proof.
  unfold pad2. intros Ha Hb H. injection H as H1 H0.
  apply digit_char_inj in H1, H0. Z.div_mod_to_equations. lia.
Qed.

Lemma date_isoformat_inj d1 d2 :
  date_in_range d1 -> date_in_range d2 ->
  date_isoformat d1 = date_isoformat d2 -> d1 = d2.
Proof.
  intros H1 H2 H. unfold date_isoformat in H.
  pose proof (civil_of_days_bounds d1 H1) as B1.
  pose proof (civil_of_days_bounds d2 H2) as B2.
  pose proof (days_of_civil_of_days d1) as R1.
  pose proof (days_of_civil_of_days d2) as R2.
  destruct (civil_of_days d1) as [[y1 m1] dd1].
  destruct (civil_of_days d2) as [[y2 m2] dd2].
  unfold pad4, pad2 in H. simpl in H.
  injection H as Hy3 Hy2 Hy1 Hy0 Hm1 Hm0 Hd1 Hd0.
  apply digit_char_inj in Hy3, Hy2, Hy1, Hy0, Hm1, Hm0, Hd1, Hd0.
  assert (y1 = y2) as -> by (Z.div_mod_to_equations; lia).
  assert (m1 = m2) as -> by (Z.div_mod_to_equations; lia).
  assert (dd1 = dd2) as -> by (Z.div_mod_to_equations; lia).
  congruence.
Qed.

(** ** History *)

Lemma elem_of_days_of q day :
  day ∈ days_of q <-> exists r, r ∈ q /\ day_of_row r = day.
Proof.
  unfold days_of. rewrite elem_of_list_to_set, list_elem_of_In, in_map_iff.
  split; intros (r & H1 & H2).
  - exists r. rewrite list_elem_of_In. auto.
  - exists r. rewrite <- list_elem_of_In. auto.
Qed.

Lemma elem_of_filter_created_at_date env day q r :
  time_zone_is_utc env ->
  r ∈ filter_created_at_date (TIME_ZONE_utcoffset env) day q
  <-> r ∈ q /\ day_of_row r = day.
Proof.
  intros Hutc. unfold filter_created_at_date, day_of_row.
  rewrite elem_of_filter_bool, Z.eqb_eq, Hutc, Z.add_0_r. reflexivity.
Qed.

Lemma first_of_day env q day :
  time_zone_is_utc env ->
  day ∈ days_of q ->
  exists r, first (filter_created_at_date (TIME_ZONE_utcoffset env) day q) = Some r
            /\ day_of_row r = day /\ picked_for q r.
Proof.
  intros Hutc Hday. apply elem_of_days_of in Hday as (r0 & Hr0 & Hd0).
  destruct (first_nonempty
              (filter_created_at_date (TIME_ZONE_utcoffset env) day q) r0) as [r Hr].
  { apply elem_of_filter_created_at_date; auto. }
  exists r. split; [assumption|].
  apply first_Some in Hr as [Hin Hmin].
  apply elem_of_filter_created_at_date in Hin as [Hin Hd]; [|assumption].
  split; [assumption|]. split; [assumption|].
  intros r' Hr' Hd'. apply Hmin. apply elem_of_filter_created_at_date; [assumption|].
  split; [assumption | congruence].
Qed.

Lemma all_unique_spec env q :
  time_zone_is_utc env ->
  exists rs,
    all_unique env q = map Some rs
    /\ map day_of_row rs = elements (days_of q)
    /\ Forall (picked_for q) rs.
Proof.
  intros Hutc. unfold all_unique.
  assert (forall day, day ∈ elements (days_of q) -> day ∈ days_of q) as Hdays.
  { intros day. rewrite elem_of_elements. auto. }
  induction (elements (days_of q)) as [|day days IH].
  - exists []. repeat split. constructor.
  - destruct IH as (rs & Hrs & Hmap & Hall).
    { intros d Hd. apply Hdays. right. assumption. }
    destruct (first_of_day env q day Hutc) as (r & Hr & Hd & Hpicked).
    { apply Hdays. left. }
    exists (r :: rs). simpl. rewrite Hr, Hrs, Hd, Hmap.
    repeat split. constructor; assumption.
Qed.

Lemma res_mapM_Forall2 {A B} (f : A -> res B) (l : list A) (out : list B) :
  res_mapM f l = Ok out -> Forall2 (fun x y => f x = Ok y) l out.
Proof.
  revert out. induction l as [|x l IH]; intros out H; simpl in H.
  - injection H as <-. constructor.
  - destruct (f x) as [y|] eqn:E; [|discriminate]. cbn [res_bind] in H.
    destruct (res_mapM f l) as [ys|]; [|discriminate]. cbn [res_bind] in H.
    injection H as <-. constructor; [assumption | apply IH; reflexivity].
Qed.

Lemma res_mapM_total {A B} (f : A -> res B) (l : list A) :
  Forall (fun x => exists y, f x = Ok y) l -> exists out, res_mapM f l = Ok out.
Proof.
  induction 1 as [|x l [y Hy] _ [out IH]]; simpl.
  - eauto.
  - rewrite Hy, IH. simpl. eauto.
Qed.

Lemma history_entry_inv r e : history_entry (Some r) = Ok e -> entry_of r e.
Proof.
  unfold history_entry, get2, entry_of. intros H. bind_inv H.
  injection H as <-. eexists. split; [|reflexivity].
  unfold get2, res_bind. rewrite E. exact E0.
Qed.

Lemma history_of_rows env matching w :
  time_zone_is_utc env ->
  one_entry_per_day matching
    (res_mapM history_entry (all_unique env matching), w) w.
Proof.
  intros Hutc.
  destruct (all_unique_spec env matching Hutc) as (rs & Hrs & Hdays & Hpicked).
  exists rs. rewrite Hrs, Hdays. simpl.
  assert (forall entries,
             res_mapM history_entry (map Some rs) = Ok entries ->
             Forall2 entry_of rs entries) as Hentries.
  { intros entries H. apply res_mapM_Forall2 in H.
    apply Forall2_fmap_l in H. eapply Forall2_impl; [exact H|].
    intros r e. apply history_entry_inv. }
  split; [apply NoDup_elements|].
  split; [intros day; rewrite elem_of_elements; apply elem_of_days_of|].
  split; [assumption|]. split; [reflexivity|]. split; [assumption|].
  split.
  { intros Hwf.
    destruct (res_mapM_total history_entry (map Some rs)) as [entries He].
    { apply Forall_fmap. eapply Forall_impl; [exact Hpicked|].
      intros r [Hin _]. destruct (Hwf r Hin) as [stats Hstats].
      unfold get2 in Hstats. unfold compose, history_entry.
      destruct (py_get (data r) "profile" (JDict [])) as [profile|]; [|discriminate].
      cbn [res_bind] in *. rewrite Hstats. cbn [res_bind]. eauto. }
    exists entries. split; [assumption | apply Hentries; assumption]. }
  intros Hrange.
  rewrite <- (List.map_map day_of_row date_isoformat rs).
  rewrite Hdays. apply NoDup_fmap_2_strong; [|apply NoDup_elements].
  intros d1 d2 Hd1 Hd2. apply date_isoformat_inj.
  - apply elem_of_elements, elem_of_days_of in Hd1 as (r & Hr & <-). auto.
  - apply elem_of_elements, elem_of_days_of in Hd2 as (r & Hr & <-). auto.
Qed.

(** X17. Where the current time zone is UTC, [history] of either adapter, on
    any content of the table, leaves the world as it is and walks over rows
    [rs] of the adapter's service and parameters such that: no two of them
    are of the same day; the days of [rs] are exactly the days on which the
    adapter has a row, however many rows a day has; each is, among the
    adapter's rows of its day, the one with the least key. When [history]
    returns, its entries are, row by row of [rs], the ISO date of the row's
    day together with the [profile.stats] of that row; and it does return
    when every row of the adapter has a payload in which these can be
    looked up. *)
Theorem history_one_entry_per_day_in_utc env w :
  time_zone_is_utc env ->
  (forall self : APITwitter,
      one_entry_per_day
        (filter_params (tw_params self)
           (filter_service (self_service (tw_super self)) (db w)))
        (APITwitter_history env self w) w)
  /\ (forall self : APIYoutube,
         one_entry_per_day
           (filter_params (yt_params self)
              (filter_service (self_service (yt_super self)) (db w)))
           (APIYoutube_history env self w) w).
Proof.
  intros Hutc. split; intros self; apply history_of_rows; assumption.
Qed.

Lemma history_one_entry_per_day_in_utc_witness :
  one_entry_per_day
    (filter_params (tw_params bob) (filter_service "Twitter" sample_rows))
    (APITwitter_history sample_env bob (world sample_rows (2000 * hour)))
    (world sample_rows (2000 * hour))
  /\ length (filter_params (tw_params bob) (filter_service "Twitter" sample_rows)) = 3%nat.
Proof.
  split; [|reflexivity].
  destruct (history_one_entry_per_day_in_utc sample_env
              (world sample_rows (2000 * hour)) (fun _ => eq_refl)) as [HT _].
  exact (HT bob).
Defined.

Example sample_history :
  exists first_entry second_entry,
    fst (APITwitter_history sample_env bob (world sample_rows (2000 * hour)))
    = Ok [first_entry; second_entry]
    /\ Permutation [first_entry; second_entry]
         [JDict [("date", JStr "1970-02-11");
                 ("stats", JDict [("followers", JInt 2)])];
          JDict [("date", JStr "1970-02-12");
                 ("stats", JDict [("followers", JInt 3)])]].
Proof.
  eexists _, _. split; [vm_compute; reflexivity|].
  first [apply Permutation_refl | apply perm_swap].
Qed.

(** C10. With the current time zone one hour ahead of UTC, [history] does
    not give one entry per day of the rows. On a table whose one row was
    made at 23:30 UTC, it raises: the day of the row in UTC has no row in
    the eyes of the [created_at__date] lookup, which takes the day in the
    current time zone, and [first()] gives [None]. On a table with rows
    made at 10:00 and 23:30 UTC on 1970-01-01 and at 23:30 UTC on
    1970-01-02, it gives two entries that carry the date 1970-01-01 both
    (with the statistics of the first and of the second row), and none for
    1970-01-02. The same goes for the YouTube adapter. *)
Theorem history_takes_days_in_two_time_zones :
  map day_of_row late_row = [0]
  /\ fst (APITwitter_history one_hour_east_env bob (world late_row (2000 * hour)))
     = Raise AttributeError
  /\ map day_of_row late_rows = [0; 0; 1]
  /\ (exists first_entry second_entry,
        fst (APITwitter_history one_hour_east_env bob (world late_rows (2000 * hour)))
        = Ok [first_entry; second_entry]
        /\ Permutation [first_entry; second_entry]
             [JDict [("date", JStr "1970-01-01");
                     ("stats", JDict [("followers", JInt 1)])];
              JDict [("date", JStr "1970-01-01");
                     ("stats", JDict [("followers", JInt 2)])]])
  /\ fst (APIYoutube_history one_hour_east_env sample_channel_adapter
            (world [row 1 (23 * hour + hour / 2) "Youtube"
                      (yt_params sample_channel_adapter) (sample_payload 1)]
               (2000 * hour)))
     = Raise AttributeError.
Proof.
  split; [reflexivity|]. split; [vm_compute; reflexivity|].
  split; [reflexivity|]. split; [|vm_compute; reflexivity].
  eexists _, _. split; [vm_compute; reflexivity|].
  first [apply Permutation_refl | apply perm_swap].
Qed.

(** ** Loose ends *)

(** The assertion of [APIBase.__init__] holds for both adapters. *)
Lemma APITwitter_init_assertion username_ :
  APIBase_init "Twitter" = Ok (tw_super (APITwitter_init username_)).
Proof. reflexivity. Qed.

Lemma APIYoutube_init_assertion id api_key_ :
  APIBase_init "Youtube" = Ok (yt_super (APIYoutube_init id api_key_)).
Proof. reflexivity. Qed.

(** [json_eqb] decides equality. *)
Lemma json_eqb_eq a b : json_eqb a b = true <-> a = b.
Proof.
  revert b. induction a as [|x|x|x|xs IH|kv IH] using json_nested_ind;
    intros b; destruct b as [|y|y|y|ys|kv']; simpl;
    try (split; [discriminate | intros H; discriminate H]).
  - tauto.
  - rewrite Bool.eqb_true_iff. split; [intros -> | intros [= ->]]; reflexivity.
  - rewrite Z.eqb_eq. split; [intros -> | intros [= ->]]; reflexivity.
  - rewrite String.eqb_eq. split; [intros -> | intros [= ->]]; reflexivity.
  - revert ys. induction IH as [|x xs Hx _ IHxs]; intros [|y ys];
      try (split; [discriminate | intros H; discriminate H]).
    + tauto.
    + rewrite andb_true_iff, Hx, IHxs.
      split; [intros [-> [= ->]] | intros [= -> ->]]; auto.
  - revert kv'. induction IH as [|[k x] kv Hx _ IHkv]; intros [|[k' y] kv'];
      try (split; [discriminate | intros H; discriminate H]).
    + tauto.
    + simpl in Hx. rewrite !andb_true_iff, String.eqb_eq, Hx, IHkv.
      split; [intros [[-> ->] [= ->]] | intros [= -> -> ->]]; auto.
Qed.

(** A row whose parameters are the adapter's is among the rows that
    [filter(params=...)] keeps. *)
Lemma elem_of_filter_params p q r :
  r ∈ filter_params p q <-> r ∈ q /\ params r = p.
Proof.
  unfold filter_params. rewrite elem_of_filter_bool, json_eqb_eq. reflexivity.
Qed.

(** * Further properties *)

(** ** Looking up the latest row *)

Lemma elem_of_candidates_row_of service_ params_ t q r :
  r ∈ candidates service_ params_ t q <->
  r ∈ q /\ row_of service_ params_ r /\ created_at r <= t.
Proof. rewrite elem_of_candidates, json_eqb_eq. unfold row_of. tauto. Qed.

Lemma ServiceRequest_last_request_latest env service_ params_ t w :
  exists answer,
    ServiceRequest_last_request env service_ params_ (Some t) w = (Ok answer, w)
    /\ (forall r, answer = Some r ->
          r ∈ db w /\ row_of service_ params_ r /\ created_at r <= t
          /\ forall r', r' ∈ db w -> row_of service_ params_ r' ->
                        created_at r' <= t -> created_at r' <= created_at r)
    /\ (answer = None <->
        forall r', r' ∈ db w -> row_of service_ params_ r' -> t < created_at r').
Proof.
  rewrite ServiceRequest_last_request_eq. simpl. eexists. split; [reflexivity|].
  split.
  - intros r H. apply (head_merge_sort_Some newer_first) in H as [Hin Hmax].
    apply elem_of_candidates_row_of in Hin as (Hin & Hrow & Hle).
    repeat split; try assumption; try apply Hrow.
    intros r' Hr' Hrow' Hle'. apply (Hmax r').
    apply elem_of_candidates_row_of. auto.
  - split.
    + intros H r' Hr' Hrow'.
      apply (head_merge_sort_None newer_first) in H.
      destruct (Z.lt_ge_cases t (created_at r')) as [|Hle]; [assumption|].
      assert (r' ∈ candidates service_ params_ t (db w)) as Hc
          by (apply elem_of_candidates_row_of; auto).
      rewrite H in Hc. inversion Hc.
    + intros H. destruct (first_ordered _) as [r|] eqn:E; [|reflexivity].
      apply (head_merge_sort_Some newer_first) in E as [Hin _].
      apply elem_of_candidates_row_of in Hin as (Hin & Hrow & Hle).
      specialize (H r Hin Hrow). lia.
Qed.

(** X1. [_last_request] with a bound [t] never raises and never writes.
    What it returns is a row of the service and parameters made at or
    before [t] such that no other such row is later; it returns [None]
    exactly when every row of the service and parameters is made after
    [t]. *)
Theorem last_request_is_latest_at_or_before env service_ params_ t w :
  exists answer,
    ServiceRequest_last_request env service_ params_ (Some t) w = (Ok answer, w)
    /\ (forall r, answer = Some r ->
          r ∈ db w /\ row_of service_ params_ r /\ created_at r <= t
          /\ forall r', r' ∈ db w -> row_of service_ params_ r' ->
                        created_at r' <= t -> created_at r' <= created_at r)
    /\ (answer = None <->
        forall r', r' ∈ db w -> row_of service_ params_ r' -> t < created_at r').
Proof. apply ServiceRequest_last_request_latest. Qed.

(** X2. Saving and looking up. When the insert goes through and every row
    of the service and parameters already in the table is older than the
    clock, a lookup bounded by the clock or by any later time returns the
    row just saved, payload included. *)
Theorem saved_row_is_the_latest env base params_ data_ w t :
  insert_fails env (new_row env base params_ data_ w) = false ->
  (forall r, r ∈ db w -> row_of (self_service base) params_ r ->
             created_at r < clock w) ->
  clock w <= t ->
  fst (APIBase_last_request env base params_ (Some t)
         (snd (APIBase_save env base params_ data_ w)))
  = Ok (Some (new_row env base params_ data_ w))
  /\ data (new_row env base params_ data_ w) = data_.
Proof.
  intros Hins Hold Ht. split; [|reflexivity].
  rewrite (APIBase_save_accepted _ _ _ _ _ Hins), APIBase_last_request_eq. simpl.
  set (new := new_row env base params_ data_ w).
  destruct (first_ordered _) as [r|] eqn:E.
  - apply (head_merge_sort_Some newer_first) in E as [Hin Hmax].
    assert (new ∈ candidates (self_service base) params_ t (db w ++ [new])%list) as Hnew.
    { apply elem_of_candidates_row_of. split; [|split].
      - apply elem_of_app. right. left.
      - split; reflexivity.
      - exact Ht. }
    specialize (Hmax new Hnew). unfold newer_first in Hmax. simpl in Hmax.
    apply elem_of_candidates_row_of in Hin as (Hin & Hrow & _).
    apply elem_of_app in Hin as [Hin|Hin].
    + specialize (Hold r Hin Hrow). lia.
    + apply list_elem_of_singleton in Hin. subst. reflexivity.
  - apply (head_merge_sort_None newer_first) in E.
    assert (new ∈ candidates (self_service base) params_ t (db w ++ [new])%list) as Hnew.
    { apply elem_of_candidates_row_of. split; [|split].
      - apply elem_of_app. right. left.
      - split; reflexivity.
      - exact Ht. }
    rewrite E in Hnew. inversion Hnew.
Qed.

Lemma saved_row_is_the_latest_witness :
  let base := {| self_service := "Twitter" |} in
  let w := world [row 1 (999 * hour) "Twitter" (tw_params bob) (sample_payload 1)]
             (1500 * hour) in
  fst (APIBase_last_request sample_env base (tw_params bob) (Some (1600 * hour))
         (snd (APIBase_save sample_env base (tw_params bob) (sample_payload 2) w)))
  = Ok (Some (new_row sample_env base (tw_params bob) (sample_payload 2) w))
  /\ data (new_row sample_env base (tw_params bob) (sample_payload 2) w)
     = sample_payload 2.
Proof.
  intros base w.
  apply (saved_row_is_the_latest sample_env base (tw_params bob) (sample_payload 2)
           w (1600 * hour)).
  - reflexivity.
  - intros r Hr _. apply list_elem_of_singleton in Hr. subst. vm_compute. reflexivity.
  - vm_compute. discriminate.
Defined.

(** X3. The method [last_request] of a row that is in the table, asked
    with a bound at or after the row's own creation, always finds a row:
    one of the same service and parameters, made no earlier than the row
    itself and no later than the bound. *)
Theorem last_request_of_a_stored_row env (self : ServiceRequest) t w :
  self ∈ db w -> created_at self <= t ->
  exists r,
    ServiceRequest_self_last_request env self (Some t) w = (Ok (Some r), w)
    /\ r ∈ db w /\ row_of (service self) (params self) r
    /\ created_at self <= created_at r <= t.
Proof.
  intros Hin Ht. unfold ServiceRequest_self_last_request. simpl.
  destruct (ServiceRequest_last_request_latest env (service self) (params self) t w)
    as (answer & Heq & Hsome & Hnone).
  rewrite Heq. destruct answer as [r|].
  - destruct (Hsome r eq_refl) as (Hr & Hrow & Hle & Hmax).
    exists r. repeat split; try assumption; try apply Hrow.
    apply Hmax; [assumption | split; reflexivity | assumption].
  - destruct Hnone as [Hnone _].
    specialize (Hnone eq_refl self Hin (conj eq_refl eq_refl)). lia.
Qed.

Lemma last_request_of_a_stored_row_witness :
  let self := row 1 (999 * hour) "Twitter" (tw_params bob) (sample_payload 1) in
  exists r,
    ServiceRequest_self_last_request sample_env self (Some (1000 * hour))
      (world [self] (1500 * hour))
    = (Ok (Some r), world [self] (1500 * hour))
    /\ r ∈ db (world [self] (1500 * hour))
    /\ row_of (service self) (params self) r
    /\ created_at self <= created_at r <= 1000 * hour.
Proof.
  intros self.
  apply (last_request_of_a_stored_row sample_env self (1000 * hour)
           (world [self] (1500 * hour))).
  - left.
  - vm_compute. discriminate.
Defined.

(** ** The cache, where it works and where it cannot *)




(** X5. Once the clock is past the import time of [API.py] by more than
    the window, [_cache] answers [None] whatever the table holds: the row
    it looks at is never younger than the import. *)
Theorem cache_never_hits_once_window_has_passed_since_import
    env self params_ cache_time w :
  API_import_time env + cache_time < clock w ->
  APIBase_cache env self params_ cache_time w = (Ok None, w).
Proof.
  intros Hlate.
  destruct (fst (APIBase_last_request env self params_ None w)) as [[r|]|e] eqn:E.
  - rewrite (APIBase_cache_found _ _ _ _ _ _ E).
    rewrite APIBase_last_request_eq in E. simpl in E. injection E as E.
    apply last_request_found in E as (_ & _ & _ & Hle & _).
    assert ((clock w - created_at r <=? cache_time) = false) as -> by lia.
    reflexivity.
  - apply APIBase_cache_not_found. assumption.
  - rewrite APIBase_last_request_eq in E. discriminate.
Qed.

Lemma cache_never_hits_once_window_has_passed_since_import_witness :
  let fresh := row 1 (1030 * hour) "Twitter" (tw_params bob) (sample_payload 1) in
  APIBase_cache sample_env {| self_service := "Twitter" |} (tw_params bob)
    (24 * hour) (world [fresh] (1030 * hour + 1))
  = (Ok None, world [fresh] (1030 * hour + 1)).
Proof.
  intros fresh.
  apply (cache_never_hits_once_window_has_passed_since_import sample_env).
  vm_compute. reflexivity.
Defined.

(** ** Failing collaborators *)

(** X6. Whatever goes wrong in the scraper (an exception of [get_tweets],
    an exception of [get_profile_info], or an answer of [get_tweets] that
    is not a dictionary) is swallowed by the two fetch helpers, and [get],
    when the cache is not asked or misses, answers with the status-500
    envelope and leaves the world as it was. *)
Theorem scraper_failure_gives_error_envelope env self cache w scraper :
  cache_missed env (tw_super self) (tw_params self)
    (TwitterConfig_CACHE_TIMEDELTA env) cache w ->
  Nitter env = Ok scraper ->
  (exists e, scraper_get_tweets scraper (username self)
               (TwitterConfig_MAX_TWEETS env) = Raise e)
  \/ (exists e, scraper_get_profile_info scraper (username self) = Raise e)
  \/ (exists r, scraper_get_tweets scraper (username self)
                  (TwitterConfig_MAX_TWEETS env) = Ok r
                /\ forall kv, r <> JDict kv) ->
  APITwitter_get env self cache w
  = (Ok (JDict [("status", JInt 500);
                ("error", JStr "Twitter Scraper couldn't fetch data")]), w).
Proof.
  intros Hmiss Hnitter Hfail.
  apply (APITwitter_get_failed_fetch env self cache w scraper Hmiss Hnitter).
  unfold APITwitter_get_tweets, APITwitter_get_profile_info.
  destruct Hfail as [[e ->] | [[e ->] | (r & -> & Hr)]].
  - left. reflexivity.
  - right. reflexivity.
  - left. cbn [res_bind]. destruct r; try reflexivity. exfalso. eapply Hr. reflexivity.
Qed.

Lemma scraper_failure_gives_error_envelope_witness :
  APITwitter_get sample_env (APITwitter_init "nobody") false (world sample_rows 0)
  = (Ok (JDict [("status", JInt 500);
                ("error", JStr "Twitter Scraper couldn't fetch data")]),
     world sample_rows 0).
Proof.
  apply (scraper_failure_gives_error_envelope sample_env (APITwitter_init "nobody")
           false (world sample_rows 0) sample_scraper).
  - left. reflexivity.
  - reflexivity.
  - left. exists ScraperError. reflexivity.
Defined.

(** X7. When every HTTP request fails, [get] of the YouTube adapter, the
    cache not asked or missing, answers with the status-500 envelope,
    stores nothing, and has tried two requests, no more: the channel, then
    the search for its videos. *)
Theorem youtube_get_when_every_request_fails env self cache w :
  cache_missed env (yt_super self) (yt_params self)
    (YoutubeConfig_CACHE_TIMEDELTA env) cache w ->
  (forall url params_, requests_get env url params_ = None) ->
  APIYoutube_get env self cache w
  = (Ok (JDict [("status", JInt 500);
                ("error", JStr "Youtube API couldn't fetch data")]),
     logged (videos_search_call env self) (logged (channels_call self) w)).
Proof.
  intros Hmiss Hdown. unfold APIYoutube_get, mbind.
  destruct (cache_step env (yt_super self) (yt_params self)
              (YoutubeConfig_CACHE_TIMEDELTA env) cache w) as (o & -> & Ho & _).
  rewrite (Ho Hmiss).
  unfold APIYoutube_get_profile, APIYoutube_get_videos, mbind, make_request.
  cbn [truthy]. rewrite !Hdown. reflexivity.
Qed.

Lemma youtube_get_when_every_request_fails_witness :
  let env :=
    {| TwitterConfig_CACHE_TIMEDELTA := 0; TwitterConfig_MAX_TWEETS := 0;
       TwitterConfig_DEFAULT_IMG := JNull; TwitterConfig_DEFAULT_VIDEO := JNull;
       YoutubeConfig_CACHE_TIMEDELTA := 0; YoutubeConfig_MAX_RESULTS := JInt 5;
       YoutubeConfig_DEFAULT_IMG := JNull; YoutubeConfig_KEY := JNull;
       TIME_ZONE_utcoffset := fun _ => 0; interpreter := cpython_3_11;
       models_import_time := 0; API_import_time := 0;
       Nitter := Raise ScraperError; dateparser_parse := fun _ => None;
       requests_get := fun _ _ => None; uuid4 := fun _ => 0;
       insert_fails := fun _ => false |} in
  APIYoutube_get env sample_channel_adapter false (world sample_rows 0)
  = (Ok (JDict [("status", JInt 500);
                ("error", JStr "Youtube API couldn't fetch data")]),
     logged (videos_search_call env sample_channel_adapter)
       (logged (channels_call sample_channel_adapter) (world sample_rows 0))).
Proof.
  intros env.
  apply (youtube_get_when_every_request_fails env sample_channel_adapter false
           (world sample_rows 0)).
  - left. reflexivity.
  - reflexivity.
Defined.

(** ** The requests of the YouTube adapter *)

Lemma make_request_logged env base endpoint params_ w :
  truthy params_ = true ->
  exists response,
    make_request env base endpoint params_ w
    = (Ok response, logged ((base ++ endpoint)%string, params_) w).
Proof.
  intros H. unfold make_request, logged. rewrite H.
  destruct (requests_get env _ _); eauto.
Qed.

Lemma APIYoutube_get_profile_logged env self w :
  exists r, APIYoutube_get_profile env self w = (r, logged (channels_call self) w).
Proof.
  unfold APIYoutube_get_profile, mbind, channels_call.
  destruct (make_request_logged env base_url "/channels"
              (JDict [("part", JStr "statistics,status,snippet");
                      ("id", id_ self); ("key", api_key self)]) w eq_refl)
    as [response ->].
  destruct (negb (truthy response)); [eauto|].
  unfold lift. destruct (totalResults_is_1 response) as [[]|]; eauto.
Qed.

Lemma APIYoutube_get_videos_logged env self w :
  exists rest,
    (length rest <= 1)%nat
    /\ http_log (snd (APIYoutube_get_videos env self w))
       = (http_log w ++ videos_search_call env self :: rest)%list.
Proof.
  unfold APIYoutube_get_videos, mbind, videos_search_call.
  destruct (make_request_logged env base_url "/search"
              (JDict [("channelId", id_ self);
                      ("maxResults", YoutubeConfig_MAX_RESULTS env);
                      ("order", JStr "date"); ("type", JStr "video");
                      ("key", api_key self)]) w eq_refl)
    as [response ->].
  destruct (negb (truthy response)); [exists []; split; [simpl; lia | reflexivity]|].
  unfold lift. destruct (py_get response "items" (JList [])) as [items|e];
    [|exists []; split; [simpl; lia | reflexivity]].
  cbv beta iota.
  destruct (negb (truthy items)); [exists []; split; [simpl; lia | reflexivity]|].
  match goal with |- context [res_bind ?m ?k] => destruct (res_bind m k) as [videos|e] end;
    [|exists []; split; [simpl; lia | reflexivity]].
  cbv beta iota.
  match goal with
  | |- context [make_request env base_url "/videos" ?p ?w1] =>
      destruct (make_request_logged env base_url "/videos" p w1 eq_refl)
        as [response' ->]
  end.
  destruct (negb (truthy response'));
    eexists [_]; (split; [simpl; lia|]);
    simpl; rewrite <- app_assoc; reflexivity.
Qed.

(** X8. On a cache miss (or with the cache not asked), [get] of the
    YouTube adapter sends the request for the channel first, and after it
    at most two more requests; the log of earlier requests is kept. On a
    cache hit it sends none. *)
Theorem youtube_get_sends_at_most_three_requests env self cache w :
  (cache_missed env (yt_super self) (yt_params self)
     (YoutubeConfig_CACHE_TIMEDELTA env) cache w ->
   exists rest,
     (length rest <= 2)%nat
     /\ http_log (snd (APIYoutube_get env self cache w))
        = (http_log w ++ channels_call self :: rest)%list)
  /\ (forall response,
         cache = true ->
         fst (APIBase_cache env (yt_super self) (yt_params self)
                (YoutubeConfig_CACHE_TIMEDELTA env) w) = Ok (Some response) ->
         http_log (snd (APIYoutube_get env self cache w)) = http_log w).
Proof.
  split.
  - intros Hmiss. unfold APIYoutube_get, mbind.
    destruct (cache_step env (yt_super self) (yt_params self)
                (YoutubeConfig_CACHE_TIMEDELTA env) cache w) as (o & -> & Ho & _).
    rewrite (Ho Hmiss).
    destruct (APIYoutube_get_profile_logged env self w) as [[profile|e] ->];
      [|exists []; split; [simpl; lia | reflexivity]].
    set (w1 := logged (channels_call self) w).
    destruct (APIYoutube_get_videos_logged env self w1) as (rest & Hlen & Hlog).
    destruct (APIYoutube_get_videos env self w1) as [[videos|e] w2]; simpl in Hlog.
    + assert (http_log w2
              = (http_log w ++ channels_call self
                   :: videos_search_call env self :: rest)%list)
        as Hw2 by (rewrite Hlog, <- app_assoc; reflexivity).
      exists (videos_search_call env self :: rest). split; [simpl; lia|].
      destruct (negb _ || negb _); [exact Hw2|].
      unfold lift. destruct (APIYoutube_clean _ _ _ _); [|exact Hw2].
      cbv beta iota. unfold APIYoutube_save, APIBase_save. simpl. exact Hw2.
    + exists (videos_search_call env self :: rest). split; [simpl; lia|].
      simpl. rewrite Hlog, <- app_assoc. reflexivity.
  - intros response -> Hhit.
    rewrite (APIYoutube_get_cache_hit env self w response Hhit). reflexivity.
Qed.

Lemma youtube_get_sends_at_most_three_requests_witness :
  exists rest,
    (length rest <= 2)%nat
    /\ http_log (snd (APIYoutube_get sample_env sample_channel_adapter false
                        (world [] (2000 * hour))))
       = ([] ++ channels_call sample_channel_adapter :: rest)%list.
Proof.
  destruct (youtube_get_sends_at_most_three_requests sample_env
              sample_channel_adapter false (world [] (2000 * hour))) as [Hmiss _].
  apply Hmiss. left. reflexivity.
Defined.

(** ** A handle that the table knows *)



(** ** Averages of a channel *)

(** X10. In the result of the YouTube [__clean], each of [avgViews],
    [avgLikes] and [avgComments] under [profile.stats] is 0 when the
    response lists no video. Otherwise it is [round(sum / count)] of
    [viewCount], [likeCount], [commentCount] over the videos (0 for a video
    that lacks the field), the quotient taken as a double; as long as the
    sum stays below 2^52 in absolute value, that is an integer nearest to
    the exact mean, the even one when the mean lies half-way between
    two. *)
Theorem youtube_averages_are_rounded_means env self profile videos data :
  APIYoutube_clean env self profile videos = Ok data ->
  exists vs stats,
    (let? items := py_get videos "items" (JList []) in py_iter items) = Ok vs
    /\ get2 data "profile" "stats" JNull = Ok (JDict stats)
    /\ forall avg_key key,
         In (avg_key, key) youtube_average_keys ->
         exists values avg,
           Forall2 (stat_of env "statistics" key) vs values
           /\ assoc avg_key stats = Some (JInt avg)
           /\ (vs = [] -> avg = 0)
           /\ (vs <> [] -> rounded_mean (sum_Z values) (Z.of_nat (length vs)) avg).
Proof.
  intros H.
  apply APIYoutube_clean_inv in H
    as (items & channel & image & views & subscribers & nvideos & vitems & vs & es
        & svs & sls & scs & name & userName & pid & joined & country & a & b & c
        & _ & _ & _ & _ & _ & _ & Hvitems & Hvs & _
        & Hsv & Hsl & Hsc & Ha & Hb & Hc & ->).
  exists vs. eexists.
  split; [rewrite Hvitems; exact Hvs|].
  split; [reflexivity|].
  intros avg_key key Hin. unfold youtube_average_keys in Hin. simpl in Hin.
  destruct Hin as [Hin|[Hin|[Hin|[]]]]; injection Hin as <- <-.
  - exists svs, a. split; [assumption|]. split; [reflexivity|].
    eapply average_value; [reflexivity | eassumption].
  - exists sls, b. split; [assumption|]. split; [reflexivity|].
    eapply average_value; [reflexivity | eassumption].
  - exists scs, c. split; [assumption|]. split; [reflexivity|].
    eapply average_value; [reflexivity | eassumption].
Qed.

Lemma youtube_averages_are_rounded_means_witness :
  exists vs stats,
    (let? items := py_get sample_video_list "items" (JList []) in py_iter items) = Ok vs
    /\ get2 sample_youtube_result "profile" "stats" JNull = Ok (JDict stats)
    /\ forall avg_key key,
         In (avg_key, key) youtube_average_keys ->
         exists values avg,
           Forall2 (stat_of sample_env "statistics" key) vs values
           /\ assoc avg_key stats = Some (JInt avg)
           /\ (vs = [] -> avg = 0)
           /\ (vs <> [] -> rounded_mean (sum_Z values) (Z.of_nat (length vs)) avg).
Proof.
  apply (youtube_averages_are_rounded_means sample_env sample_channel_adapter
           sample_channel sample_video_list sample_youtube_result).
  vm_compute. reflexivity.
Defined.

(** The two videos of the sample have 10 and 5 views: the mean 7.5 is
    rounded to 8. *)
Example sample_youtube_result_avgViews :
  (let? stats := get2 sample_youtube_result "profile" "stats" JNull in
   py_get stats "avgViews" JNull) = Ok (JInt 8).
Proof. reflexivity. Qed.

(** ** What [__clean] of the Twitter adapter keeps and what it fills in *)

(** X11. The profile in the result of [__clean] is the scraped profile with
    [joined] and [stats] replaced: every other field has the value it had,
    and under [stats] every entry other than the four averages has the
    value it had. *)
Theorem twitter_clean_keeps_the_rest_of_the_profile env self profile tweets data :
  APITwitter_clean env self profile tweets = Ok data ->
  exists kv stats kv' stats',
    profile = JDict kv
    /\ assoc "stats" kv = Some (JDict stats)
    /\ py_get data "profile" JNull = Ok (JDict kv')
    /\ assoc "stats" kv' = Some (JDict stats')
    /\ (forall k, k <> "joined" -> k <> "stats" -> assoc k kv' = assoc k kv)
    /\ (forall k, k <> "avgRetweets" -> k <> "avgLikes" ->
                  k <> "avgComments" -> k <> "avgQuotes" ->
                  assoc k stats' = assoc k stats).
Proof.
  intros H.
  apply APITwitter_clean_inv in H
    as (all & ds & rs & ls & cs & qs & more & profile'
        & _ & _ & _ & _ & _ & _ & _ & Hmore & Hp & ->).
  apply twitter_averages_inv in Hmore as (r & l & c & q & _ & _ & _ & _ & ->).
  apply clean_profile_inv in Hp as (kv & raw & joined & stats & -> & _ & _ & Hstats & ->).
  exists kv, stats. eexists _, _. split; [reflexivity|]. split; [assumption|].
  split; [reflexivity|]. split; [apply assoc_dict_set_eq|]. split.
  - intros k Hj Hs. rewrite !assoc_dict_set_ne by assumption. reflexivity.
  - intros k H1 H2 H3 H4. unfold dict_update.
    cbn [fold_left fst snd]. rewrite !assoc_dict_set_ne by assumption. reflexivity.
Qed.

Lemma twitter_clean_keeps_the_rest_of_the_profile_witness :
  exists kv stats kv' stats',
    sample_profile = JDict kv
    /\ assoc "stats" kv = Some (JDict stats)
    /\ py_get sample_result "profile" JNull = Ok (JDict kv')
    /\ assoc "stats" kv' = Some (JDict stats')
    /\ (forall k, k <> "joined" -> k <> "stats" -> assoc k kv' = assoc k kv)
    /\ (forall k, k <> "avgRetweets" -> k <> "avgLikes" ->
                  k <> "avgComments" -> k <> "avgQuotes" ->
                  assoc k stats' = assoc k stats).
Proof.
  apply (twitter_clean_keeps_the_rest_of_the_profile sample_env bob sample_profile
           sample_tweets sample_result).
  vm_compute. reflexivity.
Defined.

Lemma clean_loop_Forall2 env (P : json -> json -> Prop) :
  (forall t stats d,
      py_get t "stats" (JDict []) = Ok stats -> clean_tweet env t stats = Ok d -> P t d) ->
  forall tweets acc sums out sums',
    clean_loop env tweets acc sums = Ok (out, sums') ->
    exists ds, out = (acc ++ ds)%list /\ Forall2 P tweets ds.
Proof.
  intros HP. induction tweets as [|tweet rest IH]; intros acc sums out sums' H;
    simpl in H.
  - injection H as <- <-. exists []. rewrite app_nil_r. split; constructor.
  - bind_inv H. apply IH in H as (ds & -> & Hds).
    match goal with Hd : clean_tweet _ _ _ = Ok ?d |- _ =>
      exists (d :: ds); pose proof (HP _ _ _ E Hd) as Hone end.
    rewrite <- app_assoc. split; [reflexivity|]. constructor; assumption.
Qed.

Lemma clean_tweet_picture env tweet stats d :
  clean_tweet env tweet stats = Ok d ->
  exists pictures picture,
    py_get tweet "pictures" JNull = Ok pictures
    /\ py_get d "picture" JNull = Ok picture
    /\ picture_of pictures picture.
Proof.
  intros H. unfold clean_tweet in H.
  destruct (py_get tweet "user" (JDict [])) as [user|]; [|discriminate].
  cbn [res_bind] in H.
  destruct (py_get tweet "link" (JStr "#")) as [url|]; [|discriminate].
  cbn [res_bind] in H.
  destruct (py_get tweet "text" (JStr "")) as [text|]; [|discriminate].
  cbn [res_bind] in H.
  destruct (py_get tweet "pictures" JNull) as [pictures|] eqn:Hpictures; [|discriminate].
  cbn [res_bind] in H.
  destruct (truthy pictures) eqn:Htruthy.
  - destruct (py_get tweet "pictures" (JList [TwitterConfig_DEFAULT_IMG env]))
      as [ps|] eqn:Hps; [|discriminate].
    cbn [res_bind] in H.
    assert (ps = pictures) as ->.
    { destruct tweet as [| | | | |kv]; try discriminate. simpl in Hpictures, Hps.
      destruct (assoc "pictures" kv); [congruence|].
      injection Hpictures as <-. discriminate. }
    destruct (py_index0 pictures) as [picture|] eqn:Hpicture; [|discriminate].
    cbn [res_bind] in H. bind_inv H. injection H as <-.
    exists pictures, picture. repeat split. right. auto.
  - cbn [res_bind] in H. bind_inv H. injection H as <-.
    exists pictures, (JStr ""). repeat split. left. auto.
Qed.

(** X12. The [picture] of every normalized tweet is the empty text when the
    tweet has no pictures (the field is absent, null or empty), and the
    first of its pictures otherwise; the default image of the settings
    never stands in. *)
Theorem twitter_picture_is_first_picture_or_empty env self profile tweets data :
  APITwitter_clean env self profile tweets = Ok data ->
  exists all ds,
    py_iter tweets = Ok all
    /\ py_get data "tweets" JNull = Ok (JList ds)
    /\ Forall2
         (fun tweet d =>
            exists pictures picture,
              py_get tweet "pictures" JNull = Ok pictures
              /\ py_get d "picture" JNull = Ok picture
              /\ picture_of pictures picture)
         (List.filter (keeps self) all) ds.
Proof.
  intros H. unfold APITwitter_clean in H. bind_inv H. injection H as <-.
  match goal with Hf : res_filter _ _ = Ok ?k |- _ =>
    pose proof (res_filter_Ok _ _ _ Hf) as Hk; fold (keeps self) in Hk end.
  subst.
  match goal with Hl : clean_loop _ _ _ _ = Ok ?p |- _ =>
    destruct p as [out sums'];
    apply (clean_loop_Forall2 env
             (fun tweet d =>
                exists pictures picture,
                  py_get tweet "pictures" JNull = Ok pictures
                  /\ py_get d "picture" JNull = Ok picture
                  /\ picture_of pictures picture)) in Hl as (ds & -> & Hds)
  end.
  - eexists _, ds. split; [reflexivity|]. split; [reflexivity | exact Hds].
  - intros t stats d _ Hd. eapply clean_tweet_picture. eassumption.
Qed.

Lemma twitter_picture_is_first_picture_or_empty_witness :
  exists all ds,
    py_iter sample_tweets = Ok all
    /\ py_get sample_result "tweets" JNull = Ok (JList ds)
    /\ Forall2
         (fun tweet d =>
            exists pictures picture,
              py_get tweet "pictures" JNull = Ok pictures
              /\ py_get d "picture" JNull = Ok picture
              /\ picture_of pictures picture)
         (List.filter (keeps bob) all) ds.
Proof.
  apply (twitter_picture_is_first_picture_or_empty sample_env bob sample_profile
           sample_tweets sample_result).
  vm_compute. reflexivity.
Defined.

(** ** What [get] stores, [history] can read *)

Lemma APITwitter_clean_payload_ok env self profile tweets data :
  APITwitter_clean env self profile tweets = Ok data -> payload_ok data.
Proof.
  intros H.
  apply APITwitter_clean_inv in H
    as (all & ds & rs & ls & cs & qs & more & profile'
        & _ & _ & _ & _ & _ & _ & _ & _ & Hp & ->).
  apply clean_profile_inv in Hp as (kv & raw & joined & stats & _ & _ & _ & _ & ->).
  eexists. unfold get2. simpl. rewrite assoc_dict_set_eq. reflexivity.
Qed.

Lemma APIYoutube_clean_payload_ok env self profile videos data :
  APIYoutube_clean env self profile videos = Ok data -> payload_ok data.
Proof.
  intros H.
  apply APIYoutube_clean_inv in H
    as (items & channel & image & views & subscribers & nvideos & vitems & vs & es
        & svs & sls & scs & name & userName & pid & joined & country & a & b & c
        & _ & _ & _ & _ & _ & _ & _ & _ & _ & _ & _ & _ & _ & _ & _ & ->).
  eexists. reflexivity.
Qed.

Lemma APITwitter_get_stores_payload_ok env self cache w :
  db (snd (APITwitter_get env self cache w)) = db w
  \/ exists result,
       payload_ok result
       /\ db (snd (APITwitter_get env self cache w))
          = (db w ++ [new_row env (tw_super self) (tw_params self) result w])%list.
Proof.
  unfold APITwitter_get, mbind.
  destruct (cache_step env (tw_super self) (tw_params self)
              (TwitterConfig_CACHE_TIMEDELTA env) cache w) as (o & -> & _).
  destruct o as [response|]; [left; reflexivity|].
  unfold lift. destruct (Nitter env) as [scraper|e]; [|left; reflexivity].
  destruct (negb _ || negb _); [left; reflexivity|].
  destruct (APITwitter_clean _ _ _ _) as [result|e] eqn:Hclean; [|left; reflexivity].
  apply APITwitter_clean_payload_ok in Hclean.
  unfold APITwitter_save.
  destruct (APIBase_save_db env (tw_super self) (tw_params self) result w)
    as (w' & -> & [Hdb|Hdb]); simpl.
  - left. assumption.
  - right. exists result. split; assumption.
Qed.

Lemma APIYoutube_get_stores_payload_ok env self cache w :
  db (snd (APIYoutube_get env self cache w)) = db w
  \/ exists result w2,
       payload_ok result
       /\ db (snd (APIYoutube_get env self cache w))
          = (db w ++ [new_row env (yt_super self) (yt_params self) result w2])%list.
Proof.
  unfold APIYoutube_get, mbind.
  destruct (cache_step env (yt_super self) (yt_params self)
              (YoutubeConfig_CACHE_TIMEDELTA env) cache w) as (o & -> & _).
  destruct o as [response|]; [left; reflexivity|].
  pose proof (APIYoutube_get_profile_untouched env self w) as H1.
  destruct (APIYoutube_get_profile env self w) as [[profile|e] w1];
    [|left; apply H1].
  pose proof (APIYoutube_get_videos_untouched env self w1) as H2.
  destruct (APIYoutube_get_videos env self w1) as [[videos|e] w2];
    simpl in H1, H2; [|left; destruct H1, H2; simpl; congruence].
  pose proof (table_untouched_trans _ _ _ H1 H2) as H12.
  destruct (negb _ || negb _); [left; apply H12|].
  unfold lift.
  destruct (APIYoutube_clean _ _ _ _) as [cleaned|e] eqn:Hclean; [|left; apply H12].
  cbv beta iota. rewrite (APIYoutube_clean_truthy _ _ _ _ _ Hclean).
  apply APIYoutube_clean_payload_ok in Hclean.
  unfold APIYoutube_save.
  destruct (APIBase_save_db env (yt_super self) (yt_params self) cleaned w2)
    as (w' & -> & [Hdb|Hdb]); cbv beta iota; unfold mret; simpl.
  - left. destruct H12 as [H12 _]. congruence.
  - right. exists cleaned, w2. split; [assumption|].
    destruct H12 as [H12 _]. congruence.
Qed.

Lemma history_returns_on_readable env w :
  time_zone_is_utc env ->
  readable w ->
  (forall reader : APITwitter,
      exists entries, APITwitter_history env reader w = (Ok entries, w))
  /\ (forall reader : APIYoutube,
         exists entries, APIYoutube_history env reader w = (Ok entries, w)).
Proof.
  intros Hutc Hreadable.
  assert (forall matching,
             (forall r, r ∈ matching -> r ∈ db w) ->
             exists entries,
               (res_mapM history_entry (all_unique env matching), w) = (Ok entries, w))
    as Hmain.
  { intros matching Hsub.
    destruct (history_of_rows env matching w Hutc)
      as (rs & _ & _ & _ & _ & _ & Htotal & _).
    destruct Htotal as (entries & He & _).
    - intros r Hr. apply Hreadable. apply Hsub. assumption.
    - simpl in He. exists entries. rewrite He. reflexivity. }
  split; intros reader.
  - apply (Hmain (filter_params (tw_params reader)
                    (filter_service (self_service (tw_super reader)) (db w)))).
    intros r Hr. unfold filter_params, filter_service in Hr.
    rewrite !elem_of_filter_bool in Hr. tauto.
  - apply (Hmain (filter_params (yt_params reader)
                    (filter_service (self_service (yt_super reader)) (db w)))).
    intros r Hr. unfold filter_params, filter_service in Hr.
    rewrite !elem_of_filter_bool in Hr. tauto.
Qed.

(** X13. Every payload that [get] stores has a [profile] with [stats]
    under it. So a table in which [history] can read every row stays such
    a table through any [get] of either adapter; and where the current
    time zone is UTC, the [history] of any adapter returns after the [get]
    (it raises nothing). *)
Theorem get_keeps_the_table_readable env cache w :
  readable w ->
  (forall self : APITwitter,
      readable (snd (APITwitter_get env self cache w))
      /\ (time_zone_is_utc env ->
          (forall reader : APITwitter,
              exists entries,
                APITwitter_history env reader (snd (APITwitter_get env self cache w))
                = (Ok entries, snd (APITwitter_get env self cache w)))
          /\ (forall reader : APIYoutube,
                 exists entries,
                   APIYoutube_history env reader (snd (APITwitter_get env self cache w))
                   = (Ok entries, snd (APITwitter_get env self cache w)))))
  /\ (forall self : APIYoutube,
         readable (snd (APIYoutube_get env self cache w))
         /\ (time_zone_is_utc env ->
             (forall reader : APITwitter,
                 exists entries,
                   APITwitter_history env reader (snd (APIYoutube_get env self cache w))
                   = (Ok entries, snd (APIYoutube_get env self cache w)))
             /\ (forall reader : APIYoutube,
                    exists entries,
                      APIYoutube_history env reader
                        (snd (APIYoutube_get env self cache w))
                      = (Ok entries, snd (APIYoutube_get env self cache w))))).
Proof.
  intros Hreadable.
  assert (forall self : APITwitter, readable (snd (APITwitter_get env self cache w)))
    as HT.
  { intros self r Hr.
    destruct (APITwitter_get_stores_payload_ok env self cache w)
      as [Hdb | (result & Hok & Hdb)]; rewrite Hdb in Hr.
    - apply Hreadable. assumption.
    - apply elem_of_app in Hr as [Hr|Hr]; [apply Hreadable; assumption|].
      apply list_elem_of_singleton in Hr. subst r. exact Hok. }
  assert (forall self : APIYoutube, readable (snd (APIYoutube_get env self cache w)))
    as HY.
  { intros self r Hr.
    destruct (APIYoutube_get_stores_payload_ok env self cache w)
      as [Hdb | (result & w2 & Hok & Hdb)]; rewrite Hdb in Hr.
    - apply Hreadable. assumption.
    - apply elem_of_app in Hr as [Hr|Hr]; [apply Hreadable; assumption|].
      apply list_elem_of_singleton in Hr. subst r. exact Hok. }
  split; intros self.
  - split; [apply HT|]. intros Hutc. apply history_returns_on_readable; [assumption|].
    apply HT.
  - split; [apply HY|]. intros Hutc. apply history_returns_on_readable; [assumption|].
    apply HY.
Qed.

Lemma get_keeps_the_table_readable_witness :
  readable (snd (APITwitter_get sample_env bob false (world sample_rows (2000 * hour))))
  /\ exists entries,
       APITwitter_history sample_env bob
         (snd (APITwitter_get sample_env bob false (world sample_rows (2000 * hour))))
       = (Ok entries,
          snd (APITwitter_get sample_env bob false (world sample_rows (2000 * hour)))).
Proof.
  destruct (get_keeps_the_table_readable sample_env false
              (world sample_rows (2000 * hour))) as [HT _].
  - intros r Hr. simpl in Hr.
    repeat (apply elem_of_cons in Hr as [-> | Hr];
            [eexists; vm_compute; reflexivity|]).
    inversion Hr.
  - destruct (HT bob) as (Hreadable & Hhistory).
    destruct (Hhistory (fun _ => eq_refl)) as [Hbob _].
    split; [exact Hreadable | exact (Hbob bob)].
Defined.

(** ** From the search to the request for the videos *)

(** X14. When the search answers with a non-empty list of items that all
    carry a video id, [__get_videos] sends exactly two requests: the
    search, then one request to [/videos] for those ids, in the order of
    the search and joined by commas, with the key of the adapter or, when
    the adapter has none, the key of the settings. It returns what that
    second request answers, or [None] when the answer is empty. *)
Theorem videos_request_asks_for_the_ids_of_the_search env self w items ids :
  py_get (answer_to env (videos_search_call env self)) "items" (JList [])
  = Ok (JList items) ->
  items <> [] ->
  Forall2 (fun item v => videoId_of item = Ok (JStr v)) items ids ->
  APIYoutube_get_videos env self w
  = (Ok (if truthy (answer_to env (videos_call env self ids))
         then answer_to env (videos_call env self ids) else JNull),
     logged (videos_call env self ids) (logged (videos_search_call env self) w)).
Proof. apply APIYoutube_get_videos_listed. Qed.

Lemma videos_request_asks_for_the_ids_of_the_search_witness :
  APIYoutube_get_videos sample_env sample_channel_adapter (world [] 0)
  = (Ok (if truthy (answer_to sample_env
                      (videos_call sample_env sample_channel_adapter ["v1"; "v2"]))
         then answer_to sample_env
                (videos_call sample_env sample_channel_adapter ["v1"; "v2"])
         else JNull),
     logged (videos_call sample_env sample_channel_adapter ["v1"; "v2"])
       (logged (videos_search_call sample_env sample_channel_adapter) (world [] 0))).
Proof.
  apply (videos_request_asks_for_the_ids_of_the_search sample_env
           sample_channel_adapter (world [] 0)
           [JDict [("id", JDict [("videoId", JStr "v1")])];
            JDict [("id", JDict [("videoId", JStr "v2")])]]
           ["v1"; "v2"]).
  - reflexivity.
  - discriminate.
  - repeat constructor.
Defined.

(** ** A channel that the API does not know *)

(** X15. When the answer to the request for the channel reports a number
    of results other than 1 (0 when it reports none), [__get_profile]
    returns [None]; [get], the cache not asked or missing, still sends the
    search for the videos and, if that raises nothing, answers with the
    status-500 envelope and stores nothing. *)
Theorem youtube_get_for_a_channel_not_found env self cache w n :
  cache_missed env (yt_super self) (yt_params self)
    (YoutubeConfig_CACHE_TIMEDELTA env) cache w ->
  totalResults (answer_to env (channels_call self)) = Ok (JInt n) ->
  n <> 1 ->
  APIYoutube_get_profile env self w = (Ok JNull, logged (channels_call self) w)
  /\ forall videos w2,
       APIYoutube_get_videos env self (logged (channels_call self) w) = (Ok videos, w2) ->
       APIYoutube_get env self cache w
       = (Ok (JDict [("status", JInt 500);
                     ("error", JStr "Youtube API couldn't fetch data")]), w2)
       /\ db w2 = db w.
Proof.
  intros Hmiss Htotal Hn.
  assert (APIYoutube_get_profile env self w = (Ok JNull, logged (channels_call self) w))
    as Hprofile.
  { unfold APIYoutube_get_profile, mbind.
    fold (channels_call self).
    assert (make_request env base_url "/channels" (snd (channels_call self)) w
            = (Ok (answer_to env (channels_call self)), logged (channels_call self) w))
      as Hreq.
    { unfold make_request, answer_to, logged, channels_call. cbn [truthy fst snd].
      destruct (requests_get env _ _); reflexivity. }
    unfold channels_call at 1 in Hreq. cbn [snd] in Hreq. rewrite Hreq.
    cbv beta iota.
    destruct (negb (truthy (answer_to env (channels_call self)))); [reflexivity|].
    unfold lift. rewrite (totalResults_is_1_int _ _ Htotal).
    assert ((n =? 1) = false) as -> by lia. reflexivity. }
  split; [exact Hprofile|].
  intros videos w2 Hvideos.
  apply (APIYoutube_get_failed_fetch env self cache w JNull videos
           (logged (channels_call self) w) w2 Hmiss Hprofile Hvideos).
  right. reflexivity.
Qed.

Lemma youtube_get_for_a_channel_not_found_witness :
  let stranger := APIYoutube_init (JStr "UC-nobody") (JStr "k") in
  APIYoutube_get_profile sample_env stranger (world sample_rows 0)
  = (Ok JNull, logged (channels_call stranger) (world sample_rows 0))
  /\ exists w2,
       APIYoutube_get sample_env stranger false (world sample_rows 0)
       = (Ok (JDict [("status", JInt 500);
                     ("error", JStr "Youtube API couldn't fetch data")]), w2)
       /\ db w2 = sample_rows.
Proof.
  intros stranger.
  destruct (youtube_get_for_a_channel_not_found sample_env stranger false
              (world sample_rows 0) 0) as [Hprofile Hget].
  - left. reflexivity.
  - reflexivity.
  - discriminate.
  - split; [exact Hprofile|].
    eexists. eapply Hget. vm_compute. reflexivity.
Defined.

(** ** A fresh row is served from the table *)



